(** * pytext/metrics/mask_metrics.py

    A shallow embedding of the metric aggregation of pytext's masked
    sequence-to-sequence model: [compute_length_metrics],
    [compute_masked_metrics], [compute_nas_masked_metrics] and the two result
    records, together with the fragments of the Python runtime they run on
    (exceptions, list and dict operations, float arithmetic).

    Python integers are [Z], Python floats are the binary64 floats of
    [PrimFloat], a [Dict[int, _]] is a [gmap Z _], and a computation that may
    raise lives in the [outcome] monad. *)

From Stdlib Require Import ZArith QArith Floats Lia.
From stdpp Require Import gmap strings list pretty.

Set Default Proof Using "Type".
Set Warnings "-inexact-float".
Local Open Scope Z_scope.

(** ** Exceptions and the outcome of a Python expression *)

(** The exceptions this module can raise. [ComplexResult] is not a Python
    exception: it marks the one place where Python leaves the floats (a
    negative base raised to a fractional power is a [complex]); the embedding
    does not follow the computation further. *)
Inductive exn : Set :=
| TypeError
| ValueError
| KeyError
| IndexError
| ZeroDivisionError
| OverflowError
| ComplexResult.

Inductive outcome (A : Type) : Type :=
| Ok (a : A)
| Raise (e : exn).

Arguments Ok {A} a.
Arguments Raise {A} e.

#[global] Instance outcome_ret : MRet outcome := fun _ a => Ok a.
#[global] Instance outcome_bind : MBind outcome := fun _ _ f m =>
  match m with
  | Ok a => f a
  | Raise e => Raise e
  end.

(** A [for] loop whose body may raise: the state is threaded through the
    iterations, and the first exception ends the loop. *)
Fixpoint for_each {S X : Type} (body : S -> X -> outcome S) (xs : list X) (s : S)
  : outcome S :=
  match xs with
  | [] => Ok s
  | x :: xs' => s' ← body s x; for_each body xs' s'
  end.

(** ** Builtins on integers, lists and dicts *)

(** [len(xs)] *)
Definition len {A : Type} (xs : list A) : Z := Z.of_nat (length xs).

(** [range(n)]: empty when [n <= 0]. *)
Definition range (n : Z) : list Z := Z.of_nat <$> seq 0 (Z.to_nat n).

(** [x in xs] on a list of integers. *)
Definition py_in (x : Z) (xs : list Z) : bool := bool_decide (x ∈ xs).

(** [xs[0 : stop]] for [stop >= 0] (every use below has [stop >= 1]). *)
Definition slice_to {A : Type} (xs : list A) (stop : Z) : list A :=
  take (Z.to_nat stop) xs.

(** [xs[0]]: [IndexError] on the empty list. *)
Definition first_item {A : Type} (xs : list A) : outcome A :=
  match xs with
  | [] => Raise IndexError
  | x :: _ => Ok x
  end.

(** [d[k]]: [KeyError] on a missing key. *)
Definition getitem {V : Type} (d : gmap Z V) (k : Z) : outcome V :=
  match d !! k with
  | Some v => Ok v
  | None => Raise KeyError
  end.

(** [max(xs)]: [ValueError] on the empty list. *)
Definition py_max (xs : list Z) : outcome Z :=
  match xs with
  | [] => Raise ValueError
  | x :: xs' => Ok (foldl Z.max x xs')
  end.

(** [str(n)]: the decimal numeral of an integer. *)
Definition str (n : Z) : string := pretty n.

(** ** Float arithmetic

    A Python float is an IEEE 754 binary64 number. Multiplication never
    raises; true division raises [ZeroDivisionError] exactly when the divisor
    compares equal to zero (either sign; a nan divisor does not); [**] follows
    CPython's [float_pow], which settles every special value itself and calls
    the C library only for a finite positive base other than one and a finite
    non-zero exponent. *)

Definition float_mul (a b : float) : outcome float := Ok (PrimFloat.mul a b).

Definition float_truediv (a b : float) : outcome float :=
  if PrimFloat.eqb b 0%float then Raise ZeroDivisionError
  else Ok (PrimFloat.div a b).

(** [iw == floor(iw)] for a finite [iw]. *)
Definition is_integer (x : float) : bool :=
  match Prim2SF x with
  | S754_zero _ => true
  | S754_finite _ m e =>
      if 0 <=? e then true
      else Z.land (Z.pos m) (Z.ones (- e)) =? 0
  | _ => false
  end.

(** [DOUBLE_IS_ODD_INTEGER(x)]: [fmod(fabs(x), 2.0) == 1.0]. *)
Definition is_odd_integer (x : float) : bool :=
  match Prim2SF x with
  | S754_finite _ m e =>
      if 0 <? e then false
      else (Z.land (Z.pos m) (Z.ones (- e)) =? 0) && Z.odd (Z.shiftr (Z.pos m) (- e))
  | _ => false
  end.

Section FloatPow.

(** The C library's [pow] on a finite positive base other than one and a
    finite non-zero exponent, seen through CPython's [errno] check: a double,
    or [OverflowError] (on [ERANGE]), or [ValueError]. *)
Variable libm_pow : float -> float -> outcome float.

Definition float_pow (iv iw : float) : outcome float :=
  if PrimFloat.eqb iw 0 then Ok 1%float
  else if is_nan iv then Ok iv
  else if is_nan iw then Ok (if PrimFloat.eqb iv 1 then 1%float else iw)
  else if is_infinity iw then
    let iv := abs iv in
    if PrimFloat.eqb iv 1 then Ok 1%float
    else if Bool.eqb (PrimFloat.ltb 0 iw) (PrimFloat.ltb 1 iv) then Ok (abs iw)
    else Ok 0%float
  else if is_infinity iv then
    let iw_is_odd := is_odd_integer iw in
    if PrimFloat.ltb 0 iw then Ok (if iw_is_odd then iv else abs iv)
    else Ok (if iw_is_odd
             then (if PrimFloat.ltb iv 0 then neg_zero else 0%float)
             else 0%float)
  else if PrimFloat.eqb iv 0 then
    if PrimFloat.ltb iw 0 then Raise ZeroDivisionError
    else Ok (if is_odd_integer iw then iv else 0%float)
  else if PrimFloat.ltb iv 0 && negb (is_integer iw) then Raise ComplexResult
  else
    let negate_result := PrimFloat.ltb iv 0 && is_odd_integer iw in
    let iv := if PrimFloat.ltb iv 0 then PrimFloat.opp iv else iv in
    if PrimFloat.eqb iv 1 then Ok (if negate_result then (-1)%float else 1%float)
    else
      ix ← libm_pow iv iw;
      Ok (if negate_result then PrimFloat.opp ix else ix).

(** [a * b] where [a] is an [Optional[float]]: [None * float] is a
    [TypeError]. *)
Definition optional_mul (a : option float) (b : float) : outcome float :=
  match a with
  | Some x => float_mul x b
  | None => Raise TypeError
  end.

End FloatPow.

(** ** sklearn.metrics.accuracy_score

    The fraction of positions at which the prediction equals the truth.
    sklearn returns the binary64 float nearest to [matches / n]; the model
    keeps the fraction itself, in lowest terms. Rounding to nearest is
    monotone and exact at 0 and 1, so comparing two scores, or a score with
    1.0, gives the same answer on the fractions as on the floats. Inputs of
    different lengths are refused with a [ValueError]; so are empty inputs
    here (what sklearn reports for them depends on its version, and
    [compute_length_metrics] cannot return normally on them in any case:
    its [max] then runs on an empty list). *)

Definition count_matches (y_true y_pred : list Z) : nat :=
  length (filter (fun p => p.1 = p.2) (zip y_true y_pred)).

Definition fraction (c n : nat) : Q := Qred (Z.of_nat c # Pos.of_nat n).

Definition accuracy_score (y_true y_pred : list Z) : outcome Q :=
  if negb (length y_true =? length y_pred)%nat then Raise ValueError
  else if (length y_true =? 0)%nat then Raise ValueError
  else Ok (fraction (count_matches y_true y_pred) (length y_true)).

(** ** Records of the collaborating modules *)

(** Modelled from the spec: the declaration of [LabelPrediction] lives in
    pytext.metrics, outside this file: "a one-hot-like score vector, a
    predicted class index, and an expected class index". The constructor
    takes them in this order, as [compute_length_metrics] passes them. *)
Module LabelPrediction.
Record t : Type := make {
  scores : list Z;
  predicted_label : Z;
  expected_label : Z;
}.
End LabelPrediction.

(** Modelled from the spec: the record returned by
    intent_slot_metrics.compute_all_metrics, declared outside this file; the
    seven attributes below are the ones [compute_masked_metrics] reads
    ("a record with the metric groups named in 4.2"). *)
Module AllMetrics.
Record t (FrameAccuraciesByDepth IntentSlotMetrics : Type) : Type := make {
  top_intent_accuracy : option float;
  frame_accuracy : option float;
  frame_accuracy_top_k : option float;
  frame_accuracies_by_depth : option FrameAccuraciesByDepth;
  bracket_metrics : option IntentSlotMetrics;
  tree_metrics : option IntentSlotMetrics;
  loss : option float;
}.
Arguments make {_ _} _ _ _ _ _ _ _.
Arguments top_intent_accuracy {_ _} _.
Arguments frame_accuracy {_ _} _.
Arguments frame_accuracy_top_k {_ _} _.
Arguments frame_accuracies_by_depth {_ _} _.
Arguments bracket_metrics {_ _} _.
Arguments tree_metrics {_ _} _.
Arguments loss {_ _} _.
End AllMetrics.

(** ** The result records of mask_metrics.py *)

(** What [compute_length_metrics] returns as its report: the empty dict it
    starts from, or the [ClassificationMetrics] of the external routine. *)
Inductive length_report (ClassificationMetrics : Type) : Type :=
| EmptyDict
| Report (r : ClassificationMetrics).

Arguments EmptyDict {ClassificationMetrics}.
Arguments Report {ClassificationMetrics} r.

(** [class MaskedSeq2SeqJointMetrics(NamedTuple)]. The class gives defaults
    to the fields from [loss] on; [compute_masked_metrics] passes every field,
    and [NASMaskedSeq2SeqJointMetrics.new] leaves [print_length_metrics] to
    its default, [True]. [length_metrics] maps a beam index to the score
    [accuracy_score] gave it. *)
Module MaskedSeq2SeqJointMetrics.
Record t (FrameAccuraciesByDepth IntentSlotMetrics ClassificationMetrics : Type)
  : Type := make {
  top_intent_accuracy : option float;
  frame_accuracy : option float;
  frame_accuracy_top_k : option float;
  frame_accuracies_by_depth : option FrameAccuraciesByDepth;
  bracket_metrics : option IntentSlotMetrics;
  tree_metrics : option IntentSlotMetrics;
  loss : option float;
  length_metrics : gmap Z Q;
  length_reports : length_report ClassificationMetrics;
  non_invalid_fa : float;
  extracted_fa : float;
  print_length_metrics : bool;
}.
Arguments make {_ _ _} _ _ _ _ _ _ _ _ _ _ _ _.
Arguments top_intent_accuracy {_ _ _} _.
Arguments frame_accuracy {_ _ _} _.
Arguments frame_accuracy_top_k {_ _ _} _.
Arguments frame_accuracies_by_depth {_ _ _} _.
Arguments bracket_metrics {_ _ _} _.
Arguments tree_metrics {_ _ _} _.
Arguments loss {_ _ _} _.
Arguments length_metrics {_ _ _} _.
Arguments length_reports {_ _ _} _.
Arguments non_invalid_fa {_ _ _} _.
Arguments extracted_fa {_ _ _} _.
Arguments print_length_metrics {_ _ _} _.

(** The default of the field [print_length_metrics]. *)
Definition print_length_metrics_default : bool := true.
End MaskedSeq2SeqJointMetrics.

(** [class NASMaskedSeq2SeqJointMetrics(MaskedSeq2SeqJointMetrics)]: an
    instance is a base tuple ([super]) that carries two more attributes. *)
Module NASMaskedSeq2SeqJointMetrics.
Record t (FrameAccuraciesByDepth IntentSlotMetrics ClassificationMetrics : Type)
  : Type := make {
  super : MaskedSeq2SeqJointMetrics.t
            FrameAccuraciesByDepth IntentSlotMetrics ClassificationMetrics;
  model_num_param : float;
  norm_prod_model_param_frame_accuracy : float;
}.
Arguments make {_ _ _} _ _ _.
Arguments super {_ _ _} _.
Arguments model_num_param {_ _ _} _.
Arguments norm_prod_model_param_frame_accuracy {_ _ _} _.

(** [__new__(cls, **kwargs)]: the two NAS keywords are popped, the remaining
    eleven build the base tuple, and the two are then set as attributes. *)
Definition new {FrameAccuraciesByDepth IntentSlotMetrics ClassificationMetrics : Type}
    (top_intent_accuracy frame_accuracy frame_accuracy_top_k : option float)
    (frame_accuracies_by_depth : option FrameAccuraciesByDepth)
    (bracket_metrics tree_metrics : option IntentSlotMetrics)
    (loss : option float)
    (length_metrics : gmap Z Q)
    (length_reports : length_report ClassificationMetrics)
    (non_invalid_fa extracted_fa : float)
    (model_num_param norm_prod_model_param_frame_accuracy : float)
  : t FrameAccuraciesByDepth IntentSlotMetrics ClassificationMetrics :=
  let self :=
    MaskedSeq2SeqJointMetrics.make
      top_intent_accuracy frame_accuracy frame_accuracy_top_k
      frame_accuracies_by_depth bracket_metrics tree_metrics loss
      length_metrics length_reports non_invalid_fa extracted_fa
      MaskedSeq2SeqJointMetrics.print_length_metrics_default in
  make self model_num_param norm_prod_model_param_frame_accuracy.
End NASMaskedSeq2SeqJointMetrics.

(** ** The three aggregation functions *)

Section MaskMetrics.

(** Types of the collaborating modules, opaque here. *)
Variables FramePredictionPair Node : Type.
Variables FrameAccuraciesByDepth IntentSlotMetrics ClassificationMetrics : Type.

(** intent_slot_metrics.compute_all_metrics(frame_pairs, top_intent_accuracy,
    frame_accuracy, frame_accuracies_by_depth, bracket_metrics, tree_metrics,
    overall_metrics, all_predicted_frames, calculated_loss). *)
Variable compute_all_metrics :
  list FramePredictionPair -> bool -> bool -> bool -> bool -> bool -> bool ->
  option (list (list Node)) -> option float ->
  outcome (AllMetrics.t FrameAccuraciesByDepth IntentSlotMetrics).

(** intent_slot_metrics.compute_frame_accuracy(frame_pairs), here called on
    an [Optional] sequence. *)
Variable compute_frame_accuracy :
  option (list FramePredictionPair) -> outcome float.

(** pytext.metrics.compute_classification_metrics(predictions, label_names,
    loss). *)
Variable compute_classification_metrics :
  list LabelPrediction.t -> list string -> float -> outcome ClassificationMetrics.

(** The C library's [pow], as [float_pow] calls it. *)
Variable libm_pow : float -> float -> outcome float.

Abbreviation Metrics :=
  (MaskedSeq2SeqJointMetrics.t FrameAccuraciesByDepth IntentSlotMetrics ClassificationMetrics).
Abbreviation NASMetrics :=
  (NASMaskedSeq2SeqJointMetrics.t FrameAccuraciesByDepth IntentSlotMetrics ClassificationMetrics).

(** [all_length_pred_agg[l].append(v)] *)
Definition append_at (all_length_pred_agg : gmap Z (list Z)) (l v : Z)
  : outcome (gmap Z (list Z)) :=
  xs ← getitem all_length_pred_agg l;
  Ok (<[l := xs ++ [v]]> all_length_pred_agg).

(** The body of [for l in range(beam)] (lines 94-97) for one example. *)
Definition aggregate_width (label : Z) (preds : list Z)
    (all_length_pred_agg : gmap Z (list Z)) (l : Z) : outcome (gmap Z (list Z)) :=
  if py_in label (slice_to preds (l + 1))
  then append_at all_length_pred_agg l label
  else
    _ ← getitem all_length_pred_agg l;
    p0 ← first_item preds;
    append_at all_length_pred_agg l p0.

(** The body of [for label, preds in zip(...)] (lines 93-97). *)
Definition aggregate_example (beam : Z)
    (all_length_pred_agg : gmap Z (list Z)) (example : Z * list Z)
  : outcome (gmap Z (list Z)) :=
  let '(label, preds) := example in
  for_each (aggregate_width label preds) (range beam) all_length_pred_agg.

(** The body of the loop of lines 98-99:
    [length_metrics[i] = accuracy_score(all_target_lens, all_length_pred_agg[i])]. *)
Definition score_width (all_target_lens : list Z)
    (all_length_pred_agg : gmap Z (list Z))
    (length_metrics : gmap Z Q) (i : Z) : outcome (gmap Z Q) :=
  y_pred ← getitem all_length_pred_agg i;
  accuracy ← accuracy_score all_target_lens y_pred;
  Ok (<[i := accuracy]> length_metrics).

(** [1 if idx == pred else 0 for idx in range(max_len + 1)] *)
Definition one_hot (max_len pred : Z) : list Z :=
  (fun idx => if bool_decide (idx = pred) then 1 else 0) <$> range (max_len + 1).

(** Lines 80-115. [if all_target_length_preds:] is the match on the list;
    the three loops are [foldl] (it cannot raise) and two [for_each]. *)
Definition compute_length_metrics
    (all_target_lens : list Z)
    (all_target_length_preds : list (list Z))
    (select_length_beam : Z)
  : outcome (gmap Z Q * length_report ClassificationMetrics) :=
  let length_metrics : gmap Z Q := ∅ in
  let length_report : length_report ClassificationMetrics := EmptyDict in
  match all_target_length_preds with
  | [] => Ok (length_metrics, length_report)
  | preds0 :: _ =>
      let all_length_pred_agg : gmap Z (list Z) := ∅ in
      let beam := len preds0 in
      let all_length_pred_agg :=
        foldl (fun agg i => <[i := []]> agg) all_length_pred_agg (range beam) in
      all_length_pred_agg ←
        for_each (aggregate_example beam)
          (zip all_target_lens all_target_length_preds) all_length_pred_agg;
      length_metrics ←
        for_each (score_width all_target_lens all_length_pred_agg)
          (range beam) length_metrics;
      selected ← getitem all_length_pred_agg select_length_beam;
      max_len ← py_max (all_target_lens ++ selected);
      let all_pairs :=
        (fun '(pred, expect) =>
           LabelPrediction.make (one_hot max_len pred) pred expect)
          <$> zip selected all_target_lens in
      length_report ←
        compute_classification_metrics
          all_pairs (str <$> range (max_len + 1)) 0%float;
      Ok (length_metrics, Report length_report)
  end.

(** Lines 118-164. The parameter [length_metrics] is rebound by the result
    of [compute_length_metrics] (line 148) before anything reads it. The
    keyword arguments of the constructor are evaluated in order, so the
    non-invalid subset is scored before the extracted one. *)
Definition compute_masked_metrics
    (frame_pairs : list FramePredictionPair)
    (all_target_lens : list Z)
    (all_target_length_preds : list (list Z))
    (select_length_beam : Z)
    (top_intent_accuracy frame_accuracy frame_accuracies_by_depth : bool)
    (bracket_metrics tree_metrics overall_metrics : bool)
    (all_predicted_frames : option (list (list Node)))
    (calculated_loss : option float)
    (length_metrics : option (gmap Z Q))
    (non_invalid_frame_pairs extracted_frame_pairs : option (list FramePredictionPair))
    (print_length_metrics : bool)
  : outcome Metrics :=
  all_metrics ←
    compute_all_metrics frame_pairs top_intent_accuracy frame_accuracy
      frame_accuracies_by_depth bracket_metrics tree_metrics overall_metrics
      all_predicted_frames calculated_loss;
  '(length_metrics, length_reports) ←
    compute_length_metrics all_target_lens all_target_length_preds select_length_beam;
  non_invalid_fa ← compute_frame_accuracy non_invalid_frame_pairs;
  extracted_fa ← compute_frame_accuracy extracted_frame_pairs;
  Ok (MaskedSeq2SeqJointMetrics.make
        (AllMetrics.top_intent_accuracy all_metrics)
        (AllMetrics.frame_accuracy all_metrics)
        (AllMetrics.frame_accuracy_top_k all_metrics)
        (AllMetrics.frame_accuracies_by_depth all_metrics)
        (AllMetrics.bracket_metrics all_metrics)
        (AllMetrics.tree_metrics all_metrics)
        (AllMetrics.loss all_metrics)
        length_metrics
        length_reports
        non_invalid_fa
        extracted_fa
        print_length_metrics).

(** Lines 205-208: the numerator is evaluated before the denominator, each
    from left to right. *)
Definition nas_objective (frame_accuracy : option float)
    (model_num_param ref_model_num_param ref_frame_accuracy param_importance : float)
  : outcome float :=
  ref_pow ← float_pow libm_pow ref_model_num_param param_importance;
  numerator ← optional_mul frame_accuracy ref_pow;
  model_pow ← float_pow libm_pow model_num_param param_importance;
  denominator ← float_mul ref_frame_accuracy model_pow;
  float_truediv numerator denominator.

(** Lines 167-224. The function takes the six toggles and [length_metrics]
    (lines 172-180) but the call of lines 189-199 passes none of them on: it
    sets [overall_metrics=True] and leaves the defaults of
    [compute_masked_metrics] in place for the rest: the five other toggles
    are [True], [length_metrics] is [None], [print_length_metrics] is
    [True]. *)
Definition compute_nas_masked_metrics
    (frame_pairs : list FramePredictionPair)
    (all_target_lens : list Z)
    (all_target_length_preds : list (list Z))
    (select_length_beam : Z)
    (top_intent_accuracy frame_accuracy frame_accuracies_by_depth : bool)
    (bracket_metrics tree_metrics overall_metrics : bool)
    (all_predicted_frames : option (list (list Node)))
    (calculated_loss : option float)
    (length_metrics : option (gmap Z Q))
    (non_invalid_frame_pairs extracted_frame_pairs : option (list FramePredictionPair))
    (model_num_param ref_model_num_param ref_frame_accuracy param_importance : float)
  : outcome NASMetrics :=
  masked_seq2seq_joint_metrics ←
    compute_masked_metrics frame_pairs all_target_lens all_target_length_preds
      select_length_beam
      true true true true true
      true (* overall_metrics=True *)
      all_predicted_frames calculated_loss
      None
      non_invalid_frame_pairs extracted_frame_pairs
      true;
  norm_prod_model_param_frame_accuracy ←
    nas_objective
      (MaskedSeq2SeqJointMetrics.frame_accuracy masked_seq2seq_joint_metrics)
      model_num_param ref_model_num_param ref_frame_accuracy param_importance;
  Ok (NASMaskedSeq2SeqJointMetrics.new
        (MaskedSeq2SeqJointMetrics.top_intent_accuracy masked_seq2seq_joint_metrics)
        (MaskedSeq2SeqJointMetrics.frame_accuracy masked_seq2seq_joint_metrics)
        (MaskedSeq2SeqJointMetrics.frame_accuracy_top_k masked_seq2seq_joint_metrics)
        (MaskedSeq2SeqJointMetrics.frame_accuracies_by_depth masked_seq2seq_joint_metrics)
        (MaskedSeq2SeqJointMetrics.bracket_metrics masked_seq2seq_joint_metrics)
        (MaskedSeq2SeqJointMetrics.tree_metrics masked_seq2seq_joint_metrics)
        (MaskedSeq2SeqJointMetrics.loss masked_seq2seq_joint_metrics)
        (MaskedSeq2SeqJointMetrics.length_metrics masked_seq2seq_joint_metrics)
        (MaskedSeq2SeqJointMetrics.length_reports masked_seq2seq_joint_metrics)
        (MaskedSeq2SeqJointMetrics.non_invalid_fa masked_seq2seq_joint_metrics)
        (MaskedSeq2SeqJointMetrics.extracted_fa masked_seq2seq_joint_metrics)
        model_num_param
        norm_prod_model_param_frame_accuracy).

End MaskMetrics.

Arguments compute_length_metrics {_} _ _ _ _.
Arguments compute_masked_metrics {_ _ _ _ _} _ _ _ _ _ _ _ _ _ _ _ _ _ _ _ _ _ _ _.
Arguments compute_nas_masked_metrics {_ _ _ _ _} _ _ _ _ _ _ _ _ _ _ _ _ _ _ _ _ _ _ _ _ _ _ _.

(** ** The length-metric contract, in the words of the specification

    These definitions follow section 4.1 of the specification, not the code;
    the theorems below compare them with [compute_length_metrics]. *)

(** The effective prediction of an example at beam width [k]: the gold
    length when it appears within [preds[0..k]] (inclusive), otherwise
    [preds[0]] (which an empty [preds] does not have). *)
Definition effective_prediction (label : Z) (preds : list Z) (k : Z) : option Z :=
  if bool_decide (label ∈ take (Z.to_nat (k + 1)) preds)
  then Some label
  else head preds.

(** An example is counted correct at width [k] when its effective prediction
    equals its gold length. *)
Definition counted_correct (k : Z) (example : Z * list Z) : bool :=
  bool_decide (effective_prediction example.1 example.2 k = Some example.1).

(** The effective predictions of all examples at width [k]. *)
Definition effective_predictions (L : list Z) (P : list (list Z)) (k : Z)
  : option (list Z) :=
  mapM (fun example => effective_prediction example.1 example.2 k) (zip L P).

(** Accuracy at width [k]: the fraction of examples counted correct. *)
Definition accuracy_at (L : list Z) (P : list (list Z)) (k : Z) : Q :=
  fraction (length (filter (fun example => counted_correct k example) (zip L P)))
           (length L).

(** The largest of the gold lengths and effective predictions. *)
Definition is_max_of (m : Z) (xs : list Z) : Prop :=
  m ∈ xs /\ forall x, x ∈ xs -> x <= m.

(** A one-hot vector over the integer range [[0, max_len]]: one entry per
    integer of the range, 1 at [pred] and 0 elsewhere. *)
Definition one_hot_over (max_len pred : Z) (v : list Z) : Prop :=
  length v = Z.to_nat (max_len + 1) /\
  forall idx, 0 <= idx <= max_len ->
    v !! Z.to_nat idx = Some (if decide (idx = pred) then 1 else 0).

(** The class labels: the stringified integers of the range [[0, max_len]]. *)
Definition label_names_over (max_len : Z) (names : list string) : Prop :=
  length names = Z.to_nat (max_len + 1) /\
  forall idx, 0 <= idx <= max_len -> names !! Z.to_nat idx = Some (str idx).

(** ** Collaborators for the closed examples

    Small stand-ins for the external routines, used where a statement is
    evaluated on concrete data. A frame pair is reduced to one bit: whether
    the predicted frame equals the expected one. *)

(** A classification report that records what the routine was given. *)
Definition echo_report : Type := list LabelPrediction.t * list string * float.

Definition echo_classification_metrics
    (predictions : list LabelPrediction.t) (label_names : list string) (loss : float)
  : outcome echo_report :=
  Ok (predictions, label_names, loss).

(** Frame accuracy as intent_slot_metrics computes it: correct / samples, and
    0 when there is nothing to divide by. *)
Definition bit_accuracy (frame_pairs : list bool) : float :=
  let num_samples := Z.of_nat (length frame_pairs) in
  let num_correct := Z.of_nat (length (filter (fun b => b = true) frame_pairs)) in
  if num_samples =? 0 then 0%float
  else PrimFloat.div (PrimFloat.of_uint63 (Uint63.of_Z num_correct))
                     (PrimFloat.of_uint63 (Uint63.of_Z num_samples)).

(** compute_frame_accuracy, tolerant of an absent pairs argument, for which
    it returns 0. *)
Definition bit_frame_accuracy (frame_pairs : option (list bool)) : outcome float :=
  match frame_pairs with
  | None => Ok 0%float
  | Some pairs => Ok (bit_accuracy pairs)
  end.

(** compute_all_metrics with every group gated by its toggle, as the
    specification describes it: a group whose toggle is false is absent. *)
Definition toggled_all_metrics
    (frame_pairs : list bool)
    (top_intent_accuracy frame_accuracy frame_accuracies_by_depth : bool)
    (bracket_metrics tree_metrics overall_metrics : bool)
    (all_predicted_frames : option (list (list unit)))
    (calculated_loss : option float)
  : outcome (AllMetrics.t unit unit) :=
  Ok (AllMetrics.make
        (if top_intent_accuracy then Some (bit_accuracy frame_pairs) else None)
        (if frame_accuracy then Some (bit_accuracy frame_pairs) else None)
        (if frame_accuracy then Some (bit_accuracy frame_pairs) else None)
        (if frame_accuracies_by_depth then Some tt else None)
        (if bracket_metrics then Some tt else None)
        (if tree_metrics then Some tt else None)
        calculated_loss).

(** compute_all_metrics returning no metric group at all. *)
Definition absent_all_metrics
    (frame_pairs : list bool)
    (top_intent_accuracy frame_accuracy frame_accuracies_by_depth : bool)
    (bracket_metrics tree_metrics overall_metrics : bool)
    (all_predicted_frames : option (list (list unit)))
    (calculated_loss : option float)
  : outcome (AllMetrics.t unit unit) :=
  Ok (AllMetrics.make None None None None None None calculated_loss).

(** A C library that is only asked for first powers, where [pow] is exact:
    [pow(x, 1.0) = x]. Any other exponent is reported out of range; no closed
    example below reaches that case. *)
Definition first_power_pow (x y : float) : outcome float :=
  if PrimFloat.eqb y 1 then Ok x else Raise OverflowError.

(** ** The print_metrics methods

    What a print routine leaves behind is the list of the texts it handed to
    [print], in order, and the exception that ended it early, if any: what was
    printed before an exception stays printed. *)

(** What can end [print_metrics] early: the [AttributeError] of reading
    [accuracy] off the empty dict, or an exception of a collaborator's own
    print routine. *)
Inductive print_exn : Set :=
| AttributeError
| Collaborator (e : exn).

Definition printed : Type := list string * option print_exn.

(** [print(text)] *)
Definition print_line (text : string) : printed := ([text], None).

(** A branch not taken. *)
Definition nothing_printed : printed := ([], None).

(** An expression that raises before anything is printed. *)
Definition print_raise (e : print_exn) : printed := ([], Some e).

(** One statement after another. *)
Definition and_then (p q : printed) : printed :=
  match p.2 with
  | Some _ => p
  | None => (p.1 ++ q.1, q.2)
  end.

Infix ">>>" := and_then (at level 61, left associativity).

(** The line feed of ["\n"]. *)
Definition newline : string := String (Ascii.ascii_of_nat 10) EmptyString.

(** [bool(x)] of a float: everything but the two zeros is true, nan
    included. *)
Definition float_bool (x : float) : bool := negb (PrimFloat.eqb x 0).

Section PrintMetrics.

Variables FrameAccuraciesByDepth IntentSlotMetrics ClassificationMetrics : Type.

(** [bool(x)] and [x.print_metrics()] of an IntentSlotMetrics: the texts it
    prints and the exception it ends with, if any. *)
Variable intent_slot_bool : IntentSlotMetrics -> bool.
Variable intent_slot_print_metrics : IntentSlotMetrics -> list string * option exn.

(** [bool(x)], [x.accuracy] and [x.print_metrics()] of a
    ClassificationMetrics; the latter gives the texts it prints and then
    either [str] of the value it returns or the exception it raises. *)
Variable classification_bool : ClassificationMetrics -> bool.
Variable classification_accuracy : ClassificationMetrics -> float.
Variable classification_print_metrics :
  ClassificationMetrics -> list string * outcome string.

(** The format [:.2f], [str] of a float and [str] of the length_metrics
    dict. *)
Variable format_2f : float -> string.
Variable str_float : float -> string.
Variable str_length_metrics : gmap Z Q -> string.

(** [if x: print(f"{label}{x * 100:.2f}")] for an [Optional[float]] [x]. *)
Definition print_percentage (label : string) (x : option float) : printed :=
  match x with
  | Some v =>
      if float_bool v
      then print_line (label +:+ format_2f (PrimFloat.mul v 100))
      else nothing_printed
  | None => nothing_printed
  end.

(** [if x: print(title); x.print_metrics()] for an
    [Optional[IntentSlotMetrics]] [x]. *)
Definition print_intent_slot (title : string) (x : option IntentSlotMetrics)
  : printed :=
  match x with
  | Some metrics =>
      if intent_slot_bool metrics
      then print_line title
           >>> (let '(texts, raised) := intent_slot_print_metrics metrics in
                (texts, Collaborator <$> raised))
      else nothing_printed
  | None => nothing_printed
  end.

(** [if x: print(f"{label}{x}")] for a float [x]. *)
Definition print_float (label : string) (x : float) : printed :=
  if float_bool x then print_line (label +:+ str_float x) else nothing_printed.

(** Lines 36-55. In line 51 the argument of [print] is evaluated first: the
    report prints itself, and the header follows with [str] of what
    [print_metrics] returned. *)
Definition print_metrics
    (self : MaskedSeq2SeqJointMetrics.t
              FrameAccuraciesByDepth IntentSlotMetrics ClassificationMetrics)
  : printed :=
  print_percentage (newline +:+ newline +:+ "Frame accuracy = ")
    (MaskedSeq2SeqJointMetrics.frame_accuracy self)
  >>> print_percentage (newline +:+ newline +:+ "Top k frame accuracy = ")
        (MaskedSeq2SeqJointMetrics.frame_accuracy_top_k self)
  >>> print_intent_slot (newline +:+ newline +:+ "Bracket Metrics")
        (MaskedSeq2SeqJointMetrics.bracket_metrics self)
  >>> print_intent_slot (newline +:+ newline +:+ "Tree Metrics")
        (MaskedSeq2SeqJointMetrics.tree_metrics self)
  >>> (if bool_decide (MaskedSeq2SeqJointMetrics.length_metrics self <> ∅)
       then
         print_line (newline +:+ newline +:+ "Length Metrics : "
                     +:+ str_length_metrics
                           (MaskedSeq2SeqJointMetrics.length_metrics self))
         >>> match MaskedSeq2SeqJointMetrics.length_reports self with
             | Report report =>
                 print_line ("Length Accuracy: "
                             +:+ format_2f
                                   (PrimFloat.mul (classification_accuracy report) 100))
             | EmptyDict => print_raise AttributeError
             end
       else nothing_printed)
  >>> match MaskedSeq2SeqJointMetrics.length_reports self with
      | Report report =>
          if classification_bool report
             && MaskedSeq2SeqJointMetrics.print_length_metrics self
          then
            match classification_print_metrics report with
            | (texts, Ok returned) =>
                (texts, None)
                >>> print_line (newline +:+ newline +:+ "Length Reports : "
                                +:+ returned)
            | (texts, Raise e) => (texts, Some (Collaborator e))
            end
          else nothing_printed
      | EmptyDict => nothing_printed
      end
  >>> print_float "Non Invalid FA " (MaskedSeq2SeqJointMetrics.non_invalid_fa self)
  >>> print_float "Extracted FA " (MaskedSeq2SeqJointMetrics.extracted_fa self).

(** Lines 69-77. The objective is a float, never [None], so its line is
    always printed. *)
Definition nas_print_metrics
    (self : NASMaskedSeq2SeqJointMetrics.t
              FrameAccuraciesByDepth IntentSlotMetrics ClassificationMetrics)
  : printed :=
  print_metrics (NASMaskedSeq2SeqJointMetrics.super self)
  >>> (if float_bool (NASMaskedSeq2SeqJointMetrics.model_num_param self)
       then print_line (newline +:+ "Number of Parameters "
                        +:+ str_float
                              (NASMaskedSeq2SeqJointMetrics.model_num_param self))
       else nothing_printed)
  >>> print_line ("Normalized product of model parameter and frame accuracy "
                  +:+ str_float
                        (NASMaskedSeq2SeqJointMetrics.norm_prod_model_param_frame_accuracy
                           self)).

End PrintMetrics.

Arguments print_intent_slot {_} _ _ _ _.
Arguments print_metrics {_ _ _} _ _ _ _ _ _ _ _ _.
Arguments nas_print_metrics {_ _ _} _ _ _ _ _ _ _ _ _.

(** ** Further readings of the length metrics *)

(** The gold length is among the first [k + 1] predictions of the example. *)
Definition in_top (k : Z) (example : Z * list Z) : bool :=
  bool_decide (example.1 ∈ take (Z.to_nat (k + 1)) example.2).

(** Top-(k+1) accuracy: the fraction of examples whose gold length is among
    their first [k + 1] predictions. *)
Definition top_accuracy (L : list Z) (P : list (list Z)) (k : Z) : Q :=
  fraction (length (filter (fun example => in_top k example) (zip L P)))
           (length L).

(** The predictions of a report whose predicted label is the expected one. *)
Definition report_hits (predictions : list LabelPrediction.t) : nat :=
  length (filter (fun p => LabelPrediction.predicted_label p
                           = LabelPrediction.expected_label p) predictions).

(** ** Collaborators for the closed examples of printing *)

(** The accuracy of a recorded report: hits / predictions. *)
Definition echo_accuracy (report : echo_report) : float :=
  bit_accuracy
    ((fun p => bool_decide (LabelPrediction.predicted_label p
                            = LabelPrediction.expected_label p))
       <$> report.1.1).

(** A report that prints one text and returns [None]. *)
Definition echo_print_metrics (report : echo_report) : list string * outcome string :=
  (["<report>"%string], Ok "None"%string).

(** Intent-slot metrics that print one text. *)
Definition unit_print_metrics (metrics : unit) : list string * option exn :=
  (["<intent slot metrics>"%string], None).

(** Formatting left opaque: every number prints as [#]. *)
Definition hash_format (x : float) : string := "#".

Definition hash_dict (d : gmap Z Q) : string := "{#}".

(** * Facts about the Python builtins *)

Lemma bind_Ok {A B : Type} (m : outcome A) (f : A -> outcome B) (b : B) :
  m ≫= f = Ok b <-> exists a, m = Ok a /\ f a = Ok b.
Proof.
  destruct m as [a|e]; simpl; split.
  - intros H. exists a. split; [reflexivity | exact H].
  - intros (a' & Ha & Hf). injection Ha as ->. exact Hf.
  - discriminate.
  - intros (a' & Ha & _). discriminate.
Qed.

Lemma elem_of_range (k n : Z) : k ∈ range n <-> 0 <= k < n.
Proof.
  unfold range. rewrite list_elem_of_fmap. split.
  - intros (i & -> & Hi). apply elem_of_seq in Hi. lia.
  - intros Hk. exists (Z.to_nat k). split; [lia |].
    apply elem_of_seq. lia.
Qed.

Lemma NoDup_range (n : Z) : NoDup (range n).
Proof.
  unfold range. apply NoDup_fmap_2; [apply Nat2Z.inj' | apply NoDup_seq].
Qed.

Lemma length_range (n : Z) : 0 <= n -> len (range n) = n.
Proof.
  intros Hn. unfold len, range. rewrite length_fmap, length_seq. lia.
Qed.

Lemma lookup_range (n idx : Z) :
  0 <= idx < n -> range n !! Z.to_nat idx = Some idx.
Proof.
  intros Hidx. unfold range. rewrite list_lookup_fmap.
  rewrite lookup_seq_lt by lia. simpl. f_equal. lia.
Qed.

Lemma getitem_Ok {V : Type} (d : gmap Z V) (k : Z) (v : V) :
  getitem d k = Ok v <-> d !! k = Some v.
Proof.
  unfold getitem. destruct (d !! k); split; intros H; congruence.
Qed.

Lemma foldl_max_le (xs : list Z) (x : Z) : x <= foldl Z.max x xs.
Proof.
  revert x. induction xs as [|y xs IH]; intros x; simpl; [lia |].
  specialize (IH (Z.max x y)). lia.
Qed.

Lemma foldl_max_bound (xs : list Z) (x y : Z) :
  y ∈ xs -> y <= foldl Z.max x xs.
Proof.
  revert x. induction xs as [|z xs IH]; intros x Hy.
  - inversion Hy.
  - apply elem_of_cons in Hy as [-> | Hy]; simpl.
    + pose proof (foldl_max_le xs (Z.max x z)). lia.
    + apply IH, Hy.
Qed.

Lemma foldl_max_elem (xs : list Z) (x : Z) :
  foldl Z.max x xs = x \/ foldl Z.max x xs ∈ xs.
Proof.
  revert x. induction xs as [|z xs IH]; intros x; simpl; [left; reflexivity |].
  destruct (IH (Z.max x z)) as [H | H].
  - rewrite H. destruct (Z.max_spec x z) as [[_ ->] | [_ ->]].
    + right. apply elem_of_cons. left. reflexivity.
    + left. reflexivity.
  - right. apply elem_of_cons. right. exact H.
Qed.

(** [max] returns the largest element of a non-empty list. *)
Lemma py_max_Ok (xs : list Z) (m : Z) :
  py_max xs = Ok m -> is_max_of m xs.
Proof.
  destruct xs as [|x xs]; simpl; [discriminate |].
  intros [= <-]. split.
  - destruct (foldl_max_elem xs x) as [-> | H].
    + apply elem_of_cons. left. reflexivity.
    + apply elem_of_cons. right. exact H.
  - intros y Hy. apply elem_of_cons in Hy as [-> | Hy].
    + apply foldl_max_le.
    + apply foldl_max_bound, Hy.
Qed.

Lemma py_max_returns (xs : list Z) : xs <> [] -> exists m, py_max xs = Ok m.
Proof.
  destruct xs as [|x xs]; [congruence |]. intros _. eexists. reflexivity.
Qed.

(** * Facts about [accuracy_score] *)

Lemma accuracy_score_Ok (y_true y_pred : list Z) (a : Q) :
  accuracy_score y_true y_pred = Ok a <->
  length y_true = length y_pred /\ y_true <> [] /\
  a = fraction (count_matches y_true y_pred) (length y_true).
Proof.
  unfold accuracy_score.
  destruct (Nat.eqb_spec (length y_true) (length y_pred)) as [Hlen | Hlen]; simpl.
  - destruct (Nat.eqb_spec (length y_true) 0) as [H0 | H0].
    + split; [discriminate |]. intros (_ & Hne & _).
      destruct y_true; [congruence | discriminate].
    + split.
      * intros [= <-]. repeat split; [exact Hlen |]. intros ->. apply H0. reflexivity.
      * intros (_ & _ & ->). reflexivity.
  - split; [discriminate |]. intros (H & _). contradiction.
Qed.

Lemma fraction_le (c c' n : nat) :
  (c <= c')%nat -> (fraction c n <= fraction c' n)%Q.
Proof.
  intros Hc. unfold fraction. rewrite !Qred_correct.
  unfold Qle. simpl. apply Z.mul_le_mono_nonneg_r; lia.
Qed.

Lemma fraction_all (n : nat) : n <> 0%nat -> fraction n n = 1%Q.
Proof.
  intros Hn. unfold fraction.
  change 1%Q with (Qred 1). apply Qred_complete.
  unfold Qeq. simpl.
  destruct n as [|n]; [congruence |].
  rewrite <- Pos.of_nat_succ, Zpos_P_of_succ_nat. lia.
Qed.

(** * The aggregation loops of [compute_length_metrics] *)

(** One width of one example: the list under key [l] grows by the effective
    prediction of the example at that width. *)
Lemma aggregate_width_eq (label : Z) (preds : list Z)
    (agg : gmap Z (list Z)) (l : Z) :
  aggregate_width label preds agg l =
  match agg !! l with
  | None => Raise KeyError
  | Some xs =>
      match effective_prediction label preds l with
      | Some e => Ok (<[l := xs ++ [e]]> agg)
      | None => Raise IndexError
      end
  end.
Proof.
  unfold aggregate_width, append_at, effective_prediction, py_in, slice_to, getitem.
  destruct (bool_decide (label ∈ take (Z.to_nat (l + 1)) preds));
    destruct (agg !! l) as [xs|]; simpl; try reflexivity.
  destruct preds; reflexivity.
Qed.

Lemma aggregate_widths_Ok (label : Z) (preds : list Z) (ks : list Z) :
  NoDup ks ->
  forall agg agg' : gmap Z (list Z),
    for_each (aggregate_width label preds) ks agg = Ok agg' ->
    forall k,
      (k ∈ ks -> exists xs e,
          agg !! k = Some xs /\ effective_prediction label preds k = Some e /\
          agg' !! k = Some (xs ++ [e])) /\
      (k ∉ ks -> agg' !! k = agg !! k).
Proof.
  induction 1 as [|k0 ks Hk0 Hnd IH]; intros agg agg' Hrun k; simpl in Hrun.
  - injection Hrun as <-. split; [intros Hk; inversion Hk | reflexivity].
  - apply bind_Ok in Hrun as (agg1 & Hstep & Hrest).
    rewrite aggregate_width_eq in Hstep.
    destruct (agg !! k0) as [xs0|] eqn:Hxs0; [| discriminate].
    destruct (effective_prediction label preds k0) as [e0|] eqn:He0; [| discriminate].
    injection Hstep as <-.
    destruct (IH _ _ Hrest k) as [Hin Hout]. split.
    + intros Hk. apply elem_of_cons in Hk as [-> | Hk].
      * exists xs0, e0. rewrite (Hout Hk0), lookup_insert_eq. auto.
      * destruct (Hin Hk) as (xs & e & Hxs & He & Hagg').
        exists xs, e. rewrite lookup_insert_ne in Hxs; [auto |].
        intros ->. contradiction.
    + intros Hk. apply not_elem_of_cons in Hk as [Hne Hk].
      rewrite (Hout Hk). apply lookup_insert_ne. congruence.
Qed.

Lemma aggregate_widths_returns (label : Z) (preds : list Z) (ks : list Z) :
  forall agg : gmap Z (list Z),
    (forall k, k ∈ ks ->
       is_Some (agg !! k) /\ is_Some (effective_prediction label preds k)) ->
    exists agg', for_each (aggregate_width label preds) ks agg = Ok agg'.
Proof.
  induction ks as [|k0 ks IH]; intros agg Hks; simpl.
  - eexists. reflexivity.
  - destruct (Hks k0) as [[xs0 Hxs0] [e0 He0]]; [apply elem_of_cons; auto |].
    rewrite aggregate_width_eq, Hxs0, He0. simpl.
    apply IH. intros k Hk.
    destruct (Hks k) as [Hagg He]; [apply elem_of_cons; auto |].
    split; [| exact He].
    apply lookup_insert_is_Some'. right. exact Hagg.
Qed.

(** All examples: under every width of the beam, the list grows by the
    effective predictions of the examples, in order. *)
Lemma aggregate_examples_Ok (beam : Z) (examples : list (Z * list Z)) :
  forall agg agg' : gmap Z (list Z),
    for_each (aggregate_example beam) examples agg = Ok agg' ->
    forall k,
      (0 <= k < beam -> forall xs, agg !! k = Some xs ->
         exists col,
           mapM (fun example => effective_prediction example.1 example.2 k) examples
             = Some col /\
           agg' !! k = Some (xs ++ col)) /\
      (~ 0 <= k < beam -> agg' !! k = agg !! k).
Proof.
  induction examples as [|[label preds] examples IH]; intros agg agg' Hrun k;
    simpl in Hrun.
  - injection Hrun as <-. split; [| reflexivity].
    intros _ xs Hxs. exists []. rewrite app_nil_r. auto.
  - apply bind_Ok in Hrun as (agg1 & Hstep & Hrest).
    destruct (aggregate_widths_Ok label preds (range beam) (NoDup_range beam)
                _ _ Hstep k) as [Hin Hout].
    destruct (IH _ _ Hrest k) as [IHin IHout]. split.
    + intros Hk xs Hxs.
      destruct Hin as (xs' & e & Hxs' & He & Hagg1); [apply elem_of_range, Hk |].
      assert (xs' = xs) as -> by congruence.
      destruct (IHin Hk _ Hagg1) as (col & Hcol & Hagg').
      exists (e :: col). split.
      * rewrite mapM_Some. apply Forall2_cons. split; [exact He |].
        apply mapM_Some, Hcol. 
      * rewrite Hagg'. f_equal. rewrite <- app_assoc. reflexivity.
    + intros Hk. rewrite (IHout Hk). apply Hout.
      rewrite elem_of_range. exact Hk.
Qed.

Lemma aggregate_examples_returns (beam : Z) (examples : list (Z * list Z)) :
  forall agg : gmap Z (list Z),
    (forall k, 0 <= k < beam -> is_Some (agg !! k)) ->
    (forall k example, 0 <= k < beam -> example ∈ examples ->
       is_Some (effective_prediction example.1 example.2 k)) ->
    exists agg', for_each (aggregate_example beam) examples agg = Ok agg'.
Proof.
  induction examples as [|[label preds] examples IH]; intros agg Hagg Heff; simpl.
  - eexists. reflexivity.
  - destruct (aggregate_widths_returns label preds (range beam) agg) as [agg1 Hagg1].
    { intros k Hk. apply elem_of_range in Hk. split; [apply Hagg, Hk |].
      apply (Heff k (label, preds) Hk). apply elem_of_cons. auto. }
    rewrite Hagg1. simpl. apply IH.
    + intros k Hk.
      destruct (aggregate_widths_Ok label preds (range beam) (NoDup_range beam)
                  _ _ Hagg1 k) as [Hin _].
      destruct Hin as (xs & e & _ & _ & ->); [apply elem_of_range, Hk | eauto].
    + intros k example Hk Hex. apply Heff; [exact Hk |].
      apply elem_of_cons. auto.
Qed.

(** The dict of empty lists the loop starts from (lines 90-91). *)
Lemma initial_agg_lookup (ks : list Z) (agg : gmap Z (list Z)) (k : Z) :
  foldl (fun agg i => <[i := []]> agg) agg ks !! k =
  if decide (k ∈ ks) then Some [] else agg !! k.
Proof.
  revert agg. induction ks as [|k0 ks IH]; intros agg; simpl.
  - destruct (decide (k ∈ [])) as [Hk | _]; [inversion Hk | reflexivity].
  - rewrite IH.
    destruct (decide (k ∈ ks)) as [Hk | Hk];
      destruct (decide (k ∈ k0 :: ks)) as [Hk' | Hk']; try reflexivity.
    + exfalso. apply Hk'. apply elem_of_cons. auto.
    + apply elem_of_cons in Hk' as [-> | Hk']; [| contradiction].
      apply lookup_insert_eq.
    + apply lookup_insert_ne. intros ->. apply Hk'. apply elem_of_cons. auto.
Qed.

(** The scoring loop (lines 98-99). *)
Lemma score_widths_Ok (L : list Z) (agg : gmap Z (list Z)) (ks : list Z) :
  NoDup ks ->
  forall lm lm' : gmap Z Q,
    for_each (score_width L agg) ks lm = Ok lm' ->
    forall k,
      (k ∈ ks -> exists y a,
          agg !! k = Some y /\ accuracy_score L y = Ok a /\ lm' !! k = Some a) /\
      (k ∉ ks -> lm' !! k = lm !! k).
Proof.
  induction 1 as [|k0 ks Hk0 Hnd IH]; intros lm lm' Hrun k; simpl in Hrun.
  - injection Hrun as <-. split; [intros Hk; inversion Hk | reflexivity].
  - apply bind_Ok in Hrun as (lm1 & Hstep & Hrest).
    unfold score_width in Hstep.
    apply bind_Ok in Hstep as (y0 & Hy0 & Hstep).
    apply bind_Ok in Hstep as (a0 & Ha0 & Hstep).
    injection Hstep as <-. apply getitem_Ok in Hy0.
    destruct (IH _ _ Hrest k) as [Hin Hout]. split.
    + intros Hk. apply elem_of_cons in Hk as [-> | Hk].
      * exists y0, a0. rewrite (Hout Hk0), lookup_insert_eq. auto.
      * exact (Hin Hk).
    + intros Hk. apply not_elem_of_cons in Hk as [Hne Hk].
      rewrite (Hout Hk). apply lookup_insert_ne. congruence.
Qed.

Lemma score_widths_returns (L : list Z) (agg : gmap Z (list Z)) (ks : list Z) :
  forall lm : gmap Z Q,
    (forall k, k ∈ ks -> exists y,
       agg !! k = Some y /\ length L = length y) ->
    L <> [] ->
    exists lm', for_each (score_width L agg) ks lm = Ok lm'.
Proof.
  induction ks as [|k0 ks IH]; intros lm Hks HL; simpl.
  - eexists. reflexivity.
  - destruct (Hks k0) as (y0 & Hy0 & Hlen); [apply elem_of_cons; auto |].
    assert (accuracy_score L y0 = Ok (fraction (count_matches L y0) (length L))) as Ha.
    { apply accuracy_score_Ok. auto. }
    assert (score_width L agg lm k0
            = Ok (<[k0 := fraction (count_matches L y0) (length L)]> lm)) as ->.
    { unfold score_width, getitem. rewrite Hy0. simpl. rewrite Ha. reflexivity. }
    simpl.
    apply IH; [| exact HL].
    intros k Hk. apply Hks. apply elem_of_cons. auto.
Qed.

(** * [compute_length_metrics] against the contract *)

Lemma effective_prediction_nonempty (label : Z) (preds : list Z) (k : Z) :
  preds <> [] -> is_Some (effective_prediction label preds k).
Proof.
  intros Hne. unfold effective_prediction.
  destruct (bool_decide _); [eauto |].
  destruct preds; [congruence | simpl; eauto].
Qed.

(** Matches between the gold lengths and a column of effective predictions
    are the examples counted correct. *)
Lemma count_matches_column (k : Z) (examples : list (Z * list Z)) (col : list Z) :
  mapM (fun example => effective_prediction example.1 example.2 k) examples = Some col ->
  length col = length examples /\
  count_matches (examples.*1) col
  = length (filter (fun example => counted_correct k example) examples).
Proof.
  rewrite mapM_Some. induction 1 as [|[label preds] e examples col He _ [IHlen IH]].
  - split; reflexivity.
  - split; [simpl; congruence |].
    assert (label = e <-> counted_correct k (label, preds)) as Hiff.
    { unfold counted_correct. simpl in *. rewrite He, bool_decide_spec.
      split; congruence. }
    unfold count_matches in *. simpl in *.
    rewrite !filter_cons. simpl.
    repeat case_decide; simpl; try tauto. f_equal. exact IH.
Qed.

Section LengthMetricsFacts.

Variable ClassificationMetrics : Type.
Variable compute_classification_metrics :
  list LabelPrediction.t -> list string -> float -> outcome ClassificationMetrics.

(** What a normal return of [compute_length_metrics] on a non-empty
    prediction list says about its arguments and its results. *)
Lemma compute_length_metrics_Ok (L : list Z) (P : list (list Z)) (b : Z)
    (lm : gmap Z Q) (rep : length_report ClassificationMetrics) :
  P <> [] ->
  compute_length_metrics compute_classification_metrics L P b = Ok (lm, rep) ->
  let beam := len (default [] (head P)) in
  0 <= b < beam /\ (length L <= length P)%nat /\ L <> [] /\
  (forall k, 0 <= k < beam ->
     is_Some (effective_predictions L P k) /\ lm !! k = Some (accuracy_at L P k)) /\
  (forall k, ~ 0 <= k < beam -> lm !! k = None) /\
  exists selected max_len r,
    effective_predictions L P b = Some selected /\
    length selected = length L /\
    py_max (L ++ selected) = Ok max_len /\
    compute_classification_metrics
      ((fun '(pred, expect) => LabelPrediction.make (one_hot max_len pred) pred expect)
         <$> zip selected L)
      (str <$> range (max_len + 1)) 0%float = Ok r /\
    rep = Report r.
Proof.
  destruct P as [|preds0 P']; [congruence |]. intros _ Hrun beam.
  unfold compute_length_metrics in Hrun. fold beam in Hrun.
  apply bind_Ok in Hrun as (agg & Hagg & Hrun).
  apply bind_Ok in Hrun as (lm' & Hlm & Hrun).
  apply bind_Ok in Hrun as (selected & Hsel & Hrun).
  apply bind_Ok in Hrun as (max_len & Hmax & Hrun).
  apply bind_Ok in Hrun as (r & Hr & Hrun).
  injection Hrun as <- <-.
  apply getitem_Ok in Hsel.
  pose proof (aggregate_examples_Ok beam _ _ _ Hagg) as Hcols.
  pose proof (score_widths_Ok L agg (range beam) (NoDup_range beam) _ _ Hlm) as Hscores.
  (* the selected beam index is one of the keys *)
  assert (0 <= b < beam) as Hb.
  { destruct (decide (0 <= b < beam)) as [Hb | Hb]; [exact Hb | exfalso].
    destruct (Hcols b) as [_ Hout]. rewrite (Hout Hb) in Hsel.
    rewrite initial_agg_lookup in Hsel.
    rewrite decide_False in Hsel; [| rewrite elem_of_range; exact Hb].
    rewrite lookup_empty in Hsel. discriminate. }
  (* every column has one entry per gold length *)
  assert (forall k, 0 <= k < beam ->
            exists col, effective_predictions L (preds0 :: P') k = Some col /\
                        agg !! k = Some col /\
                        length L = length col /\ L <> [] /\
                        lm' !! k = Some (fraction (count_matches L col) (length L)))
    as Hwidth.
  { intros k Hk. destruct (Hcols k) as [Hin _].
    destruct (Hin Hk []) as (col & Hcol & Haggk).
    { rewrite initial_agg_lookup, decide_True; [reflexivity |].
      apply elem_of_range, Hk. }
    destruct (Hscores k) as [Hsc _].
    destruct Hsc as (y & a & Hy & Ha & Hlmk); [apply elem_of_range, Hk |].
    simpl in Haggk. assert (y = col) as -> by congruence.
    apply accuracy_score_Ok in Ha as (Hlen & HL & ->).
    exists col. auto. }
  destruct (Hwidth b Hb) as (colb & Hcolb & Haggb & Hlenb & HL & _).
  assert (length L <= length (preds0 :: P'))%nat as Hle.
  { apply count_matches_column in Hcolb as [Hlen _].
    rewrite length_zip_with in Hlen. lia. }
  split; [exact Hb |]. split; [exact Hle |]. split; [exact HL |].
  split; [| split].
  - intros k Hk.
    destruct (Hwidth k Hk) as (col & Hcol & _ & _ & _ & ->).
    split; [rewrite Hcol; eauto |].
    apply count_matches_column in Hcol as [_ Hcount].
    rewrite fst_zip in Hcount by exact Hle.
    unfold accuracy_at. rewrite Hcount. reflexivity.
  - intros k Hk. destruct (Hscores k) as [_ Hout].
    rewrite Hout; [apply lookup_empty |].
    rewrite elem_of_range. exact Hk.
  - exists colb, max_len, r.
    assert (selected = colb) as -> by congruence.
    repeat split; auto.
Qed.

(** [compute_length_metrics] returns normally when the selected beam index
    is in range, there is a prediction list for every gold length, none of
    them empty, and the external routine returns. *)
Lemma compute_length_metrics_returns (L : list Z) (P : list (list Z)) (b : Z) :
  0 <= b < len (default [] (head P)) ->
  (length L <= length P)%nat ->
  L <> [] ->
  Forall (fun preds => preds <> []) P ->
  (forall predictions label_names, exists r,
     compute_classification_metrics predictions label_names 0%float = Ok r) ->
  exists lm rep,
    compute_length_metrics compute_classification_metrics L P b = Ok (lm, rep).
Proof.
  intros Hb Hle HL HP Hccm.
  destruct P as [|preds0 P']; [simpl in Hb; unfold len in Hb; simpl in Hb; lia |].
  simpl in Hb. unfold compute_length_metrics.
  set (beam := len preds0) in *.
  set (agg0 := foldl _ _ _).
  destruct (aggregate_examples_returns beam (zip L (preds0 :: P')) agg0)
    as [agg Hagg].
  { intros k Hk. unfold agg0. rewrite initial_agg_lookup, decide_True; [eauto |].
    apply elem_of_range, Hk. }
  { intros k [label preds] _ Hex. apply effective_prediction_nonempty.
    apply elem_of_zip_r in Hex. rewrite Forall_forall in HP. apply HP, Hex. }
  rewrite Hagg. simpl.
  pose proof (aggregate_examples_Ok beam _ _ _ Hagg) as Hcols.
  assert (forall k, 0 <= k < beam ->
            exists col, agg !! k = Some col /\ length L = length col) as Hwidth.
  { intros k Hk. destruct (Hcols k) as [Hin _].
    destruct (Hin Hk []) as (col & Hcol & Haggk).
    { unfold agg0. rewrite initial_agg_lookup, decide_True; [reflexivity |].
      apply elem_of_range, Hk. }
    exists col. split; [exact Haggk |].
    apply count_matches_column in Hcol as [Hlen _].
    rewrite length_zip_with in Hlen. lia. }
  destruct (score_widths_returns L agg (range beam) ∅) as [lm Hlm].
  { intros k Hk. apply Hwidth, elem_of_range, Hk. }
  { exact HL. }
  rewrite Hlm. simpl.
  destruct (Hwidth b Hb) as (selected & Hsel & Hlen).
  apply getitem_Ok in Hsel. rewrite Hsel. simpl.
  destruct (py_max_returns (L ++ selected)) as [max_len Hmax].
  { destruct L; [congruence | discriminate]. }
  rewrite Hmax. simpl.
  match goal with
  | |- context [compute_classification_metrics ?ps ?ns 0%float] =>
      destruct (Hccm ps ns) as [r ->]
  end.
  simpl. eauto.
Qed.

End LengthMetricsFacts.

(** * Width by width: what is counted correct stays counted correct *)

Lemma counted_correct_iff (k : Z) (label : Z) (preds : list Z) :
  0 <= k ->
  counted_correct k (label, preds) <-> label ∈ take (Z.to_nat (k + 1)) preds.
Proof.
  intros Hk. unfold counted_correct, effective_prediction. simpl.
  rewrite bool_decide_spec.
  destruct (bool_decide_reflect (label ∈ take (Z.to_nat (k + 1)) preds)) as [Hin | Hin].
  - tauto.
  - split; [| contradiction]. intros Hhead. exfalso. apply Hin.
    apply elem_of_take. exists 0%nat. rewrite <- head_lookup. split; [exact Hhead | lia].
Qed.

Lemma counted_correct_mono (k k' : Z) (example : Z * list Z) :
  0 <= k -> k <= k' ->
  counted_correct k example -> counted_correct k' example.
Proof.
  destruct example as [label preds]. intros Hk Hkk'.
  rewrite !counted_correct_iff by lia. rewrite !elem_of_take.
  intros (i & Hi & Hlt). exists i. split; [exact Hi | lia].
Qed.

Lemma length_filter_mono {A : Type} (f g : A -> bool) (xs : list A) :
  (forall x, f x -> g x) ->
  (length (filter (fun x => f x) xs) <= length (filter (fun x => g x) xs))%nat.
Proof.
  intros Hfg. induction xs as [|x xs IH]; [reflexivity |].
  rewrite !filter_cons. specialize (Hfg x).
  repeat case_decide; simpl; try lia. tauto.
Qed.

Lemma length_filter_all {A : Type} (f : A -> bool) (xs : list A) :
  (forall x, x ∈ xs -> f x) ->
  length (filter (fun x => f x) xs) = length xs.
Proof.
  induction xs as [|x xs IH]; intros Hall; [reflexivity |].
  rewrite filter_cons. rewrite decide_True by (apply Hall, elem_of_cons; auto).
  simpl. f_equal. apply IH. intros y Hy. apply Hall, elem_of_cons. auto.
Qed.

Lemma accuracy_at_mono (L : list Z) (P : list (list Z)) (k k' : Z) :
  0 <= k -> k <= k' -> (accuracy_at L P k <= accuracy_at L P k')%Q.
Proof.
  intros Hk Hkk'. unfold accuracy_at. apply fraction_le.
  apply length_filter_mono. intros example. apply counted_correct_mono; assumption.
Qed.

Lemma one_hot_is_one_hot (max_len pred : Z) :
  one_hot_over max_len pred (one_hot max_len pred).
Proof.
  unfold one_hot_over, one_hot, range. split.
  - rewrite !length_fmap, length_seq. reflexivity.
  - intros idx Hidx. rewrite !list_lookup_fmap, lookup_seq_lt by lia. simpl.
    rewrite Z2Nat.id by lia.
    destruct (decide (idx = pred)) as [-> | Hne].
    + rewrite bool_decide_true; reflexivity.
    + rewrite bool_decide_false; [reflexivity | exact Hne].
Qed.

Lemma label_names_of_range (max_len : Z) :
  label_names_over max_len (str <$> range (max_len + 1)).
Proof.
  unfold label_names_over, range. split.
  - rewrite !length_fmap, length_seq. reflexivity.
  - intros idx Hidx. rewrite !list_lookup_fmap, lookup_seq_lt by lia. simpl.
    rewrite Z2Nat.id by lia. reflexivity.
Qed.

(** * Claims about [compute_length_metrics] *)

Section LengthMetricsClaims.

Variable ClassificationMetrics : Type.
Variable compute_classification_metrics :
  list LabelPrediction.t -> list string -> float -> outcome ClassificationMetrics.

(** Inputs as section 4.1 takes them: a prediction list for every gold
    length, each with exactly [K] entries. *)
Lemma uniform_beam_head (P : list (list Z)) (K : Z) :
  P <> [] -> Forall (fun preds => len preds = K) P ->
  len (default [] (head P)) = K.
Proof.
  destruct P as [|preds0 P']; [congruence |]. intros _ HP.
  apply Forall_cons in HP as [H0 _]. exact H0.
Qed.

Lemma uniform_beam_returns (L : list Z) (P : list (list Z)) (b K : Z) :
  P <> [] -> Forall (fun preds => len preds = K) P -> length L = length P ->
  0 <= b < K ->
  (forall predictions label_names, exists r,
     compute_classification_metrics predictions label_names 0%float = Ok r) ->
  exists lm rep,
    compute_length_metrics compute_classification_metrics L P b = Ok (lm, rep).
Proof.
  intros HP HK Hlen Hb Hccm.
  apply compute_length_metrics_returns.
  - rewrite (uniform_beam_head P K HP HK). exact Hb.
  - lia.
  - destruct L; [| discriminate]. destruct P; [congruence | discriminate].
  - eapply Forall_impl; [exact HK |]. intros preds Hpreds ->.
    unfold len in Hpreds. simpl in Hpreds. lia.
  - exact Hccm.
Qed.

(** C2. On a non-empty prediction list whose examples all have beam width
    [K], with as many gold lengths as examples, the returned length_metrics
    never decreases with the beam width: length_metrics[K-1] >=
    length_metrics[k] for every k < K (and more generally length_metrics[k']
    >= length_metrics[k] whenever k <= k'), because an example counted
    correct at one width is counted correct at every larger width. The call
    does return such a mapping whenever the selected beam index is below [K]
    and the external classification routine returns. *)
Theorem length_metrics_monotone (L : list Z) (P : list (list Z)) (b K : Z) :
  P <> [] ->
  Forall (fun preds => len preds = K) P ->
  length L = length P ->
  (0 <= b < K ->
   (forall predictions label_names, exists r,
      compute_classification_metrics predictions label_names 0%float = Ok r) ->
   exists lm rep,
     compute_length_metrics compute_classification_metrics L P b = Ok (lm, rep)) /\
  (forall lm rep,
     compute_length_metrics compute_classification_metrics L P b = Ok (lm, rep) ->
     (forall k, 0 <= k < K ->
        exists a_k a_top,
          lm !! k = Some a_k /\ lm !! (K - 1) = Some a_top /\ (a_top >= a_k)%Q) /\
     (forall k k', 0 <= k -> k <= k' -> k' < K ->
        exists a a', lm !! k = Some a /\ lm !! k' = Some a' /\ (a <= a')%Q) /\
     (forall k k' example, 0 <= k -> k <= k' ->
        counted_correct k example -> counted_correct k' example)).
Proof.
  intros HP HK Hlen. split.
  - intros Hb Hccm. apply (uniform_beam_returns L P b K); assumption.
  - intros lm rep Hrun.
    destruct (compute_length_metrics_Ok _ compute_classification_metrics
                L P b lm rep HP Hrun) as (_ & _ & _ & Hlm & _).
    rewrite (uniform_beam_head P K HP HK) in Hlm.
    assert (forall k k', 0 <= k -> k <= k' -> k' < K ->
              exists a a', lm !! k = Some a /\ lm !! k' = Some a' /\ (a <= a')%Q)
      as Hmono.
    { intros k k' Hk Hkk' Hk'.
      destruct (Hlm k) as [_ Hak]; [lia |].
      destruct (Hlm k') as [_ Hak']; [lia |].
      exists (accuracy_at L P k), (accuracy_at L P k').
      split; [exact Hak |]. split; [exact Hak' |].
      apply accuracy_at_mono; assumption. }
    split; [| split].
    + intros k Hk. destruct (Hmono k (K - 1)) as (a & a' & Ha & Ha' & Hle); try lia.
      exists a, a'. split; [exact Ha |]. split; [exact Ha' |].
      apply Qle_ge. exact Hle.
    + exact Hmono.
    + intros k k' example. apply counted_correct_mono.
Qed.

(** C3. Whatever the gold lengths and the selected beam index, an empty
    prediction list makes compute_length_metrics return an empty
    length-metrics mapping and an empty report; nothing is raised. *)
Theorem empty_predictions_empty_results (all_target_lens : list Z)
    (select_length_beam : Z) :
  compute_length_metrics compute_classification_metrics
    all_target_lens [] select_length_beam
  = Ok (∅, EmptyDict).
Proof.
  unfold compute_length_metrics. reflexivity.
Qed.

(** C4. On a non-empty prediction list whose examples all have exactly [K]
    entries, with as many gold lengths, length_metrics[k] is for every beam
    width k in 0..K-1 the fraction of examples whose effective prediction
    equals the gold length (and the mapping has no other key); so if every
    gold length equals the first prediction of its example, length_metrics[0]
    is 1. The call returns such
    a mapping whenever the selected beam index is below [K] and the external
    classification routine returns. *)
Theorem length_metrics_accuracy (L : list Z) (P : list (list Z)) (b K : Z) :
  P <> [] ->
  Forall (fun preds => len preds = K) P ->
  length L = length P ->
  (0 <= b < K ->
   (forall predictions label_names, exists r,
      compute_classification_metrics predictions label_names 0%float = Ok r) ->
   exists lm rep,
     compute_length_metrics compute_classification_metrics L P b = Ok (lm, rep)) /\
  (forall lm rep,
     compute_length_metrics compute_classification_metrics L P b = Ok (lm, rep) ->
     (forall k, 0 <= k < K -> lm !! k = Some (accuracy_at L P k)) /\
     (forall k, ~ 0 <= k < K -> lm !! k = None) /\
     ((forall (i : nat) label preds,
         L !! i = Some label -> P !! i = Some preds -> preds !! 0%nat = Some label) ->
      lm !! 0 = Some 1%Q)).
Proof.
  intros HP HK Hlen. split.
  - intros Hb Hccm. apply (uniform_beam_returns L P b K); assumption.
  - intros lm rep Hrun.
    destruct (compute_length_metrics_Ok _ compute_classification_metrics
                L P b lm rep HP Hrun) as (Hb & _ & HL & Hlm & Hother & _).
    rewrite (uniform_beam_head P K HP HK) in Hlm, Hb, Hother.
    split; [| split].
    + intros k Hk. apply Hlm, Hk.
    + exact Hother.
    + intros Hfirst. destruct (Hlm 0) as [_ ->]; [lia |]. f_equal.
      unfold accuracy_at. rewrite length_filter_all.
      * rewrite length_zip, Hlen, Nat.min_id, <- Hlen.
        apply fraction_all. destruct L; [congruence | discriminate].
      * intros [label preds] Hex.
        apply counted_correct_iff; [lia |].
        apply list_elem_of_lookup in Hex as [i Hex].
        apply lookup_zip_with_Some in Hex as (x & y & [= <- <-] & Hx & Hy).
        apply elem_of_take. exists 0%nat. split; [| simpl; lia].
        apply (Hfirst i); assumption.
Qed.

(** C9. On a non-empty prediction list, the report that
    compute_length_metrics returns for the selected beam index [b] is the
    answer of the external classification routine to: one prediction per
    example, made of a one-hot vector over the integer range [0, max_len]
    (1 at the effective prediction of the example at width [b]), that
    effective prediction, and the gold length; the stringified integers of
    that range as label names; and the loss 0.0. Here max_len is the largest
    of the gold lengths and effective predictions. The call returns such a
    report when [b] is below the beam width, there is a non-empty prediction
    list for every gold length, and the external routine returns. *)
Theorem length_report_construction (L : list Z) (P : list (list Z)) (b : Z) :
  P <> [] ->
  (0 <= b < len (default [] (head P)) ->
   (length L <= length P)%nat -> L <> [] ->
   Forall (fun preds => preds <> []) P ->
   (forall predictions label_names, exists r,
      compute_classification_metrics predictions label_names 0%float = Ok r) ->
   exists lm rep,
     compute_length_metrics compute_classification_metrics L P b = Ok (lm, rep)) /\
  (forall lm rep,
     compute_length_metrics compute_classification_metrics L P b = Ok (lm, rep) ->
     exists selected max_len predictions label_names r,
       effective_predictions L P b = Some selected /\
       is_max_of max_len (L ++ selected) /\
       length predictions = length L /\
       (forall (i : nat) pred expect,
          selected !! i = Some pred -> L !! i = Some expect ->
          exists v, predictions !! i = Some (LabelPrediction.make v pred expect) /\
                    one_hot_over max_len pred v) /\
       label_names_over max_len label_names /\
       compute_classification_metrics predictions label_names 0%float = Ok r /\
       rep = Report r).
Proof.
  intros HP. split.
  - intros Hb Hle HL Hne Hccm. apply compute_length_metrics_returns; assumption.
  - intros lm rep Hrun.
    destruct (compute_length_metrics_Ok _ compute_classification_metrics
                L P b lm rep HP Hrun)
      as (_ & _ & _ & _ & _ & selected & max_len & r & Hsel & Hlen & Hmax & Hr & ->).
    eexists selected, max_len, _, _, r.
    split; [exact Hsel |]. split; [apply py_max_Ok, Hmax |].
    split; [| split; [| split; [| split; [exact Hr | reflexivity]]]].
    + rewrite length_fmap, length_zip, Hlen. apply Nat.min_id.
    + intros i pred expect Hpred Hexpect.
      exists (one_hot max_len pred). split; [| apply one_hot_is_one_hot].
      rewrite list_lookup_fmap.
      assert (zip selected L !! i = Some (pred, expect)) as ->; [| reflexivity].
      apply lookup_zip_with_Some. exists pred, expect. auto.
    + apply label_names_of_range.
Qed.

End LengthMetricsClaims.

(** * Facts about binary64 zeros *)

Lemma float_eqb_zero (x : float) :
  PrimFloat.eqb x 0 = true -> x = 0%float \/ x = neg_zero.
Proof.
  intros H. rewrite FloatAxioms.eqb_spec in H.
  rewrite <- (SF2Prim_Prim2SF x).
  change (Prim2SF 0) with (S754_zero false) in H.
  destruct (Prim2SF x) as [[|]|s| |s m e].
  - right. reflexivity.
  - left. reflexivity.
  - destruct s; discriminate H.
  - discriminate H.
  - destruct s; discriminate H.
Qed.

Lemma SFcompare_refl_finite (s : bool) (m : positive) (e : Z) :
  SFcompare (S754_finite s m e) (S754_finite s m e) = Some Eq.
Proof.
  unfold SFcompare. rewrite Z.compare_refl.
  change (PosDef.Pos.compare_cont Eq m m) with (Pos.compare m m).
  rewrite Pos.compare_refl. destruct s; reflexivity.
Qed.

(** A finite float times a zero is a zero. *)
Lemma float_mul_zero (z y : float) :
  PrimFloat.eqb z 0 = true -> is_finite y = true ->
  PrimFloat.eqb (PrimFloat.mul z y) 0 = true /\
  PrimFloat.eqb (PrimFloat.mul y z) 0 = true.
Proof.
  intros Hz Hy.
  unfold is_finite, is_nan, is_infinity in Hy.
  rewrite !FloatAxioms.eqb_spec, abs_spec in Hy.
  rewrite !FloatAxioms.eqb_spec, !mul_spec.
  change (Prim2SF infinity) with (S754_infinity false) in Hy.
  change (Prim2SF 0) with (S754_zero false).
  assert (exists s, Prim2SF z = S754_zero s) as [s ->].
  { destruct (float_eqb_zero z Hz) as [-> | ->]; eexists; reflexivity. }
  destruct (Prim2SF y) as [sy|[|]| |sy m e]; simpl in Hy; try discriminate Hy.
  - split; reflexivity.
  - split; reflexivity.
Qed.

(** A float above zero is neither zero, nor nan, nor below zero. *)
Lemma float_positive (x : float) :
  PrimFloat.ltb 0 x = true ->
  PrimFloat.eqb x 0 = false /\ is_nan x = false /\ PrimFloat.ltb x 0 = false.
Proof.
  unfold is_nan. rewrite !FloatAxioms.eqb_spec, !ltb_spec.
  change (Prim2SF 0) with (S754_zero false).
  destruct (Prim2SF x) as [s|s| |s m e]; try discriminate.
  - destruct s; [discriminate |]. intros _. repeat split; reflexivity.
  - destruct s; [discriminate |]. intros _.
    unfold SFeqb, SFltb. rewrite SFcompare_refl_finite. repeat split; reflexivity.
Qed.

(** Zero to a positive power is zero: CPython settles it without the C
    library. *)
Lemma float_pow_zero_base (libm_pow : float -> float -> outcome float)
    (x w : float) :
  PrimFloat.eqb x 0 = true -> PrimFloat.ltb 0 w = true ->
  exists z, float_pow libm_pow x w = Ok z /\ PrimFloat.eqb z 0 = true.
Proof.
  intros Hx Hw. destruct (float_positive w Hw) as (Hw0 & Hwnan & Hwneg).
  unfold float_pow. rewrite Hw0, Hwnan, Hwneg.
  destruct (float_eqb_zero x Hx) as [-> | ->].
  - change (is_nan 0) with false. cbv iota.
    destruct (is_infinity w).
    + change (PrimFloat.eqb (abs 0) 1) with false. 
      change (PrimFloat.ltb 1 (abs 0)) with false. rewrite Hw. simpl. eauto.
    + change (is_infinity 0) with false. change (PrimFloat.eqb 0 0) with true.
      cbv iota. destruct (is_odd_integer w); eauto.
  - change (is_nan neg_zero) with false. cbv iota.
    destruct (is_infinity w).
    + change (PrimFloat.eqb (abs neg_zero) 1) with false. 
      change (PrimFloat.ltb 1 (abs neg_zero)) with false. rewrite Hw. simpl. eauto.
    + change (is_infinity neg_zero) with false. change (PrimFloat.eqb neg_zero 0) with true.
      cbv iota. destruct (is_odd_integer w); eauto.
Qed.

(** * [compute_masked_metrics] and [compute_nas_masked_metrics] step by step *)

Section MaskedMetricsFacts.

Variables FramePredictionPair Node : Type.
Variables FrameAccuraciesByDepth IntentSlotMetrics ClassificationMetrics : Type.
Variable compute_all_metrics :
  list FramePredictionPair -> bool -> bool -> bool -> bool -> bool -> bool ->
  option (list (list Node)) -> option float ->
  outcome (AllMetrics.t FrameAccuraciesByDepth IntentSlotMetrics).
Variable compute_frame_accuracy :
  option (list FramePredictionPair) -> outcome float.
Variable compute_classification_metrics :
  list LabelPrediction.t -> list string -> float -> outcome ClassificationMetrics.
Variable libm_pow : float -> float -> outcome float.

(** A normal return of [compute_masked_metrics] is a normal return of its
    four steps, in order, and the record made of their results. *)
Lemma compute_masked_metrics_Ok
    frame_pairs all_target_lens all_target_length_preds select_length_beam
    top_intent_accuracy frame_accuracy frame_accuracies_by_depth
    bracket_metrics tree_metrics overall_metrics
    all_predicted_frames calculated_loss length_metrics
    non_invalid_frame_pairs extracted_frame_pairs print_length_metrics m :
  compute_masked_metrics compute_all_metrics compute_frame_accuracy
    compute_classification_metrics
    frame_pairs all_target_lens all_target_length_preds select_length_beam
    top_intent_accuracy frame_accuracy frame_accuracies_by_depth
    bracket_metrics tree_metrics overall_metrics
    all_predicted_frames calculated_loss length_metrics
    non_invalid_frame_pairs extracted_frame_pairs print_length_metrics = Ok m <->
  exists all_metrics lm rep non_invalid extracted,
    compute_all_metrics frame_pairs top_intent_accuracy frame_accuracy
      frame_accuracies_by_depth bracket_metrics tree_metrics overall_metrics
      all_predicted_frames calculated_loss = Ok all_metrics /\
    compute_length_metrics compute_classification_metrics
      all_target_lens all_target_length_preds select_length_beam = Ok (lm, rep) /\
    compute_frame_accuracy non_invalid_frame_pairs = Ok non_invalid /\
    compute_frame_accuracy extracted_frame_pairs = Ok extracted /\
    m = MaskedSeq2SeqJointMetrics.make
          (AllMetrics.top_intent_accuracy all_metrics)
          (AllMetrics.frame_accuracy all_metrics)
          (AllMetrics.frame_accuracy_top_k all_metrics)
          (AllMetrics.frame_accuracies_by_depth all_metrics)
          (AllMetrics.bracket_metrics all_metrics)
          (AllMetrics.tree_metrics all_metrics)
          (AllMetrics.loss all_metrics)
          lm rep non_invalid extracted print_length_metrics.
Proof.
  unfold compute_masked_metrics. split.
  - intros Hrun.
    apply bind_Ok in Hrun as (all_metrics & Hall & Hrun).
    apply bind_Ok in Hrun as ([lm rep] & Hlen & Hrun).
    apply bind_Ok in Hrun as (non_invalid & Hni & Hrun).
    apply bind_Ok in Hrun as (extracted & Hex & Hrun).
    injection Hrun as <-.
    exists all_metrics, lm, rep, non_invalid, extracted. auto.
  - intros (all_metrics & lm & rep & non_invalid & extracted
            & Hall & Hlen & Hni & Hex & ->).
    rewrite Hall. simpl. rewrite Hlen. simpl. rewrite Hni. simpl.
    rewrite Hex. reflexivity.
Qed.

Lemma nas_objective_Ok frame_accuracy
    model_num_param ref_model_num_param ref_frame_accuracy param_importance
    objective :
  nas_objective libm_pow frame_accuracy
    model_num_param ref_model_num_param ref_frame_accuracy param_importance
  = Ok objective <->
  exists a ref_pow model_pow,
    frame_accuracy = Some a /\
    float_pow libm_pow ref_model_num_param param_importance = Ok ref_pow /\
    float_pow libm_pow model_num_param param_importance = Ok model_pow /\
    PrimFloat.eqb (PrimFloat.mul ref_frame_accuracy model_pow) 0 = false /\
    objective = PrimFloat.div (PrimFloat.mul a ref_pow)
                              (PrimFloat.mul ref_frame_accuracy model_pow).
Proof.
  unfold nas_objective, optional_mul, float_mul, float_truediv. split.
  - intros Hrun.
    apply bind_Ok in Hrun as (ref_pow & Href & Hrun).
    destruct frame_accuracy as [a|]; [| discriminate].
    apply bind_Ok in Hrun as (numerator & [= <-] & Hrun).
    apply bind_Ok in Hrun as (model_pow & Hmodel & Hrun).
    apply bind_Ok in Hrun as (denominator & [= <-] & Hrun).
    destruct (PrimFloat.eqb _ 0) eqn:Hzero; [discriminate |].
    injection Hrun as <-.
    exists a, ref_pow, model_pow. auto.
  - intros (a & ref_pow & model_pow & -> & Href & Hmodel & Hzero & ->).
    rewrite Href. simpl. rewrite Hmodel. simpl. rewrite Hzero. reflexivity.
Qed.

(** A normal return of [compute_nas_masked_metrics]: the base metrics with
    the default toggles and [overall_metrics=True], then the objective. *)
Lemma compute_nas_masked_metrics_Ok
    frame_pairs all_target_lens all_target_length_preds select_length_beam
    top_intent_accuracy frame_accuracy frame_accuracies_by_depth
    bracket_metrics tree_metrics overall_metrics
    all_predicted_frames calculated_loss length_metrics
    non_invalid_frame_pairs extracted_frame_pairs
    model_num_param ref_model_num_param ref_frame_accuracy param_importance nas :
  compute_nas_masked_metrics compute_all_metrics compute_frame_accuracy
    compute_classification_metrics libm_pow
    frame_pairs all_target_lens all_target_length_preds select_length_beam
    top_intent_accuracy frame_accuracy frame_accuracies_by_depth
    bracket_metrics tree_metrics overall_metrics
    all_predicted_frames calculated_loss length_metrics
    non_invalid_frame_pairs extracted_frame_pairs
    model_num_param ref_model_num_param ref_frame_accuracy param_importance
  = Ok nas <->
  exists m objective,
    compute_masked_metrics compute_all_metrics compute_frame_accuracy
      compute_classification_metrics
      frame_pairs all_target_lens all_target_length_preds select_length_beam
      true true true true true true
      all_predicted_frames calculated_loss None
      non_invalid_frame_pairs extracted_frame_pairs true = Ok m /\
    nas_objective libm_pow (MaskedSeq2SeqJointMetrics.frame_accuracy m)
      model_num_param ref_model_num_param ref_frame_accuracy param_importance
    = Ok objective /\
    nas = NASMaskedSeq2SeqJointMetrics.new
            (MaskedSeq2SeqJointMetrics.top_intent_accuracy m)
            (MaskedSeq2SeqJointMetrics.frame_accuracy m)
            (MaskedSeq2SeqJointMetrics.frame_accuracy_top_k m)
            (MaskedSeq2SeqJointMetrics.frame_accuracies_by_depth m)
            (MaskedSeq2SeqJointMetrics.bracket_metrics m)
            (MaskedSeq2SeqJointMetrics.tree_metrics m)
            (MaskedSeq2SeqJointMetrics.loss m)
            (MaskedSeq2SeqJointMetrics.length_metrics m)
            (MaskedSeq2SeqJointMetrics.length_reports m)
            (MaskedSeq2SeqJointMetrics.non_invalid_fa m)
            (MaskedSeq2SeqJointMetrics.extracted_fa m)
            model_num_param objective.
Proof.
  unfold compute_nas_masked_metrics. split.
  - intros Hrun.
    apply bind_Ok in Hrun as (m & Hm & Hrun).
    apply bind_Ok in Hrun as (objective & Hobj & Hrun).
    injection Hrun as <-. exists m, objective. auto.
  - intros (m & objective & Hm & Hobj & ->).
    rewrite Hm. simpl. rewrite Hobj. reflexivity.
Qed.

End MaskedMetricsFacts.

(** * Claims about [compute_masked_metrics] and [compute_nas_masked_metrics] *)

Section MaskedMetricsClaims.

Variables FramePredictionPair Node : Type.
Variables FrameAccuraciesByDepth IntentSlotMetrics ClassificationMetrics : Type.
Variable compute_all_metrics :
  list FramePredictionPair -> bool -> bool -> bool -> bool -> bool -> bool ->
  option (list (list Node)) -> option float ->
  outcome (AllMetrics.t FrameAccuraciesByDepth IntentSlotMetrics).
Variable compute_frame_accuracy :
  option (list FramePredictionPair) -> outcome float.
Variable compute_classification_metrics :
  list LabelPrediction.t -> list string -> float -> outcome ClassificationMetrics.
Variable libm_pow : float -> float -> outcome float.

(** The arguments of a call. *)
Variable frame_pairs : list FramePredictionPair.
Variable all_target_lens : list Z.
Variable all_target_length_preds : list (list Z).
Variable select_length_beam : Z.
Variables top_intent_accuracy frame_accuracy frame_accuracies_by_depth : bool.
Variables bracket_metrics tree_metrics overall_metrics : bool.
Variable all_predicted_frames : option (list (list Node)).
Variable calculated_loss : option float.
Variable length_metrics : option (gmap Z Q).
Variables non_invalid_frame_pairs extracted_frame_pairs
  : option (list FramePredictionPair).
Variable print_length_metrics : bool.
Variables model_num_param ref_model_num_param : float.
Variables ref_frame_accuracy param_importance : float.

(** C1. When the underlying frame accuracy is a number [a], the objective
    that compute_nas_masked_metrics returns is
    (a * ref_model_num_param ** param_importance) /
    (ref_frame_accuracy * model_num_param ** param_importance), in binary64
    arithmetic; the call returns it whenever the two powers evaluate and the
    denominator is not zero. With frame accuracy 0.8, reference frame accuracy
    0.8, both parameter counts 100 and importance 1.0 the objective is
    exactly 1.0 (the C library being exact on first powers). *)
Theorem nas_objective_formula m a :
  compute_masked_metrics compute_all_metrics compute_frame_accuracy
    compute_classification_metrics
    frame_pairs all_target_lens all_target_length_preds select_length_beam
    true true true true true true
    all_predicted_frames calculated_loss None
    non_invalid_frame_pairs extracted_frame_pairs true = Ok m ->
  MaskedSeq2SeqJointMetrics.frame_accuracy m = Some a ->
  (forall nas,
     compute_nas_masked_metrics compute_all_metrics compute_frame_accuracy
       compute_classification_metrics libm_pow
       frame_pairs all_target_lens all_target_length_preds select_length_beam
       top_intent_accuracy frame_accuracy frame_accuracies_by_depth
       bracket_metrics tree_metrics overall_metrics
       all_predicted_frames calculated_loss length_metrics
       non_invalid_frame_pairs extracted_frame_pairs
       model_num_param ref_model_num_param ref_frame_accuracy param_importance
     = Ok nas ->
     exists ref_pow model_pow,
       float_pow libm_pow ref_model_num_param param_importance = Ok ref_pow /\
       float_pow libm_pow model_num_param param_importance = Ok model_pow /\
       NASMaskedSeq2SeqJointMetrics.norm_prod_model_param_frame_accuracy nas
       = PrimFloat.div (PrimFloat.mul a ref_pow)
                       (PrimFloat.mul ref_frame_accuracy model_pow)) /\
  (forall ref_pow model_pow,
     float_pow libm_pow ref_model_num_param param_importance = Ok ref_pow ->
     float_pow libm_pow model_num_param param_importance = Ok model_pow ->
     PrimFloat.eqb (PrimFloat.mul ref_frame_accuracy model_pow) 0 = false ->
     exists nas,
       compute_nas_masked_metrics compute_all_metrics compute_frame_accuracy
         compute_classification_metrics libm_pow
         frame_pairs all_target_lens all_target_length_preds select_length_beam
         top_intent_accuracy frame_accuracy frame_accuracies_by_depth
         bracket_metrics tree_metrics overall_metrics
         all_predicted_frames calculated_loss length_metrics
         non_invalid_frame_pairs extracted_frame_pairs
         model_num_param ref_model_num_param ref_frame_accuracy param_importance
       = Ok nas /\
       NASMaskedSeq2SeqJointMetrics.norm_prod_model_param_frame_accuracy nas
       = PrimFloat.div (PrimFloat.mul a ref_pow)
                       (PrimFloat.mul ref_frame_accuracy model_pow)) /\
  (a = 0.8%float ->
   libm_pow 100 1 = Ok 100%float ->
   exists nas,
     compute_nas_masked_metrics compute_all_metrics compute_frame_accuracy
       compute_classification_metrics libm_pow
       frame_pairs all_target_lens all_target_length_preds select_length_beam
       top_intent_accuracy frame_accuracy frame_accuracies_by_depth
       bracket_metrics tree_metrics overall_metrics
       all_predicted_frames calculated_loss length_metrics
       non_invalid_frame_pairs extracted_frame_pairs
       100 100 0.8 1
     = Ok nas /\
     NASMaskedSeq2SeqJointMetrics.norm_prod_model_param_frame_accuracy nas
     = 1%float).
Proof.
  intros Hm Ha.
  assert (forall mnp rmnp rfa alpha ref_pow model_pow,
            float_pow libm_pow rmnp alpha = Ok ref_pow ->
            float_pow libm_pow mnp alpha = Ok model_pow ->
            PrimFloat.eqb (PrimFloat.mul rfa model_pow) 0 = false ->
            exists nas,
              compute_nas_masked_metrics compute_all_metrics compute_frame_accuracy
                compute_classification_metrics libm_pow
                frame_pairs all_target_lens all_target_length_preds select_length_beam
                top_intent_accuracy frame_accuracy frame_accuracies_by_depth
                bracket_metrics tree_metrics overall_metrics
                all_predicted_frames calculated_loss length_metrics
                non_invalid_frame_pairs extracted_frame_pairs
                mnp rmnp rfa alpha
              = Ok nas /\
              NASMaskedSeq2SeqJointMetrics.norm_prod_model_param_frame_accuracy nas
              = PrimFloat.div (PrimFloat.mul a ref_pow) (PrimFloat.mul rfa model_pow))
    as Hforward.
  { intros mnp rmnp rfa alpha ref_pow model_pow Href Hmodel Hzero.
    eexists. split.
    - apply compute_nas_masked_metrics_Ok.
      exists m, (PrimFloat.div (PrimFloat.mul a ref_pow) (PrimFloat.mul rfa model_pow)).
      split; [exact Hm |]. split; [| reflexivity].
      apply nas_objective_Ok. exists a, ref_pow, model_pow. auto.
    - reflexivity. }
  split; [| split].
  - intros nas Hnas.
    apply compute_nas_masked_metrics_Ok in Hnas as (m' & objective & Hm' & Hobj & ->).
    assert (m' = m) as -> by congruence.
    apply nas_objective_Ok in Hobj as (a' & ref_pow & model_pow & Ha' & Href & Hmodel & _ & ->).
    assert (a' = a) as -> by congruence.
    exists ref_pow, model_pow. auto.
  - apply Hforward.
  - intros -> Hlibm.
    destruct (Hforward 100%float 100%float 0.8%float 1%float 100%float 100%float)
      as (nas & Hnas & Hobj).
    + unfold float_pow. simpl. rewrite Hlibm. reflexivity.
    + unfold float_pow. simpl. rewrite Hlibm. reflexivity.
    + reflexivity.
    + exists nas. split; [exact Hnas |]. rewrite Hobj. reflexivity.
Qed.

(** C5, amended. compute_nas_masked_metrics does not forward its
    frame_accuracy toggle (nor any other toggle, nor length_metrics): the
    underlying metrics are always computed with frame_accuracy=True and
    overall_metrics=True, so a call with the toggle False does what the call
    with the toggle True does, and the frame accuracy of a returned record is
    the one compute_all_metrics gives with every toggle True. When that frame
    accuracy is nevertheless absent, the call raises TypeError once the power
    in the numerator has been evaluated; no zero is substituted. *)
Theorem nas_toggles_not_forwarded :
  (forall top_intent_accuracy' frame_accuracy' frame_accuracies_by_depth'
          bracket_metrics' tree_metrics' overall_metrics' length_metrics',
     compute_nas_masked_metrics compute_all_metrics compute_frame_accuracy
       compute_classification_metrics libm_pow
       frame_pairs all_target_lens all_target_length_preds select_length_beam
       top_intent_accuracy frame_accuracy frame_accuracies_by_depth
       bracket_metrics tree_metrics overall_metrics
       all_predicted_frames calculated_loss length_metrics
       non_invalid_frame_pairs extracted_frame_pairs
       model_num_param ref_model_num_param ref_frame_accuracy param_importance
     = compute_nas_masked_metrics compute_all_metrics compute_frame_accuracy
         compute_classification_metrics libm_pow
         frame_pairs all_target_lens all_target_length_preds select_length_beam
         top_intent_accuracy' frame_accuracy' frame_accuracies_by_depth'
         bracket_metrics' tree_metrics' overall_metrics'
         all_predicted_frames calculated_loss length_metrics'
         non_invalid_frame_pairs extracted_frame_pairs
         model_num_param ref_model_num_param ref_frame_accuracy param_importance) /\
  (forall nas,
     compute_nas_masked_metrics compute_all_metrics compute_frame_accuracy
       compute_classification_metrics libm_pow
       frame_pairs all_target_lens all_target_length_preds select_length_beam
       top_intent_accuracy frame_accuracy frame_accuracies_by_depth
       bracket_metrics tree_metrics overall_metrics
       all_predicted_frames calculated_loss length_metrics
       non_invalid_frame_pairs extracted_frame_pairs
       model_num_param ref_model_num_param ref_frame_accuracy param_importance
     = Ok nas ->
     exists all_metrics,
       compute_all_metrics frame_pairs true true true true true true
         all_predicted_frames calculated_loss = Ok all_metrics /\
       MaskedSeq2SeqJointMetrics.frame_accuracy
         (NASMaskedSeq2SeqJointMetrics.super nas)
       = AllMetrics.frame_accuracy all_metrics /\
       is_Some (AllMetrics.frame_accuracy all_metrics)) /\
  (forall m ref_pow,
     compute_masked_metrics compute_all_metrics compute_frame_accuracy
       compute_classification_metrics
       frame_pairs all_target_lens all_target_length_preds select_length_beam
       true true true true true true
       all_predicted_frames calculated_loss None
       non_invalid_frame_pairs extracted_frame_pairs true = Ok m ->
     MaskedSeq2SeqJointMetrics.frame_accuracy m = None ->
     float_pow libm_pow ref_model_num_param param_importance = Ok ref_pow ->
     compute_nas_masked_metrics compute_all_metrics compute_frame_accuracy
       compute_classification_metrics libm_pow
       frame_pairs all_target_lens all_target_length_preds select_length_beam
       top_intent_accuracy frame_accuracy frame_accuracies_by_depth
       bracket_metrics tree_metrics overall_metrics
       all_predicted_frames calculated_loss length_metrics
       non_invalid_frame_pairs extracted_frame_pairs
       model_num_param ref_model_num_param ref_frame_accuracy param_importance
     = Raise TypeError).
Proof.
  split; [| split].
  - intros. unfold compute_nas_masked_metrics. reflexivity.
  - intros nas Hnas.
    apply compute_nas_masked_metrics_Ok in Hnas as (m & objective & Hm & Hobj & ->).
    apply nas_objective_Ok in Hobj as (a & _ & _ & Ha & _).
    apply compute_masked_metrics_Ok in Hm
      as (all_metrics & lm & rep & non_invalid & extracted & Hall & _ & _ & _ & ->).
    exists all_metrics. split; [exact Hall |]. split; [reflexivity |].
    simpl in Ha. rewrite Ha. eauto.
  - intros m ref_pow Hm Hnone Href.
    unfold compute_nas_masked_metrics. rewrite Hm. simpl.
    unfold nas_objective. rewrite Href, Hnone. reflexivity.
Qed.

(** C6, amended. With the underlying frame accuracy a number and
    ref_model_num_param ** param_importance evaluated, the call raises
    ZeroDivisionError, and returns no objective, in each of two cases:
    ref_frame_accuracy is zero and model_num_param ** param_importance
    evaluates to a finite float; or model_num_param is zero, param_importance
    is positive and ref_frame_accuracy is finite. *)
Theorem nas_zero_divisor m a ref_pow :
  compute_masked_metrics compute_all_metrics compute_frame_accuracy
    compute_classification_metrics
    frame_pairs all_target_lens all_target_length_preds select_length_beam
    true true true true true true
    all_predicted_frames calculated_loss None
    non_invalid_frame_pairs extracted_frame_pairs true = Ok m ->
  MaskedSeq2SeqJointMetrics.frame_accuracy m = Some a ->
  float_pow libm_pow ref_model_num_param param_importance = Ok ref_pow ->
  (forall model_pow,
     PrimFloat.eqb ref_frame_accuracy 0 = true ->
     float_pow libm_pow model_num_param param_importance = Ok model_pow ->
     is_finite model_pow = true ->
     compute_nas_masked_metrics compute_all_metrics compute_frame_accuracy
       compute_classification_metrics libm_pow
       frame_pairs all_target_lens all_target_length_preds select_length_beam
       top_intent_accuracy frame_accuracy frame_accuracies_by_depth
       bracket_metrics tree_metrics overall_metrics
       all_predicted_frames calculated_loss length_metrics
       non_invalid_frame_pairs extracted_frame_pairs
       model_num_param ref_model_num_param ref_frame_accuracy param_importance
     = Raise ZeroDivisionError) /\
  (PrimFloat.eqb model_num_param 0 = true ->
   PrimFloat.ltb 0 param_importance = true ->
   is_finite ref_frame_accuracy = true ->
   compute_nas_masked_metrics compute_all_metrics compute_frame_accuracy
     compute_classification_metrics libm_pow
     frame_pairs all_target_lens all_target_length_preds select_length_beam
     top_intent_accuracy frame_accuracy frame_accuracies_by_depth
     bracket_metrics tree_metrics overall_metrics
     all_predicted_frames calculated_loss length_metrics
     non_invalid_frame_pairs extracted_frame_pairs
     model_num_param ref_model_num_param ref_frame_accuracy param_importance
   = Raise ZeroDivisionError).
Proof.
  intros Hm Ha Href.
  assert (forall model_pow,
            float_pow libm_pow model_num_param param_importance = Ok model_pow ->
            PrimFloat.eqb (PrimFloat.mul ref_frame_accuracy model_pow) 0 = true ->
            compute_nas_masked_metrics compute_all_metrics compute_frame_accuracy
              compute_classification_metrics libm_pow
              frame_pairs all_target_lens all_target_length_preds select_length_beam
              top_intent_accuracy frame_accuracy frame_accuracies_by_depth
              bracket_metrics tree_metrics overall_metrics
              all_predicted_frames calculated_loss length_metrics
              non_invalid_frame_pairs extracted_frame_pairs
              model_num_param ref_model_num_param ref_frame_accuracy param_importance
            = Raise ZeroDivisionError) as Hraise.
  { intros model_pow Hmodel Hzero.
    unfold compute_nas_masked_metrics. rewrite Hm. simpl.
    unfold nas_objective. rewrite Href, Ha. simpl. rewrite Hmodel. simpl.
    unfold float_truediv. rewrite Hzero. reflexivity. }
  split.
  - intros model_pow Hzero Hmodel Hfinite.
    apply (Hraise model_pow Hmodel).
    apply (float_mul_zero ref_frame_accuracy model_pow Hzero Hfinite).
  - intros Hzero Hpos Hfinite.
    destruct (float_pow_zero_base libm_pow model_num_param param_importance
                Hzero Hpos) as (z & Hmodel & Hz).
    apply (Hraise z Hmodel).
    apply (float_mul_zero z ref_frame_accuracy Hz Hfinite).
Qed.

(** C7. Provided compute_frame_accuracy returns 0.0 for an absent pairs
    argument, the non_invalid_fa field (respectively the extracted_fa field)
    of the record that compute_masked_metrics returns is exactly 0.0 when the
    non-invalid (respectively extracted) subset is None; and that zero is the
    very same float as the one a present subset scoring 0.0 produces. The
    call returns as soon as its other three steps do. *)
Theorem absent_subset_scores_zero all_metrics lm rep :
  compute_all_metrics frame_pairs top_intent_accuracy frame_accuracy
    frame_accuracies_by_depth bracket_metrics tree_metrics overall_metrics
    all_predicted_frames calculated_loss = Ok all_metrics ->
  compute_length_metrics compute_classification_metrics
    all_target_lens all_target_length_preds select_length_beam = Ok (lm, rep) ->
  compute_frame_accuracy None = Ok 0%float ->
  (forall extracted,
     compute_frame_accuracy extracted_frame_pairs = Ok extracted ->
     exists m,
       compute_masked_metrics compute_all_metrics compute_frame_accuracy
         compute_classification_metrics
         frame_pairs all_target_lens all_target_length_preds select_length_beam
         top_intent_accuracy frame_accuracy frame_accuracies_by_depth
         bracket_metrics tree_metrics overall_metrics
         all_predicted_frames calculated_loss length_metrics
         None extracted_frame_pairs print_length_metrics = Ok m /\
       MaskedSeq2SeqJointMetrics.non_invalid_fa m = 0%float /\
       forall pairs m',
         compute_frame_accuracy (Some pairs) = Ok 0%float ->
         compute_masked_metrics compute_all_metrics compute_frame_accuracy
           compute_classification_metrics
           frame_pairs all_target_lens all_target_length_preds select_length_beam
           top_intent_accuracy frame_accuracy frame_accuracies_by_depth
           bracket_metrics tree_metrics overall_metrics
           all_predicted_frames calculated_loss length_metrics
           (Some pairs) extracted_frame_pairs print_length_metrics = Ok m' ->
         MaskedSeq2SeqJointMetrics.non_invalid_fa m'
         = MaskedSeq2SeqJointMetrics.non_invalid_fa m) /\
  (forall non_invalid,
     compute_frame_accuracy non_invalid_frame_pairs = Ok non_invalid ->
     exists m,
       compute_masked_metrics compute_all_metrics compute_frame_accuracy
         compute_classification_metrics
         frame_pairs all_target_lens all_target_length_preds select_length_beam
         top_intent_accuracy frame_accuracy frame_accuracies_by_depth
         bracket_metrics tree_metrics overall_metrics
         all_predicted_frames calculated_loss length_metrics
         non_invalid_frame_pairs None print_length_metrics = Ok m /\
       MaskedSeq2SeqJointMetrics.extracted_fa m = 0%float /\
       forall pairs m',
         compute_frame_accuracy (Some pairs) = Ok 0%float ->
         compute_masked_metrics compute_all_metrics compute_frame_accuracy
           compute_classification_metrics
           frame_pairs all_target_lens all_target_length_preds select_length_beam
           top_intent_accuracy frame_accuracy frame_accuracies_by_depth
           bracket_metrics tree_metrics overall_metrics
           all_predicted_frames calculated_loss length_metrics
           non_invalid_frame_pairs (Some pairs) print_length_metrics = Ok m' ->
         MaskedSeq2SeqJointMetrics.extracted_fa m'
         = MaskedSeq2SeqJointMetrics.extracted_fa m).
Proof.
  intros Hall Hlen Hnone. split.
  - intros extracted Hex. eexists. split; [| split].
    + apply compute_masked_metrics_Ok.
      exists all_metrics, lm, rep, 0%float, extracted. auto.
    + reflexivity.
    + intros pairs m' Hpairs Hm'. simpl.
      apply compute_masked_metrics_Ok in Hm'
        as (? & ? & ? & non_invalid' & ? & _ & _ & Hni & _ & ->).
      simpl. congruence.
  - intros non_invalid Hni. eexists. split; [| split].
    + apply compute_masked_metrics_Ok.
      exists all_metrics, lm, rep, non_invalid, 0%float. auto.
    + reflexivity.
    + intros pairs m' Hpairs Hm'. simpl.
      apply compute_masked_metrics_Ok in Hm'
        as (? & ? & ? & ? & extracted' & _ & _ & _ & Hex & ->).
      simpl. congruence.
Qed.

(** C8. The record that compute_nas_masked_metrics returns carries, field for
    field and unchanged, the MaskedSeq2SeqJointMetrics result it was computed
    from (top_intent_accuracy, frame_accuracy, frame_accuracy_top_k,
    frame_accuracies_by_depth, bracket_metrics, tree_metrics, loss,
    length_metrics, length_reports, non_invalid_fa, extracted_fa); what is
    added are the two NAS fields, model_num_param and the objective. Such a
    record is returned whenever the base result and the objective are. *)
Theorem nas_preserves_base_fields :
  (forall nas,
     compute_nas_masked_metrics compute_all_metrics compute_frame_accuracy
       compute_classification_metrics libm_pow
       frame_pairs all_target_lens all_target_length_preds select_length_beam
       top_intent_accuracy frame_accuracy frame_accuracies_by_depth
       bracket_metrics tree_metrics overall_metrics
       all_predicted_frames calculated_loss length_metrics
       non_invalid_frame_pairs extracted_frame_pairs
       model_num_param ref_model_num_param ref_frame_accuracy param_importance
     = Ok nas ->
     exists m,
       compute_masked_metrics compute_all_metrics compute_frame_accuracy
         compute_classification_metrics
         frame_pairs all_target_lens all_target_length_preds select_length_beam
         true true true true true true
         all_predicted_frames calculated_loss None
         non_invalid_frame_pairs extracted_frame_pairs true = Ok m /\
       let base := NASMaskedSeq2SeqJointMetrics.super nas in
       MaskedSeq2SeqJointMetrics.top_intent_accuracy base
       = MaskedSeq2SeqJointMetrics.top_intent_accuracy m /\
       MaskedSeq2SeqJointMetrics.frame_accuracy base
       = MaskedSeq2SeqJointMetrics.frame_accuracy m /\
       MaskedSeq2SeqJointMetrics.frame_accuracy_top_k base
       = MaskedSeq2SeqJointMetrics.frame_accuracy_top_k m /\
       MaskedSeq2SeqJointMetrics.frame_accuracies_by_depth base
       = MaskedSeq2SeqJointMetrics.frame_accuracies_by_depth m /\
       MaskedSeq2SeqJointMetrics.bracket_metrics base
       = MaskedSeq2SeqJointMetrics.bracket_metrics m /\
       MaskedSeq2SeqJointMetrics.tree_metrics base
       = MaskedSeq2SeqJointMetrics.tree_metrics m /\
       MaskedSeq2SeqJointMetrics.loss base
       = MaskedSeq2SeqJointMetrics.loss m /\
       MaskedSeq2SeqJointMetrics.length_metrics base
       = MaskedSeq2SeqJointMetrics.length_metrics m /\
       MaskedSeq2SeqJointMetrics.length_reports base
       = MaskedSeq2SeqJointMetrics.length_reports m /\
       MaskedSeq2SeqJointMetrics.non_invalid_fa base
       = MaskedSeq2SeqJointMetrics.non_invalid_fa m /\
       MaskedSeq2SeqJointMetrics.extracted_fa base
       = MaskedSeq2SeqJointMetrics.extracted_fa m /\
       NASMaskedSeq2SeqJointMetrics.model_num_param nas = model_num_param /\
       nas_objective libm_pow (MaskedSeq2SeqJointMetrics.frame_accuracy m)
         model_num_param ref_model_num_param ref_frame_accuracy param_importance
       = Ok (NASMaskedSeq2SeqJointMetrics.norm_prod_model_param_frame_accuracy nas)) /\
  (forall m objective,
     compute_masked_metrics compute_all_metrics compute_frame_accuracy
       compute_classification_metrics
       frame_pairs all_target_lens all_target_length_preds select_length_beam
       true true true true true true
       all_predicted_frames calculated_loss None
       non_invalid_frame_pairs extracted_frame_pairs true = Ok m ->
     nas_objective libm_pow (MaskedSeq2SeqJointMetrics.frame_accuracy m)
       model_num_param ref_model_num_param ref_frame_accuracy param_importance
     = Ok objective ->
     exists nas,
       compute_nas_masked_metrics compute_all_metrics compute_frame_accuracy
         compute_classification_metrics libm_pow
         frame_pairs all_target_lens all_target_length_preds select_length_beam
         top_intent_accuracy frame_accuracy frame_accuracies_by_depth
         bracket_metrics tree_metrics overall_metrics
         all_predicted_frames calculated_loss length_metrics
         non_invalid_frame_pairs extracted_frame_pairs
         model_num_param ref_model_num_param ref_frame_accuracy param_importance
       = Ok nas /\
       NASMaskedSeq2SeqJointMetrics.super nas = m).
Proof.
  split.
  - intros nas Hnas.
    apply compute_nas_masked_metrics_Ok in Hnas as (m & objective & Hm & Hobj & ->).
    exists m. split; [exact Hm |].
    unfold NASMaskedSeq2SeqJointMetrics.new. simpl.
    repeat (split; [reflexivity |]). exact Hobj.
  - intros m objective Hm Hobj. eexists. split.
    + apply compute_nas_masked_metrics_Ok. exists m, objective. auto.
    + unfold NASMaskedSeq2SeqJointMetrics.new. simpl.
      apply compute_masked_metrics_Ok in Hm
        as (? & ? & ? & ? & ? & _ & _ & _ & _ & ->).
      reflexivity.
Qed.

(** C10. The length_metrics argument of compute_masked_metrics has no effect:
    two calls that differ only in it give the same outcome, and the
    length_metrics and length_reports fields of a returned record are what
    compute_length_metrics computes from all_target_lens,
    all_target_length_preds and select_length_beam. *)
Theorem length_metrics_argument_unused (length_metrics' : option (gmap Z Q)) :
  compute_masked_metrics compute_all_metrics compute_frame_accuracy
    compute_classification_metrics
    frame_pairs all_target_lens all_target_length_preds select_length_beam
    top_intent_accuracy frame_accuracy frame_accuracies_by_depth
    bracket_metrics tree_metrics overall_metrics
    all_predicted_frames calculated_loss length_metrics
    non_invalid_frame_pairs extracted_frame_pairs print_length_metrics
  = compute_masked_metrics compute_all_metrics compute_frame_accuracy
      compute_classification_metrics
      frame_pairs all_target_lens all_target_length_preds select_length_beam
      top_intent_accuracy frame_accuracy frame_accuracies_by_depth
      bracket_metrics tree_metrics overall_metrics
      all_predicted_frames calculated_loss length_metrics'
      non_invalid_frame_pairs extracted_frame_pairs print_length_metrics /\
  forall m,
    compute_masked_metrics compute_all_metrics compute_frame_accuracy
      compute_classification_metrics
      frame_pairs all_target_lens all_target_length_preds select_length_beam
      top_intent_accuracy frame_accuracy frame_accuracies_by_depth
      bracket_metrics tree_metrics overall_metrics
      all_predicted_frames calculated_loss length_metrics
      non_invalid_frame_pairs extracted_frame_pairs print_length_metrics = Ok m ->
    compute_length_metrics compute_classification_metrics
      all_target_lens all_target_length_preds select_length_beam
    = Ok (MaskedSeq2SeqJointMetrics.length_metrics m,
          MaskedSeq2SeqJointMetrics.length_reports m).
Proof.
  split.
  - unfold compute_masked_metrics. reflexivity.
  - intros m Hm.
    apply compute_masked_metrics_Ok in Hm
      as (? & lm & rep & ? & ? & _ & Hlen & _ & _ & ->).
    exact Hlen.
Qed.

End MaskedMetricsClaims.

(** * Concrete calls *)

(** The error paths of [compute_length_metrics]: a selected beam index
    outside the beam, an example without predictions, fewer prediction lists
    than gold lengths. *)
Example beam_index_out_of_range :
  compute_length_metrics echo_classification_metrics
    [3; 5; 2] [[3; 4]; [4; 5]; [1; 7]] 2 = Raise KeyError.
Proof. vm_compute. reflexivity. Qed.

Example example_without_predictions :
  compute_length_metrics echo_classification_metrics
    [3; 5; 2] [[3; 4]; []; [1; 7]] 1 = Raise IndexError.
Proof. vm_compute. reflexivity. Qed.

Example fewer_predictions_than_gold_lengths :
  compute_length_metrics echo_classification_metrics
    [3; 5; 2] [[3; 4]; [4; 5]] 1 = Raise ValueError.
Proof. vm_compute. reflexivity. Qed.

(** Special values of [**], none of which reaches the C library. *)
Example float_pow_special_values :
  float_pow first_power_pow infinity 1 = Ok infinity /\
  float_pow first_power_pow 1 1 = Ok 1%float /\
  float_pow first_power_pow 5 0 = Ok 1%float /\
  float_pow first_power_pow 0 0.5 = Ok 0%float /\
  float_pow first_power_pow neg_zero 3 = Ok neg_zero /\
  float_pow first_power_pow 0 (-1) = Raise ZeroDivisionError /\
  float_pow first_power_pow (-8) 0.5 = Raise ComplexResult /\
  float_pow first_power_pow (-1) 3 = Ok (-1)%float.
Proof. repeat split; vm_compute; reflexivity. Qed.

(** Three examples with beam width 2: the first is right at width 0, the
    second only at width 1, the third at neither. *)
Lemma length_metrics_monotone_witness :
  compute_length_metrics echo_classification_metrics
    [3; 5; 2] [[3; 4]; [4; 5]; [1; 7]] 1
  = Ok (<[0 := (1 # 3)%Q]> (<[1 := (2 # 3)%Q]> ∅),
        Report ([LabelPrediction.make [0; 0; 0; 1; 0; 0] 3 3;
                 LabelPrediction.make [0; 0; 0; 0; 0; 1] 5 5;
                 LabelPrediction.make [0; 1; 0; 0; 0; 0] 1 2],
                ["0"; "1"; "2"; "3"; "4"; "5"]%string, 0%float)) /\
  forall lm rep,
    compute_length_metrics echo_classification_metrics
      [3; 5; 2] [[3; 4]; [4; 5]; [1; 7]] 1 = Ok (lm, rep) ->
    forall k, 0 <= k < 2 ->
      exists a_k a_top,
        lm !! k = Some a_k /\ lm !! (2 - 1) = Some a_top /\ (a_top >= a_k)%Q.
Proof.
  split; [vm_compute; reflexivity |].
  intros lm rep Hrun.
  destruct (length_metrics_monotone echo_report echo_classification_metrics
              [3; 5; 2] [[3; 4]; [4; 5]; [1; 7]] 1 2) as [_ Hmono];
    [discriminate | repeat constructor | reflexivity |].
  apply (Hmono lm rep Hrun).
Defined.

(** Two examples whose gold length is the first prediction. *)
Lemma length_metrics_accuracy_witness :
  compute_length_metrics echo_classification_metrics
    [3; 5] [[3; 4]; [5; 1]] 0
  = Ok (<[0 := 1%Q]> (<[1 := 1%Q]> ∅),
        Report ([LabelPrediction.make [0; 0; 0; 1; 0; 0] 3 3;
                 LabelPrediction.make [0; 0; 0; 0; 0; 1] 5 5],
                ["0"; "1"; "2"; "3"; "4"; "5"]%string, 0%float)) /\
  forall lm rep,
    compute_length_metrics echo_classification_metrics
      [3; 5] [[3; 4]; [5; 1]] 0 = Ok (lm, rep) ->
    (forall k, 0 <= k < 2 -> lm !! k = Some (accuracy_at [3; 5] [[3; 4]; [5; 1]] k)) /\
    lm !! 0 = Some 1%Q.
Proof.
  split; [vm_compute; reflexivity |].
  intros lm rep Hrun.
  destruct (length_metrics_accuracy echo_report echo_classification_metrics
              [3; 5] [[3; 4]; [5; 1]] 0 2) as [_ Hacc];
    [discriminate | repeat constructor | reflexivity |].
  destruct (Hacc lm rep Hrun) as (Hk & _ & Hfirst).
  split; [exact Hk |]. apply Hfirst.
  intros [|[|i]] label preds HL HP; simpl in HL, HP; [| | discriminate HL].
  - injection HL as <-. injection HP as <-. reflexivity.
  - injection HL as <-. injection HP as <-. reflexivity.
Defined.

(** The report of the three examples above at the selected width 1. *)
Lemma length_report_construction_witness :
  exists selected max_len predictions label_names r,
    effective_predictions [3; 5; 2] [[3; 4]; [4; 5]; [1; 7]] 1 = Some selected /\
    is_max_of max_len ([3; 5; 2] ++ selected) /\
    length predictions = length [3; 5; 2] /\
    (forall (i : nat) pred expect,
       selected !! i = Some pred -> [3; 5; 2] !! i = Some expect ->
       exists v, predictions !! i = Some (LabelPrediction.make v pred expect) /\
                 one_hot_over max_len pred v) /\
    label_names_over max_len label_names /\
    echo_classification_metrics predictions label_names 0%float = Ok r /\
    Report ([LabelPrediction.make [0; 0; 0; 1; 0; 0] 3 3;
             LabelPrediction.make [0; 0; 0; 0; 0; 1] 5 5;
             LabelPrediction.make [0; 1; 0; 0; 0; 0] 1 2],
            ["0"; "1"; "2"; "3"; "4"; "5"]%string, 0%float) = Report r.
Proof.
  destruct (length_report_construction echo_report echo_classification_metrics
              [3; 5; 2] [[3; 4]; [4; 5]; [1; 7]] 1) as [_ Hreport];
    [discriminate |].
  eapply Hreport. vm_compute. reflexivity.
Defined.

(** The scenario of the specification: frame accuracy 0.8 against a reference
    of 0.8, 100 parameters against 100, importance 1.0. *)
Lemma nas_objective_formula_witness :
  exists nas,
    compute_nas_masked_metrics toggled_all_metrics bit_frame_accuracy
      echo_classification_metrics first_power_pow
      [true; true; true; true; false] [3] [[3]] 0
      true true true true true false None None None None None
      100 100 0.8 1
    = Ok nas /\
    NASMaskedSeq2SeqJointMetrics.norm_prod_model_param_frame_accuracy nas = 1%float.
Proof.
  destruct (compute_masked_metrics toggled_all_metrics bit_frame_accuracy
              echo_classification_metrics [true; true; true; true; false] [3] [[3]] 0
              true true true true true true None None None None None true)
    as [m|e] eqn:Hm; [| vm_compute in Hm; discriminate Hm].
  refine (proj2 (proj2
            (nas_objective_formula bool unit unit unit echo_report
               toggled_all_metrics bit_frame_accuracy
               echo_classification_metrics first_power_pow
               [true; true; true; true; false] [3] [[3]] 0
               true true true true true false None None None None None
               100 100 0.8 1 m 0.8 Hm _)) eq_refl eq_refl).
  vm_compute in Hm. injection Hm as <-. reflexivity.
Defined.

(** C5, as stated, fails: with the frame_accuracy toggle False, and a
    compute_all_metrics that drops the frame accuracy whenever it is told
    to, the call returns normally, with the frame accuracy populated and an
    objective computed from it. *)
Lemma nas_frame_accuracy_toggle_counterexample :
  exists nas,
    compute_nas_masked_metrics toggled_all_metrics bit_frame_accuracy
      echo_classification_metrics first_power_pow
      [true; true; true; true; false] [3] [[3]] 0
      true false true true true false None None None None None
      100 100 0.8 1
    = Ok nas /\
    MaskedSeq2SeqJointMetrics.frame_accuracy
      (NASMaskedSeq2SeqJointMetrics.super nas) = Some 0.8%float /\
    NASMaskedSeq2SeqJointMetrics.norm_prod_model_param_frame_accuracy nas = 1%float.
Proof.
  eexists. split; [vm_compute; reflexivity |]. split; reflexivity.
Defined.

(** The toggle False does what the toggle True does; and with a
    compute_all_metrics that returns no frame accuracy, the call raises
    TypeError. *)
Lemma nas_toggles_not_forwarded_witness :
  compute_nas_masked_metrics toggled_all_metrics bit_frame_accuracy
    echo_classification_metrics first_power_pow
    [true; true; true; true; false] [3] [[3]] 0
    true false true true true false None None None None None
    100 100 0.8 1
  = compute_nas_masked_metrics toggled_all_metrics bit_frame_accuracy
      echo_classification_metrics first_power_pow
      [true; true; true; true; false] [3] [[3]] 0
      true true true true true false None None None None None
      100 100 0.8 1 /\
  compute_nas_masked_metrics absent_all_metrics bit_frame_accuracy
    echo_classification_metrics first_power_pow
    [true; true; true; true; false] [3] [[3]] 0
    true false true true true false None None None None None
    100 100 0.8 1
  = Raise TypeError.
Proof.
  split.
  - apply (proj1 (nas_toggles_not_forwarded bool unit unit unit echo_report
                    toggled_all_metrics bit_frame_accuracy
                    echo_classification_metrics first_power_pow
                    [true; true; true; true; false] [3] [[3]] 0
                    true false true true true false None None None None None
                    100 100 0.8 1)).
  - destruct (compute_masked_metrics absent_all_metrics bit_frame_accuracy
                echo_classification_metrics [true; true; true; true; false] [3] [[3]] 0
                true true true true true true None None None None None true)
      as [m|e] eqn:Hm; [| vm_compute in Hm; discriminate Hm].
    apply (proj2 (proj2
             (nas_toggles_not_forwarded bool unit unit unit echo_report
                absent_all_metrics bit_frame_accuracy
                echo_classification_metrics first_power_pow
                [true; true; true; true; false] [3] [[3]] 0
                true false true true true false None None None None None
                100 100 0.8 1)) m 100%float Hm).
    + vm_compute in Hm. injection Hm as <-. reflexivity.
    + reflexivity.
Defined.

(** C6, as stated, fails: with a reference frame accuracy of zero and an
    infinite parameter count, the denominator is 0.0 * inf = nan, the
    division raises nothing, and the call returns nan as the objective. *)
Lemma nas_zero_reference_counterexample :
  exists nas,
    compute_nas_masked_metrics toggled_all_metrics bit_frame_accuracy
      echo_classification_metrics first_power_pow
      [true; true; true; true; false] [3] [[3]] 0
      true true true true true false None None None None None
      infinity 1 0 1
    = Ok nas /\
    NASMaskedSeq2SeqJointMetrics.norm_prod_model_param_frame_accuracy nas = nan.
Proof.
  eexists. split; [vm_compute; reflexivity |]. reflexivity.
Defined.

(** A zero reference frame accuracy, and a zero parameter count, with
    everything else finite: ZeroDivisionError. *)
Lemma nas_zero_divisor_witness :
  compute_nas_masked_metrics toggled_all_metrics bit_frame_accuracy
    echo_classification_metrics first_power_pow
    [true; true; true; true; false] [3] [[3]] 0
    true true true true true false None None None None None
    100 100 0 1
  = Raise ZeroDivisionError /\
  compute_nas_masked_metrics toggled_all_metrics bit_frame_accuracy
    echo_classification_metrics first_power_pow
    [true; true; true; true; false] [3] [[3]] 0
    true true true true true false None None None None None
    0 100 0.8 1
  = Raise ZeroDivisionError.
Proof.
  destruct (compute_masked_metrics toggled_all_metrics bit_frame_accuracy
              echo_classification_metrics [true; true; true; true; false] [3] [[3]] 0
              true true true true true true None None None None None true)
    as [m|e] eqn:Hm; [| vm_compute in Hm; discriminate Hm].
  assert (MaskedSeq2SeqJointMetrics.frame_accuracy m = Some 0.8%float) as Ha.
  { vm_compute in Hm. injection Hm as <-. reflexivity. }
  split.
  - apply (proj1
             (nas_zero_divisor bool unit unit unit echo_report
                toggled_all_metrics bit_frame_accuracy
                echo_classification_metrics first_power_pow
                [true; true; true; true; false] [3] [[3]] 0
                true true true true true false None None None None None
                100 100 0 1 m 0.8 100 Hm Ha eq_refl) 100%float);
      reflexivity.
  - apply (proj2
             (nas_zero_divisor bool unit unit unit echo_report
                toggled_all_metrics bit_frame_accuracy
                echo_classification_metrics first_power_pow
                [true; true; true; true; false] [3] [[3]] 0
                true true true true true false None None None None None
                0 100 0.8 1 m 0.8 100 Hm Ha eq_refl));
      reflexivity.
Defined.

(** An absent non-invalid subset scores 0.0, the very float that a present
    subset with no correct frame scores. *)
Lemma absent_subset_scores_zero_witness :
  exists m m',
    compute_masked_metrics toggled_all_metrics bit_frame_accuracy
      echo_classification_metrics
      [true; true; true; true; false] [3] [[3]] 0
      true true true true true false None None None
      None (Some [true]) true = Ok m /\
    MaskedSeq2SeqJointMetrics.non_invalid_fa m = 0%float /\
    compute_masked_metrics toggled_all_metrics bit_frame_accuracy
      echo_classification_metrics
      [true; true; true; true; false] [3] [[3]] 0
      true true true true true false None None None
      (Some [false; false]) (Some [true]) true = Ok m' /\
    MaskedSeq2SeqJointMetrics.non_invalid_fa m'
    = MaskedSeq2SeqJointMetrics.non_invalid_fa m.
Proof.
  destruct (toggled_all_metrics [true; true; true; true; false] true true true true true false
              None None) as [all_metrics|e] eqn:Hall; [| discriminate Hall].
  destruct (compute_length_metrics echo_classification_metrics [3] [[3]] 0)
    as [[lm rep]|e] eqn:Hlen; [| vm_compute in Hlen; discriminate Hlen].
  destruct (absent_subset_scores_zero bool unit unit unit echo_report
              toggled_all_metrics bit_frame_accuracy
              echo_classification_metrics
              [true; true; true; true; false] [3] [[3]] 0
              true true true true true false None None None
              None (Some [true]) true all_metrics lm rep Hall Hlen eq_refl)
    as [Hnon_invalid _].
  destruct (Hnon_invalid 1%float eq_refl) as (m & Hm & Hzero & Hsame).
  destruct (compute_masked_metrics toggled_all_metrics bit_frame_accuracy
              echo_classification_metrics [true; true; true; true; false] [3] [[3]] 0
              true true true true true false None None None
              (Some [false; false]) (Some [true]) true)
    as [m'|e] eqn:Hm'; [| vm_compute in Hm'; discriminate Hm'].
  exists m, m'. split; [exact Hm |]. split; [exact Hzero |].
  split; [reflexivity |].
  apply (Hsame [false; false] m'); [reflexivity | exact Hm'].
Defined.

(** The record of the scenario above is the base record plus two fields. *)
Lemma nas_preserves_base_fields_witness :
  exists nas m,
    compute_nas_masked_metrics toggled_all_metrics bit_frame_accuracy
      echo_classification_metrics first_power_pow
      [true; true; true; true; false] [3] [[3]] 0
      true true true true true false None None None None None
      100 100 0.8 1
    = Ok nas /\
    compute_masked_metrics toggled_all_metrics bit_frame_accuracy
      echo_classification_metrics
      [true; true; true; true; false] [3] [[3]] 0
      true true true true true true None None None None None true = Ok m /\
    NASMaskedSeq2SeqJointMetrics.super nas = m /\
    NASMaskedSeq2SeqJointMetrics.model_num_param nas = 100%float.
Proof.
  destruct (compute_masked_metrics toggled_all_metrics bit_frame_accuracy
              echo_classification_metrics [true; true; true; true; false] [3] [[3]] 0
              true true true true true true None None None None None true)
    as [m|e] eqn:Hm; [| vm_compute in Hm; discriminate Hm].
  destruct (nas_preserves_base_fields bool unit unit unit echo_report
              toggled_all_metrics bit_frame_accuracy
              echo_classification_metrics first_power_pow
              [true; true; true; true; false] [3] [[3]] 0
              true true true true true false None None None None None
              100 100 0.8 1) as [Hfields Hreturns].
  destruct (Hreturns m 1%float Hm) as (nas & Hnas & Hsuper).
  { vm_compute in Hm. injection Hm as <-. reflexivity. }
  exists nas, m. split; [exact Hnas |]. split; [reflexivity |].
  split; [exact Hsuper |].
  destruct (Hfields nas Hnas) as (_ & _ & _ & _ & _ & _ & _ & _ & _ & _ & _ & _ & _ & Hparam & _).
  exact Hparam.
Defined.

(** Passing a dict for length_metrics changes nothing. *)
Lemma length_metrics_argument_unused_witness :
  compute_masked_metrics toggled_all_metrics bit_frame_accuracy
    echo_classification_metrics
    [true; false] [3; 5] [[3; 4]; [4; 5]] 1
    true true true true true false None None None
    None None true
  = compute_masked_metrics toggled_all_metrics bit_frame_accuracy
      echo_classification_metrics
      [true; false] [3; 5] [[3; 4]; [4; 5]] 1
      true true true true true false None None (Some (<[7 := 0%Q]> ∅))
      None None true.
Proof.
  apply (proj1 (length_metrics_argument_unused bool unit unit unit echo_report
                  toggled_all_metrics bit_frame_accuracy
                  echo_classification_metrics
                  [true; false] [3; 5] [[3; 4]; [4; 5]] 1
                  true true true true true false None None None
                  None None true (Some (<[7 := 0%Q]> ∅)))).
Defined.

(** * More on binary64 zeros *)

(** A zero divided by a float that is neither zero nor nan is a zero. *)
Lemma float_div_zero (z d : float) :
  PrimFloat.eqb z 0 = true ->
  PrimFloat.eqb d 0 = false ->
  is_nan d = false ->
  PrimFloat.eqb (PrimFloat.div z d) 0 = true.
Proof.
  intros Hz Hd Hnan. unfold is_nan in Hnan.
  rewrite !FloatAxioms.eqb_spec in *. rewrite div_spec.
  change (Prim2SF 0) with (S754_zero false) in *.
  assert (exists s, Prim2SF z = S754_zero s) as [s ->].
  { destruct (float_eqb_zero z) as [-> | ->]; [| eexists; reflexivity ..].
    rewrite FloatAxioms.eqb_spec. exact Hz. }
  destruct (Prim2SF d) as [sd|sd| |sd md ed]; simpl in *;
    try discriminate; reflexivity.
Qed.

(** * Further properties of [compute_length_metrics] *)

Lemma for_each_ext {S X : Type} (f g : S -> X -> outcome S) (xs : list X) :
  (forall s x, x ∈ xs -> f s x = g s x) ->
  forall s, for_each f xs s = for_each g xs s.
Proof.
  induction xs as [|x xs IH]; intros Hfg s; simpl; [reflexivity |].
  rewrite Hfg by (apply elem_of_cons; auto).
  destruct (g s x) as [s'|e]; simpl; [| reflexivity].
  apply IH. intros s'' y Hy. apply Hfg. apply elem_of_cons. auto.
Qed.

Lemma for_each_fmap {S X Y : Type} (h : Y -> X) (body : S -> X -> outcome S)
    (ys : list Y) :
  forall s, for_each body (h <$> ys) s = for_each (fun s y => body s (h y)) ys s.
Proof.
  induction ys as [|y ys IH]; intros s; simpl; [reflexivity |].
  destruct (body s (h y)) as [s'|e]; simpl; [apply IH | reflexivity].
Qed.

Lemma range_first (n : Z) : 1 <= n -> exists rest, range n = 0 :: rest.
Proof.
  intros Hn. unfold range.
  destruct (Z.to_nat n) as [|m] eqn:Hm; [lia |].
  simpl. eexists. reflexivity.
Qed.

Lemma fraction_bounds (c n : nat) :
  (c <= n)%nat -> (0 <= fraction c n)%Q /\ (fraction c n <= 1)%Q.
Proof.
  intros Hc. unfold fraction. rewrite !Qred_correct. unfold Qle. simpl.
  split; [lia |].
  destruct n as [|n]; [simpl; lia |].
  rewrite <- Pos.of_nat_succ, Zpos_P_of_succ_nat. lia.
Qed.

Lemma accuracy_at_top (L : list Z) (P : list (list Z)) (k : Z) :
  0 <= k -> accuracy_at L P k = top_accuracy L P k.
Proof.
  intros Hk. unfold accuracy_at, top_accuracy. f_equal. f_equal.
  apply list_filter_iff. intros [label preds].
  rewrite counted_correct_iff by exact Hk.
  unfold in_top. simpl. rewrite bool_decide_spec. reflexivity.
Qed.

(** Hits of a report built from a column of predictions are the matches of
    that column with the gold lengths. *)
Lemma report_hits_matches (max_len : Z) (selected L : list Z) :
  report_hits
    ((fun '(pred, expect) => LabelPrediction.make (one_hot max_len pred) pred expect)
       <$> zip selected L)
  = count_matches L selected.
Proof.
  unfold report_hits, count_matches. revert L.
  induction selected as [|pred selected IH]; intros [|expect L]; try reflexivity.
  simpl. rewrite !filter_cons. simpl. specialize (IH L).
  repeat case_decide; simpl in *; try (f_equal; exact IH); try exact IH;
    exfalso; congruence.
Qed.

(** An example without predictions stops the aggregation with IndexError. *)
Lemma aggregate_examples_IndexError (beam : Z) (examples : list (Z * list Z)) :
  1 <= beam ->
  forall agg : gmap Z (list Z),
    (forall k, 0 <= k < beam -> is_Some (agg !! k)) ->
    (exists label, (label, []) ∈ examples) ->
    for_each (aggregate_example beam) examples agg = Raise IndexError.
Proof.
  intros Hbeam.
  induction examples as [|[label preds] examples IH]; intros agg Hagg [bad Hbad].
  - inversion Hbad.
  - simpl. destruct preds as [|p preds].
    + destruct (range_first beam Hbeam) as [rest ->]. simpl.
      rewrite aggregate_width_eq.
      destruct (Hagg 0) as [xs ->]; [lia |]. reflexivity.
    + destruct (aggregate_widths_returns label (p :: preds) (range beam) agg)
        as [agg1 Hagg1].
      { intros k Hk. apply elem_of_range in Hk. split; [apply Hagg, Hk |].
        apply effective_prediction_nonempty. discriminate. }
      rewrite Hagg1. simpl. apply IH.
      * intros k Hk.
        destruct (aggregate_widths_Ok label (p :: preds) (range beam)
                    (NoDup_range beam) _ _ Hagg1 k) as [Hin _].
        destruct Hin as (xs & e & _ & _ & ->); [apply elem_of_range, Hk | eauto].
      * exists bad. apply elem_of_cons in Hbad as [Heq | Hbad];
          [discriminate Heq | exact Hbad].
Qed.

Lemma effective_prediction_truncate (beam : nat) (label : Z) (preds : list Z) (l : Z) :
  0 <= l < Z.of_nat beam ->
  effective_prediction label (take beam preds) l = effective_prediction label preds l.
Proof.
  intros Hl. unfold effective_prediction.
  rewrite take_take, Nat.min_l by lia.
  destruct beam as [|beam]; [lia |].
  destruct preds; reflexivity.
Qed.

Lemma aggregate_examples_truncate (beam : nat) (L : list Z) :
  forall (P : list (list Z)) (agg : gmap Z (list Z)),
    for_each (aggregate_example (Z.of_nat beam)) (zip L (take beam <$> P)) agg
    = for_each (aggregate_example (Z.of_nat beam)) (zip L P) agg.
Proof.
  induction L as [|label L IH]; intros [|preds P] agg; simpl; try reflexivity.
  rewrite (for_each_ext (aggregate_width label (take beam preds))
             (aggregate_width label preds)).
  - destruct (for_each _ _ agg) as [agg1|e]; simpl; [apply IH | reflexivity].
  - intros s l Hl. apply elem_of_range in Hl.
    rewrite !aggregate_width_eq, effective_prediction_truncate by exact Hl.
    reflexivity.
Qed.

(** An effective prediction is the gold length of its example or the first
    prediction of its example. *)
Lemma effective_predictions_lookup (L : list Z) (P : list (list Z)) (k : Z)
    (selected : list Z) :
  effective_predictions L P k = Some selected ->
  length selected = Nat.min (length L) (length P) /\
  forall (i : nat) label preds pred,
    L !! i = Some label -> P !! i = Some preds -> selected !! i = Some pred ->
    effective_prediction label preds k = Some pred /\
    (pred = label \/ head preds = Some pred).
Proof.
  unfold effective_predictions. rewrite mapM_Some. intros Hall. split.
  - apply Forall2_length in Hall. rewrite length_zip in Hall. lia.
  - intros i label preds pred HL HP Hsel.
    assert (zip L P !! i = Some (label, preds)) as Hex.
    { apply lookup_zip_with_Some. exists label, preds. auto. }
    destruct (Forall2_lookup_l _ _ _ _ _ Hall Hex) as (pred' & Hsel' & Heff).
    simpl in Heff. assert (pred' = pred) as -> by congruence.
    split; [exact Heff |].
    unfold effective_prediction in Heff.
    destruct (bool_decide _); [left; congruence | right; exact Heff].
Qed.

(** The aggregation of well-formed examples: one column per width of the
    beam, one entry per example. *)
Lemma aggregation_columns (L : list Z) (P : list (list Z)) (beam : Z) :
  Forall (fun preds => preds <> []) P ->
  exists agg,
    for_each (aggregate_example beam) (zip L P)
      (foldl (fun agg i => <[i := []]> agg) ∅ (range beam)) = Ok agg /\
    forall k,
      (0 <= k < beam ->
       exists col, agg !! k = Some col /\
                   length col = Nat.min (length L) (length P)) /\
      (~ 0 <= k < beam -> agg !! k = None).
Proof.
  intros HP. set (agg0 := foldl _ _ _).
  destruct (aggregate_examples_returns beam (zip L P) agg0) as [agg Hagg].
  { intros k Hk. unfold agg0. rewrite initial_agg_lookup, decide_True; [eauto |].
    apply elem_of_range, Hk. }
  { intros k [label preds] _ Hex. apply effective_prediction_nonempty.
    apply elem_of_zip_r in Hex. rewrite Forall_forall in HP. apply HP, Hex. }
  exists agg. split; [exact Hagg |]. intros k.
  destruct (aggregate_examples_Ok beam _ _ _ Hagg k) as [Hin Hout]. split.
  - intros Hk. destruct (Hin Hk []) as (col & Hcol & Haggk).
    { unfold agg0. rewrite initial_agg_lookup, decide_True; [reflexivity |].
      apply elem_of_range, Hk. }
    exists col. split; [exact Haggk |].
    apply count_matches_column in Hcol as [Hlen _].
    rewrite Hlen. apply length_zip.
  - intros Hk. rewrite (Hout Hk). unfold agg0.
    rewrite initial_agg_lookup, decide_False; [apply lookup_empty |].
    rewrite elem_of_range. exact Hk.
Qed.

Lemma nonempty_beam (P : list (list Z)) :
  P <> [] -> Forall (fun preds => preds <> []) P ->
  1 <= len (default [] (head P)).
Proof.
  destruct P as [|preds0 P']; [congruence |]. intros _ HP.
  apply Forall_cons in HP as [H0 _]. simpl.
  destruct preds0; [congruence |]. unfold len. simpl. lia.
Qed.

Section LengthMetricsMore.

Variable ClassificationMetrics : Type.
Variable compute_classification_metrics :
  list LabelPrediction.t -> list string -> float -> outcome ClassificationMetrics.

(** X1. length_metrics[k] is plain top-(k+1) accuracy: the fraction of
    examples whose gold length is among their first k+1 predictions. The
    fall-back to the first prediction never makes an example correct. The
    mapping has one key per position of the first prediction list, and no
    other. *)
Theorem length_metrics_top_accuracy (L : list Z) (P : list (list Z)) (b : Z)
    (lm : gmap Z Q) (rep : length_report ClassificationMetrics) :
  P <> [] ->
  compute_length_metrics compute_classification_metrics L P b = Ok (lm, rep) ->
  forall k,
    (0 <= k < len (default [] (head P)) -> lm !! k = Some (top_accuracy L P k)) /\
    (~ 0 <= k < len (default [] (head P)) -> lm !! k = None).
Proof.
  intros HP Hrun k.
  destruct (compute_length_metrics_Ok _ compute_classification_metrics
              L P b lm rep HP Hrun) as (_ & _ & _ & Hlm & Hother & _).
  split.
  - intros Hk. destruct (Hlm k Hk) as [_ ->].
    rewrite accuracy_at_top by lia. reflexivity.
  - apply Hother.
Qed.

(** X2. Every value of a returned length_metrics lies between 0 and 1. *)
Theorem length_metrics_between_0_and_1 (L : list Z) (P : list (list Z)) (b : Z)
    (lm : gmap Z Q) (rep : length_report ClassificationMetrics) :
  compute_length_metrics compute_classification_metrics L P b = Ok (lm, rep) ->
  forall k a, lm !! k = Some a -> (0 <= a)%Q /\ (a <= 1)%Q.
Proof.
  intros Hrun k a Ha.
  destruct P as [|preds0 P'].
  - injection Hrun as <- _. rewrite lookup_empty in Ha. discriminate.
  - destruct (compute_length_metrics_Ok _ compute_classification_metrics
                L (preds0 :: P') b lm rep) as (_ & _ & _ & Hlm & Hother & _);
      [discriminate | exact Hrun |].
    destruct (decide (0 <= k < len (default [] (head (preds0 :: P'))))) as [Hk | Hk].
    + destruct (Hlm k Hk) as [_ Hacc]. rewrite Hacc in Ha. injection Ha as <-.
      apply fraction_bounds.
      etransitivity; [apply length_filter |].
      rewrite length_zip. lia.
    + rewrite (Hother k Hk) in Ha. discriminate.
Qed.

(** X3. length_metrics does not depend on the order of the examples: two
    calls on the same examples in different orders return the same
    mapping. *)
Theorem length_metrics_order_independent
    (L L' : list Z) (P P' : list (list Z)) (b b' : Z)
    (lm lm' : gmap Z Q) (rep rep' : length_report ClassificationMetrics) :
  P <> [] -> P' <> [] ->
  zip L P ≡ₚ zip L' P' ->
  length L = length L' ->
  len (default [] (head P)) = len (default [] (head P')) ->
  compute_length_metrics compute_classification_metrics L P b = Ok (lm, rep) ->
  compute_length_metrics compute_classification_metrics L' P' b' = Ok (lm', rep') ->
  lm = lm'.
Proof.
  intros HP HP' Hperm Hlen Hbeam Hrun Hrun'.
  destruct (compute_length_metrics_Ok _ compute_classification_metrics
              L P b lm rep HP Hrun) as (_ & _ & _ & Hlm & Hother & _).
  destruct (compute_length_metrics_Ok _ compute_classification_metrics
              L' P' b' lm' rep' HP' Hrun') as (_ & _ & _ & Hlm' & Hother' & _).
  rewrite <- Hbeam in Hlm', Hother'.
  apply map_eq. intros k.
  destruct (decide (0 <= k < len (default [] (head P)))) as [Hk | Hk].
  - destruct (Hlm k Hk) as [_ ->]. destruct (Hlm' k Hk) as [_ ->].
    unfold accuracy_at. rewrite Hperm, Hlen. reflexivity.
  - rewrite (Hother k Hk), (Hother' k Hk). reflexivity.
Qed.

(** X4. Prediction lists beyond the number of gold lengths are ignored
    without notice: the call does what it does on the first len(gold)
    prediction lists. *)
Theorem surplus_prediction_lists_ignored (L : list Z) (P : list (list Z)) (b : Z) :
  L <> [] ->
  compute_length_metrics compute_classification_metrics L P b
  = compute_length_metrics compute_classification_metrics L (take (length L) P) b.
Proof.
  intros HL. destruct L as [|label L]; [congruence |].
  destruct P as [|preds0 P']; [reflexivity |].
  assert (zip (label :: L) (preds0 :: take (length L) P')
          = zip (label :: L) (preds0 :: P')) as Hzip.
  { exact (zip_with_take_r pair (label :: L) (preds0 :: P')). }
  change (take (length (label :: L)) (preds0 :: P'))
    with (preds0 :: take (length L) P').
  unfold compute_length_metrics. rewrite Hzip. reflexivity.
Qed.

(** X5. The beam width is the length of the first prediction list alone:
    whatever the other lists hold beyond that many entries is ignored. *)
Theorem predictions_beyond_beam_ignored (L : list Z) (P : list (list Z)) (b : Z) :
  compute_length_metrics compute_classification_metrics L P b
  = compute_length_metrics compute_classification_metrics
      L (take (length (default [] (head P))) <$> P) b.
Proof.
  destruct P as [|preds0 P']; [reflexivity |].
  assert (take (length (default [] (head (preds0 :: P')))) <$> (preds0 :: P')
          = preds0 :: (take (length preds0) <$> P')) as ->.
  { rewrite fmap_cons. simpl. rewrite firstn_all. reflexivity. }
  assert (zip L (preds0 :: (take (length preds0) <$> P'))
          = zip L (take (length preds0) <$> (preds0 :: P'))) as Hzip.
  { rewrite fmap_cons, firstn_all. reflexivity. }
  unfold compute_length_metrics. rewrite Hzip. unfold len.
  rewrite aggregate_examples_truncate. reflexivity.
Qed.

(** X6. With fewer prediction lists than gold lengths (and no empty
    prediction list), the call raises ValueError: accuracy_score is handed
    lists of different lengths. *)
Theorem fewer_prediction_lists_raise (L : list Z) (P : list (list Z)) (b : Z) :
  P <> [] ->
  Forall (fun preds => preds <> []) P ->
  (length P < length L)%nat ->
  compute_length_metrics compute_classification_metrics L P b = Raise ValueError.
Proof.
  intros HP Hne Hlen.
  pose proof (nonempty_beam P HP Hne) as Hbeam.
  destruct P as [|preds0 P']; [congruence |]. simpl in Hbeam.
  unfold compute_length_metrics.
  destruct (aggregation_columns L (preds0 :: P') (len preds0) Hne)
    as (agg & -> & Hcols). simpl.
  destruct (range_first (len preds0) Hbeam) as [rest ->]. simpl.
  destruct (Hcols 0) as [Hin _].
  destruct Hin as (col & Hcol & Hlencol); [lia |].
  unfold score_width, getitem. rewrite Hcol. simpl.
  unfold accuracy_score.
  destruct (Nat.eqb_spec (length L) (length col)) as [Heq | _]; [| reflexivity].
  exfalso. rewrite Hlencol in Heq. lia.
Qed.

(** X7. An example whose prediction list is empty makes the call raise
    IndexError, whatever its gold length: nothing is found in an empty list,
    and the fall-back reads its first entry. *)
Theorem empty_prediction_list_raises (L : list Z) (P : list (list Z)) (b : Z)
    (i : nat) :
  1 <= len (default [] (head P)) ->
  (i < length L)%nat ->
  P !! i = Some [] ->
  compute_length_metrics compute_classification_metrics L P b = Raise IndexError.
Proof.
  intros Hbeam Hi Hempty.
  destruct P as [|preds0 P']; [discriminate Hempty |]. simpl in Hbeam.
  unfold compute_length_metrics.
  rewrite (aggregate_examples_IndexError (len preds0)); [reflexivity | exact Hbeam | |].
  - intros k Hk. rewrite initial_agg_lookup, decide_True; [eauto |].
    apply elem_of_range, Hk.
  - destruct (lookup_lt_is_Some_2 L i Hi) as [label Hlabel].
    exists label. apply list_elem_of_lookup. exists i.
    apply lookup_zip_with_Some. exists label, []. auto.
Qed.

(** X8. A selected beam index outside 0..len(P[0])-1 makes the call raise
    KeyError, after all the accuracies have been computed: no report is
    built for a width the beam does not have. *)
Theorem beam_index_outside_beam_raises (L : list Z) (P : list (list Z)) (b : Z) :
  P <> [] ->
  Forall (fun preds => preds <> []) P ->
  (length L <= length P)%nat ->
  L <> [] ->
  ~ 0 <= b < len (default [] (head P)) ->
  compute_length_metrics compute_classification_metrics L P b = Raise KeyError.
Proof.
  intros HP Hne Hlen HL Hb.
  destruct P as [|preds0 P']; [congruence |]. simpl in Hb.
  unfold compute_length_metrics.
  destruct (aggregation_columns L (preds0 :: P') (len preds0) Hne)
    as (agg & -> & Hcols). simpl.
  destruct (score_widths_returns L agg (range (len preds0)) ∅) as [lm ->].
  { intros k Hk. apply elem_of_range in Hk.
    destruct (Hcols k) as [Hin _]. destruct (Hin Hk) as (col & Hcol & Hlencol).
    exists col. split; [exact Hcol | lia]. }
  { exact HL. }
  simpl. destruct (Hcols b) as [_ Hout].
  unfold getitem. rewrite (Hout Hb). reflexivity.
Qed.

(** X9. With prediction lists but no gold length at all, the call never
    returns: it raises. *)
Theorem no_gold_length_raises (P : list (list Z)) (b : Z) :
  P <> [] ->
  exists e, compute_length_metrics compute_classification_metrics [] P b = Raise e.
Proof.
  intros HP.
  destruct (compute_length_metrics compute_classification_metrics [] P b)
    as [[lm rep]|e] eqn:Hrun; [exfalso | eauto].
  destruct (compute_length_metrics_Ok _ compute_classification_metrics
              [] P b lm rep HP Hrun) as (_ & _ & HL & _).
  congruence.
Qed.

(** X10. The report agrees with length_metrics at the selected width: the
    predictions handed to the classification routine carry the gold lengths
    as expected labels, in order; each predicted label is the gold length or
    the first prediction of its example; and the fraction of predictions
    whose predicted label is the expected one is length_metrics[b]. *)
Theorem report_agrees_with_length_metrics (L : list Z) (P : list (list Z)) (b : Z)
    (lm : gmap Z Q) (rep : length_report ClassificationMetrics) :
  P <> [] ->
  compute_length_metrics compute_classification_metrics L P b = Ok (lm, rep) ->
  exists predictions label_names r,
    compute_classification_metrics predictions label_names 0%float = Ok r /\
    rep = Report r /\
    LabelPrediction.expected_label <$> predictions = L /\
    (forall (i : nat) p label preds,
       predictions !! i = Some p -> L !! i = Some label -> P !! i = Some preds ->
       LabelPrediction.predicted_label p = label \/
       head preds = Some (LabelPrediction.predicted_label p)) /\
    lm !! b = Some (fraction (report_hits predictions) (length predictions)).
Proof.
  intros HP Hrun.
  destruct (compute_length_metrics_Ok _ compute_classification_metrics
              L P b lm rep HP Hrun)
    as (Hb & Hle & _ & Hlm & _ & selected & max_len & r & Hsel & Hlen & _ & Hr & ->).
  eexists _, _, r. split; [exact Hr |]. split; [reflexivity |].
  destruct (effective_predictions_lookup L P b selected Hsel) as [_ Hlookup].
  split; [| split].
  - rewrite <- list_fmap_compose.
    transitivity ((zip selected L).*2).
    + apply list_fmap_ext. intros _ [pred expect] _. reflexivity.
    + apply snd_zip. lia.
  - intros i p label preds Hp HL HPi.
    rewrite list_lookup_fmap in Hp.
    destruct (zip selected L !! i) as [[pred expect]|] eqn:Hzip; [| discriminate].
    injection Hp as <-. simpl.
    apply lookup_zip_with_Some in Hzip as (x & y & [= <- <-] & Hx & Hy).
    destruct (Hlookup i label preds pred HL HPi Hx) as [_ Hor]. exact Hor.
  - destruct (Hlm b Hb) as [_ ->]. f_equal.
    rewrite report_hits_matches, length_fmap, length_zip, Hlen, Nat.min_id.
    unfold accuracy_at. f_equal.
    apply count_matches_column in Hsel as [_ Hcount].
    rewrite fst_zip in Hcount by exact Hle. symmetry. exact Hcount.
Qed.

(** X11. With non-negative gold and predicted lengths, every label of the
    report is an index into the label names: for each prediction handed to
    the classification routine, the score vector has one entry per label
    name, its entry at the predicted label is 1, and the names at the
    predicted and the expected label are those two lengths in decimal. *)
Theorem report_labels_in_range (L : list Z) (P : list (list Z)) (b : Z)
    (lm : gmap Z Q) (rep : length_report ClassificationMetrics) :
  P <> [] ->
  Forall (fun label => 0 <= label) L ->
  Forall (Forall (fun pred => 0 <= pred)) P ->
  compute_length_metrics compute_classification_metrics L P b = Ok (lm, rep) ->
  exists predictions label_names r,
    compute_classification_metrics predictions label_names 0%float = Ok r /\
    rep = Report r /\
    Forall
      (fun p =>
         let pred := LabelPrediction.predicted_label p in
         let expect := LabelPrediction.expected_label p in
         length (LabelPrediction.scores p) = length label_names /\
         LabelPrediction.scores p !! Z.to_nat pred = Some 1 /\
         label_names !! Z.to_nat pred = Some (str pred) /\
         label_names !! Z.to_nat expect = Some (str expect))
      predictions.
Proof.
  intros HP HL0 HP0 Hrun.
  destruct (compute_length_metrics_Ok _ compute_classification_metrics
              L P b lm rep HP Hrun)
    as (_ & _ & _ & _ & _ & selected & max_len & r & Hsel & Hlen & Hmax & Hr & ->).
  eexists _, _, r. split; [exact Hr |]. split; [reflexivity |].
  apply py_max_Ok in Hmax as [_ Hmax].
  destruct (effective_predictions_lookup L P b selected Hsel) as [Hlensel Hlookup].
  destruct (one_hot_is_one_hot max_len 0) as [Hlen_hot _].
  destruct (label_names_of_range max_len) as [Hlen_names Hnames].
  apply Forall_forall. intros p Hp.
  apply list_elem_of_fmap in Hp as ([pred expect] & -> & Hpair).
  apply list_elem_of_lookup in Hpair as [i Hpair].
  apply lookup_zip_with_Some in Hpair as (x & y & [= -> ->] & Hx & Hy).
  simpl.
  assert (0 <= y) as Hy0.
  { rewrite Forall_forall in HL0. apply HL0. eapply list_elem_of_lookup_2, Hy. }
  assert (0 <= x) as Hx0.
  { assert (is_Some (P !! i)) as [preds HPi].
    { apply lookup_lt_is_Some. apply lookup_lt_Some in Hx. lia. }
    destruct (Hlookup i y preds x Hy HPi Hx) as [_ [-> | Hhead]]; [exact Hy0 |].
    rewrite Forall_forall in HP0.
    assert (Forall (fun pred => 0 <= pred) preds) as Hpreds.
    { apply HP0. eapply list_elem_of_lookup_2, HPi. }
    rewrite Forall_forall in Hpreds. apply Hpreds.
    apply head_Some_elem_of, Hhead. }
  assert (x <= max_len) as Hxmax.
  { apply Hmax. apply elem_of_app. right. eapply list_elem_of_lookup_2, Hx. }
  assert (y <= max_len) as Hymax.
  { apply Hmax. apply elem_of_app. left. eapply list_elem_of_lookup_2, Hy. }
  destruct (one_hot_is_one_hot max_len x) as [Hlenx Hhot].
  split; [congruence |]. split.
  - rewrite (Hhot x) by lia. rewrite decide_True; reflexivity.
  - split; apply Hnames; lia.
Qed.

(** X12. The two results go together: the returned mapping is empty exactly
    when the report is the empty dict, and exactly when there was no
    prediction list. *)
Theorem empty_mapping_iff_empty_report (L : list Z) (P : list (list Z)) (b : Z)
    (lm : gmap Z Q) (rep : length_report ClassificationMetrics) :
  compute_length_metrics compute_classification_metrics L P b = Ok (lm, rep) ->
  (lm = ∅ <-> P = []) /\ (rep = EmptyDict <-> P = []).
Proof.
  intros Hrun. destruct P as [|preds0 P'].
  - injection Hrun as <- <-. split; split; reflexivity.
  - destruct (compute_length_metrics_Ok _ compute_classification_metrics
                L (preds0 :: P') b lm rep)
      as (Hb & _ & _ & Hlm & _ & _ & _ & r & _ & _ & _ & _ & ->);
      [discriminate | exact Hrun |].
    split; split; try discriminate.
    intros ->. destruct (Hlm b Hb) as [_ Hlookup].
    rewrite lookup_empty in Hlookup. discriminate.
Qed.

(** X21. The selected beam index decides the report only: two calls that
    differ in it alone return the same length_metrics. *)
Theorem length_metrics_independent_of_selected_beam
    (L : list Z) (P : list (list Z)) (b b' : Z)
    (lm lm' : gmap Z Q) (rep rep' : length_report ClassificationMetrics) :
  compute_length_metrics compute_classification_metrics L P b = Ok (lm, rep) ->
  compute_length_metrics compute_classification_metrics L P b' = Ok (lm', rep') ->
  lm = lm'.
Proof.
  intros Hrun Hrun'. destruct P as [|preds0 P'].
  - injection Hrun as <- _. injection Hrun' as <- _. reflexivity.
  - destruct (compute_length_metrics_Ok _ compute_classification_metrics
                L (preds0 :: P') b lm rep) as (_ & _ & _ & Hlm & Hother & _);
      [discriminate | exact Hrun |].
    destruct (compute_length_metrics_Ok _ compute_classification_metrics
                L (preds0 :: P') b' lm' rep') as (_ & _ & _ & Hlm' & Hother' & _);
      [discriminate | exact Hrun' |].
    apply map_eq. intros k.
    destruct (decide (0 <= k < len (default [] (head (preds0 :: P')))))
      as [Hk | Hk].
    + destruct (Hlm k Hk) as [_ ->]. destruct (Hlm' k Hk) as [_ ->]. reflexivity.
    + rewrite (Hother k Hk), (Hother' k Hk). reflexivity.
Qed.

End LengthMetricsMore.

(** * Properties of the print_metrics methods *)

Lemma and_then_ends_normally (p q : printed) :
  (p >>> q).2 = None <-> p.2 = None /\ q.2 = None.
Proof.
  unfold and_then. destruct p as [texts [e|]]; simpl; split.
  - discriminate.
  - intros [H _]. discriminate H.
  - auto.
  - intros [_ H]. exact H.
Qed.

Lemma and_then_raises (p q : printed) (e : print_exn) :
  (p >>> q).2 = Some e -> p.2 = Some e \/ q.2 = Some e.
Proof.
  unfold and_then. destruct p as [texts [e'|]]; simpl; auto.
Qed.

Lemma and_then_texts (p q : printed) :
  p.2 = None -> (p >>> q).1 = p.1 ++ q.1.
Proof.
  unfold and_then. intros ->. reflexivity.
Qed.

Lemma and_then_assoc (p q r : printed) : (p >>> q) >>> r = p >>> (q >>> r).
Proof.
  unfold and_then. destruct p as [tp [ep|]], q as [tq [eq|]]; simpl;
    try reflexivity.
  rewrite app_assoc. reflexivity.
Qed.

(** A record computed with a non-empty mapping has a report. *)
Lemma nonempty_mapping_has_report {ClassificationMetrics : Type}
    (compute_classification_metrics :
       list LabelPrediction.t -> list string -> float -> outcome ClassificationMetrics)
    (L : list Z) (P : list (list Z)) (b : Z)
    (lm : gmap Z Q) (rep : length_report ClassificationMetrics) :
  compute_length_metrics compute_classification_metrics L P b = Ok (lm, rep) ->
  lm <> ∅ -> exists r, rep = Report r.
Proof.
  intros Hrun Hne. destruct P as [|preds0 P'].
  - injection Hrun as <- _. congruence.
  - destruct (compute_length_metrics_Ok _ compute_classification_metrics
                L (preds0 :: P') b lm rep)
      as (_ & _ & _ & _ & _ & _ & _ & r & _ & _ & _ & _ & ->);
      [discriminate | exact Hrun | eauto].
Qed.

Section PrintMetricsFacts.

Variables FrameAccuraciesByDepth IntentSlotMetrics ClassificationMetrics : Type.
Variable intent_slot_bool : IntentSlotMetrics -> bool.
Variable intent_slot_print_metrics : IntentSlotMetrics -> list string * option exn.
Variable classification_bool : ClassificationMetrics -> bool.
Variable classification_accuracy : ClassificationMetrics -> float.
Variable classification_print_metrics :
  ClassificationMetrics -> list string * outcome string.
Variable format_2f : float -> string.
Variable str_float : float -> string.
Variable str_length_metrics : gmap Z Q -> string.

Lemma print_percentage_normal (label : string) (x : option float) :
  (print_percentage format_2f label x).2 = None.
Proof.
  unfold print_percentage. destruct x as [v|]; [| reflexivity].
  destruct (float_bool v); reflexivity.
Qed.

Lemma print_float_normal (label : string) (x : float) :
  (print_float str_float label x).2 = None.
Proof.
  unfold print_float. destruct (float_bool x); reflexivity.
Qed.

Lemma print_intent_slot_no_attribute_error (title : string)
    (x : option IntentSlotMetrics) :
  (print_intent_slot intent_slot_bool intent_slot_print_metrics title x).2
  <> Some AttributeError.
Proof.
  unfold print_intent_slot. destruct x as [metrics|]; [| discriminate].
  destruct (intent_slot_bool metrics); [| discriminate].
  destruct (intent_slot_print_metrics metrics) as [texts [e|]]; discriminate.
Qed.

Lemma print_intent_slot_normal (title : string) (x : option IntentSlotMetrics) :
  (forall metrics, (intent_slot_print_metrics metrics).2 = None) ->
  (print_intent_slot intent_slot_bool intent_slot_print_metrics title x).2 = None.
Proof.
  intros Hprint. unfold print_intent_slot. destruct x as [metrics|]; [| reflexivity].
  destruct (intent_slot_bool metrics); [| reflexivity].
  specialize (Hprint metrics).
  destruct (intent_slot_print_metrics metrics) as [texts raised].
  simpl in Hprint. subst raised. reflexivity.
Qed.

(** The lines 47-49 and 50-51 on a record whose report is there whenever its
    mapping is not empty. *)
Lemma print_metrics_no_attribute_error
    (self : MaskedSeq2SeqJointMetrics.t
              FrameAccuraciesByDepth IntentSlotMetrics ClassificationMetrics) :
  (MaskedSeq2SeqJointMetrics.length_metrics self <> ∅ ->
   exists r, MaskedSeq2SeqJointMetrics.length_reports self = Report r) ->
  (print_metrics intent_slot_bool intent_slot_print_metrics
     classification_bool classification_accuracy classification_print_metrics
     format_2f str_float str_length_metrics self).2 <> Some AttributeError /\
  ((forall metrics, (intent_slot_print_metrics metrics).2 = None) ->
   (forall report, exists texts returned,
      classification_print_metrics report = (texts, Ok returned)) ->
   (print_metrics intent_slot_bool intent_slot_print_metrics
      classification_bool classification_accuracy classification_print_metrics
      format_2f str_float str_length_metrics self).2 = None).
Proof.
  intros Hreport. unfold print_metrics. split.
  - intros Hraise.
    repeat (apply and_then_raises in Hraise as [Hraise | Hraise]).
    + rewrite print_percentage_normal in Hraise. discriminate.
    + rewrite print_percentage_normal in Hraise. discriminate.
    + exact (print_intent_slot_no_attribute_error _ _ Hraise).
    + exact (print_intent_slot_no_attribute_error _ _ Hraise).
    + case_bool_decide as Hlm; [| discriminate].
      destruct (Hreport Hlm) as [r Hr]. rewrite Hr in Hraise. discriminate.
    + destruct (MaskedSeq2SeqJointMetrics.length_reports self) as [|r];
        [discriminate |].
      destruct (_ && _); [| discriminate].
      destruct (classification_print_metrics r) as [texts [returned|e]];
        discriminate.
    + rewrite print_float_normal in Hraise. discriminate.
    + rewrite print_float_normal in Hraise. discriminate.
  - intros Hslot Hprint.
    repeat (apply and_then_ends_normally; split).
    + apply print_percentage_normal.
    + apply print_percentage_normal.
    + apply print_intent_slot_normal, Hslot.
    + apply print_intent_slot_normal, Hslot.
    + case_bool_decide as Hlm; [| reflexivity].
      destruct (Hreport Hlm) as [r ->]. reflexivity.
    + destruct (MaskedSeq2SeqJointMetrics.length_reports self) as [|r];
        [reflexivity |].
      destruct (_ && _); [| reflexivity].
      destruct (Hprint r) as (texts & returned & ->). reflexivity.
    + apply print_float_normal.
    + apply print_float_normal.
Qed.

End PrintMetricsFacts.

Lemma and_then_after_raise (p q : printed) (e : print_exn) :
  p.2 = Some e -> p >>> q = p.
Proof.
  unfold and_then. intros ->. reflexivity.
Qed.

Lemma and_then_after_normal (p q : printed) :
  p.2 = None -> p >>> q = (p.1 ++ q.1, q.2).
Proof.
  unfold and_then. intros ->. reflexivity.
Qed.

Section PrintAndRecordProperties.

Variables FramePredictionPair Node : Type.
Variables FrameAccuraciesByDepth IntentSlotMetrics ClassificationMetrics : Type.
Variable compute_all_metrics :
  list FramePredictionPair -> bool -> bool -> bool -> bool -> bool -> bool ->
  option (list (list Node)) -> option float ->
  outcome (AllMetrics.t FrameAccuraciesByDepth IntentSlotMetrics).
Variable compute_frame_accuracy :
  option (list FramePredictionPair) -> outcome float.
Variable compute_classification_metrics :
  list LabelPrediction.t -> list string -> float -> outcome ClassificationMetrics.
Variable libm_pow : float -> float -> outcome float.

Variable intent_slot_bool : IntentSlotMetrics -> bool.
Variable intent_slot_print_metrics : IntentSlotMetrics -> list string * option exn.
Variable classification_bool : ClassificationMetrics -> bool.
Variable classification_accuracy : ClassificationMetrics -> float.
Variable classification_print_metrics :
  ClassificationMetrics -> list string * outcome string.
Variable format_2f : float -> string.
Variable str_float : float -> string.
Variable str_length_metrics : gmap Z Q -> string.

Variable frame_pairs : list FramePredictionPair.
Variable all_target_lens : list Z.
Variable all_target_length_preds : list (list Z).
Variable select_length_beam : Z.
Variables top_intent_accuracy frame_accuracy frame_accuracies_by_depth : bool.
Variables bracket_metrics tree_metrics overall_metrics : bool.
Variable all_predicted_frames : option (list (list Node)).
Variable calculated_loss : option float.
Variable length_metrics : option (gmap Z Q).
Variables non_invalid_frame_pairs extracted_frame_pairs
  : option (list FramePredictionPair).
Variable print_length_metrics : bool.
Variables model_num_param ref_model_num_param : float.
Variables ref_frame_accuracy param_importance : float.

(** X13. print_metrics never raises AttributeError on a record that
    compute_masked_metrics returned: whenever the length_metrics of such a
    record is not empty, its length_reports has an accuracy to read. It ends
    normally as soon as the print routines of the collaborators do. *)
Theorem print_metrics_of_computed_record m :
  compute_masked_metrics compute_all_metrics compute_frame_accuracy
    compute_classification_metrics
    frame_pairs all_target_lens all_target_length_preds select_length_beam
    top_intent_accuracy frame_accuracy frame_accuracies_by_depth
    bracket_metrics tree_metrics overall_metrics
    all_predicted_frames calculated_loss length_metrics
    non_invalid_frame_pairs extracted_frame_pairs print_length_metrics = Ok m ->
  (print_metrics intent_slot_bool intent_slot_print_metrics
     classification_bool classification_accuracy classification_print_metrics
     format_2f str_float str_length_metrics m).2 <> Some AttributeError /\
  ((forall metrics, (intent_slot_print_metrics metrics).2 = None) ->
   (forall report, exists texts returned,
      classification_print_metrics report = (texts, Ok returned)) ->
   (print_metrics intent_slot_bool intent_slot_print_metrics
      classification_bool classification_accuracy classification_print_metrics
      format_2f str_float str_length_metrics m).2 = None).
Proof.
  intros Hm. apply print_metrics_no_attribute_error.
  apply compute_masked_metrics_Ok in Hm
    as (all_metrics & lm & rep & non_invalid & extracted & _ & Hlen & _ & _ & ->).
  simpl. apply (nonempty_mapping_has_report _ _ _ _ _ _ Hlen).
Qed.

(** X14. nas_print_metrics never raises AttributeError on a record that
    compute_nas_masked_metrics returned, and when the collaborators' print
    routines end normally, so does it, and the last text it prints is the
    objective: that line comes whatever the objective is, zero and nan
    included. *)
Theorem nas_print_metrics_of_computed_record nas :
  compute_nas_masked_metrics compute_all_metrics compute_frame_accuracy
    compute_classification_metrics libm_pow
    frame_pairs all_target_lens all_target_length_preds select_length_beam
    top_intent_accuracy frame_accuracy frame_accuracies_by_depth
    bracket_metrics tree_metrics overall_metrics
    all_predicted_frames calculated_loss length_metrics
    non_invalid_frame_pairs extracted_frame_pairs
    model_num_param ref_model_num_param ref_frame_accuracy param_importance
  = Ok nas ->
  (nas_print_metrics intent_slot_bool intent_slot_print_metrics
     classification_bool classification_accuracy classification_print_metrics
     format_2f str_float str_length_metrics nas).2 <> Some AttributeError /\
  ((forall metrics, (intent_slot_print_metrics metrics).2 = None) ->
   (forall report, exists texts returned,
      classification_print_metrics report = (texts, Ok returned)) ->
   exists texts,
     nas_print_metrics intent_slot_bool intent_slot_print_metrics
       classification_bool classification_accuracy classification_print_metrics
       format_2f str_float str_length_metrics nas
     = (texts ++
        ["Normalized product of model parameter and frame accuracy "
         +:+ str_float
               (NASMaskedSeq2SeqJointMetrics.norm_prod_model_param_frame_accuracy nas)],
        None)).
Proof.
  intros Hnas.
  apply compute_nas_masked_metrics_Ok in Hnas as (m & objective & Hm & _ & ->).
  apply compute_masked_metrics_Ok in Hm
    as (all_metrics & lm & rep & non_invalid & extracted & _ & Hlen & _ & _ & ->).
  unfold NASMaskedSeq2SeqJointMetrics.new. simpl.
  set (base := MaskedSeq2SeqJointMetrics.make _ _ _ _ _ _ _ _ _ _ _ _).
  destruct (print_metrics_no_attribute_error
              FrameAccuraciesByDepth IntentSlotMetrics ClassificationMetrics
              intent_slot_bool intent_slot_print_metrics
              classification_bool classification_accuracy
              classification_print_metrics
              format_2f str_float str_length_metrics base)
    as [Hnever Hnormal].
  { simpl. apply (nonempty_mapping_has_report _ _ _ _ _ _ Hlen). }
  unfold nas_print_metrics.
  cbn [NASMaskedSeq2SeqJointMetrics.super
       NASMaskedSeq2SeqJointMetrics.model_num_param
       NASMaskedSeq2SeqJointMetrics.norm_prod_model_param_frame_accuracy].
  split.
  - intros Hraise.
    apply and_then_raises in Hraise as [Hraise | Hraise];
      [apply and_then_raises in Hraise as [Hraise | Hraise] |].
    + exact (Hnever Hraise).
    + destruct (float_bool model_num_param); discriminate.
    + discriminate.
  - intros Hslot Hprint. specialize (Hnormal Hslot Hprint).
    eexists. rewrite and_then_after_normal.
    + simpl. reflexivity.
    + apply and_then_ends_normally. split; [exact Hnormal |].
      destruct (float_bool model_num_param); reflexivity.
Qed.

(** X15. print_metrics relies on that: on a record whose length_metrics is
    not empty while its length_reports is the empty dict, it raises
    AttributeError right after printing the length metrics, and the two
    frame accuracies after it are never printed. *)
Theorem print_metrics_without_report
    (self : MaskedSeq2SeqJointMetrics.t
              FrameAccuraciesByDepth IntentSlotMetrics ClassificationMetrics) :
  MaskedSeq2SeqJointMetrics.length_metrics self <> ∅ ->
  MaskedSeq2SeqJointMetrics.length_reports self = EmptyDict ->
  (forall metrics, (intent_slot_print_metrics metrics).2 = None) ->
  exists before,
    print_metrics intent_slot_bool intent_slot_print_metrics
      classification_bool classification_accuracy classification_print_metrics
      format_2f str_float str_length_metrics self
    = (before ++
       [newline +:+ newline +:+ "Length Metrics : "
        +:+ str_length_metrics (MaskedSeq2SeqJointMetrics.length_metrics self)],
       Some AttributeError).
Proof.
  intros Hlm Hrep Hslot. unfold print_metrics.
  rewrite Hrep. rewrite bool_decide_true by exact Hlm.
  match goal with
  | |- context [?a >>> ?b >>> ?c >>> ?d >>> ?e >>> _ >>> _ >>> _] =>
      set (intro := a >>> b >>> c >>> d);
      assert (intro.2 = None) as Hintro
  end.
  { unfold intro. repeat (apply and_then_ends_normally; split);
      auto using print_percentage_normal, print_intent_slot_normal. }
  exists intro.1.
  rewrite !(and_then_after_raise (intro >>> _) _ AttributeError);
    rewrite (and_then_after_normal intro) by exact Hintro; reflexivity.
Qed.

(** X16. The header of the length report comes after the report: print's
    argument is evaluated first, so the report prints itself, and only then
    comes "Length Reports :" followed by what print_metrics returned. *)
Theorem length_report_header_follows_report
    (self : MaskedSeq2SeqJointMetrics.t
              FrameAccuraciesByDepth IntentSlotMetrics ClassificationMetrics)
    (report : ClassificationMetrics) (texts : list string) (returned : string) :
  MaskedSeq2SeqJointMetrics.length_reports self = Report report ->
  classification_bool report = true ->
  MaskedSeq2SeqJointMetrics.print_length_metrics self = true ->
  classification_print_metrics report = (texts, Ok returned) ->
  (forall metrics, (intent_slot_print_metrics metrics).2 = None) ->
  exists before after,
    print_metrics intent_slot_bool intent_slot_print_metrics
      classification_bool classification_accuracy classification_print_metrics
      format_2f str_float str_length_metrics self
    = (before ++ texts
       ++ [newline +:+ newline +:+ "Length Reports : " +:+ returned]
       ++ after,
       None).
Proof.
  intros Hrep Hbool Hflag Hprint Hslot. unfold print_metrics.
  rewrite Hrep, Hbool, Hflag, Hprint. simpl andb. cbv iota.
  match goal with
  | |- context [?a >>> ?b >>> ?c >>> ?d >>> ?e >>> ?f >>> ?g >>> ?h] =>
      set (intro := a >>> b >>> c >>> d >>> e);
      set (outro := g >>> h);
      assert (intro.2 = None) as Hintro;
      [| assert (outro.2 = None) as Houtro]
  end.
  { unfold intro. repeat (apply and_then_ends_normally; split);
      auto using print_percentage_normal, print_intent_slot_normal.
    destruct (bool_decide _); reflexivity. }
  { unfold outro. apply and_then_ends_normally.
    split; apply print_float_normal. }
  exists intro.1, outro.1.
  rewrite !and_then_assoc. fold outro.
  rewrite <- !and_then_assoc. fold intro.
  rewrite !and_then_assoc.
  rewrite (and_then_after_normal intro) by exact Hintro.
  unfold and_then at 1 2. simpl. rewrite Houtro.
  reflexivity.
Qed.

(** X17. print_metrics cannot tell a frame accuracy of zero from an absent
    one: with a frame accuracy and a top-k frame accuracy that are zero
    (0.0 or -0.0) it prints exactly what it prints when both are None. *)
Theorem zero_frame_accuracy_prints_as_absent
    (x y : float)
    (tia : option float) (fabd : option FrameAccuraciesByDepth)
    (bm tm : option IntentSlotMetrics) (loss : option float)
    (lm : gmap Z Q) (rep : length_report ClassificationMetrics)
    (ni ex : float) (flag : bool) :
  PrimFloat.eqb x 0 = true ->
  PrimFloat.eqb y 0 = true ->
  print_metrics intent_slot_bool intent_slot_print_metrics
    classification_bool classification_accuracy classification_print_metrics
    format_2f str_float str_length_metrics
    (MaskedSeq2SeqJointMetrics.make tia (Some x) (Some y) fabd bm tm loss
       lm rep ni ex flag)
  = print_metrics intent_slot_bool intent_slot_print_metrics
      classification_bool classification_accuracy classification_print_metrics
      format_2f str_float str_length_metrics
      (MaskedSeq2SeqJointMetrics.make tia None None fabd bm tm loss
         lm rep ni ex flag).
Proof.
  intros Hx Hy. unfold print_metrics, print_percentage, float_bool.
  cbn [MaskedSeq2SeqJointMetrics.frame_accuracy
       MaskedSeq2SeqJointMetrics.frame_accuracy_top_k].
  rewrite Hx, Hy. reflexivity.
Qed.

(** X18. After a call without prediction lists, print_metrics prints nothing
    about lengths: on the record that compute_masked_metrics returns, the
    classification report is never asked for its truth value, its accuracy
    or its print-out, and the dict of length metrics is never rendered. *)
Theorem no_predictions_no_length_texts m
    (classification_bool' : ClassificationMetrics -> bool)
    (classification_accuracy' : ClassificationMetrics -> float)
    (classification_print_metrics' :
       ClassificationMetrics -> list string * outcome string)
    (str_length_metrics' : gmap Z Q -> string) :
  compute_masked_metrics compute_all_metrics compute_frame_accuracy
    compute_classification_metrics
    frame_pairs all_target_lens [] select_length_beam
    top_intent_accuracy frame_accuracy frame_accuracies_by_depth
    bracket_metrics tree_metrics overall_metrics
    all_predicted_frames calculated_loss length_metrics
    non_invalid_frame_pairs extracted_frame_pairs print_length_metrics = Ok m ->
  print_metrics intent_slot_bool intent_slot_print_metrics
    classification_bool classification_accuracy classification_print_metrics
    format_2f str_float str_length_metrics m
  = print_metrics intent_slot_bool intent_slot_print_metrics
      classification_bool' classification_accuracy' classification_print_metrics'
      format_2f str_float str_length_metrics' m.
Proof.
  intros Hm.
  apply compute_masked_metrics_Ok in Hm
    as (all_metrics & lm & rep & non_invalid & extracted & _ & Hlen & _ & _ & ->).
  unfold compute_length_metrics in Hlen. injection Hlen as <- <-.
  unfold print_metrics.
  cbn [MaskedSeq2SeqJointMetrics.length_metrics
       MaskedSeq2SeqJointMetrics.length_reports].
  rewrite bool_decide_false by (intros H; apply H; reflexivity).
  reflexivity.
Qed.

(** X19. The length fields of the record depend on the lengths alone: two
    calls of compute_masked_metrics on the same gold lengths, prediction
    lists and beam index return the same length_metrics and length_reports,
    whatever their frame pairs, toggles, loss, subsets and collaborating
    frame metrics. *)
Theorem length_fields_depend_on_lengths_only m m'
    (compute_all_metrics' :
       list FramePredictionPair -> bool -> bool -> bool -> bool -> bool -> bool ->
       option (list (list Node)) -> option float ->
       outcome (AllMetrics.t FrameAccuraciesByDepth IntentSlotMetrics))
    (compute_frame_accuracy' : option (list FramePredictionPair) -> outcome float)
    (frame_pairs' : list FramePredictionPair)
    (top_intent_accuracy' frame_accuracy' frame_accuracies_by_depth' : bool)
    (bracket_metrics' tree_metrics' overall_metrics' : bool)
    (all_predicted_frames' : option (list (list Node)))
    (calculated_loss' : option float)
    (length_metrics' : option (gmap Z Q))
    (non_invalid_frame_pairs' extracted_frame_pairs'
      : option (list FramePredictionPair))
    (print_length_metrics' : bool) :
  compute_masked_metrics compute_all_metrics compute_frame_accuracy
    compute_classification_metrics
    frame_pairs all_target_lens all_target_length_preds select_length_beam
    top_intent_accuracy frame_accuracy frame_accuracies_by_depth
    bracket_metrics tree_metrics overall_metrics
    all_predicted_frames calculated_loss length_metrics
    non_invalid_frame_pairs extracted_frame_pairs print_length_metrics = Ok m ->
  compute_masked_metrics compute_all_metrics' compute_frame_accuracy'
    compute_classification_metrics
    frame_pairs' all_target_lens all_target_length_preds select_length_beam
    top_intent_accuracy' frame_accuracy' frame_accuracies_by_depth'
    bracket_metrics' tree_metrics' overall_metrics'
    all_predicted_frames' calculated_loss' length_metrics'
    non_invalid_frame_pairs' extracted_frame_pairs' print_length_metrics' = Ok m' ->
  MaskedSeq2SeqJointMetrics.length_metrics m
  = MaskedSeq2SeqJointMetrics.length_metrics m' /\
  MaskedSeq2SeqJointMetrics.length_reports m
  = MaskedSeq2SeqJointMetrics.length_reports m'.
Proof.
  intros Hm Hm'.
  apply compute_masked_metrics_Ok in Hm
    as (? & lm & rep & ? & ? & _ & Hlen & _ & _ & ->).
  apply compute_masked_metrics_Ok in Hm'
    as (? & lm' & rep' & ? & ? & _ & Hlen' & _ & _ & ->).
  simpl. rewrite Hlen in Hlen'. injection Hlen' as <- <-. auto.
Qed.

(** X20. A model that gets no frame right scores zero whatever its size:
    when the underlying frame accuracy is zero, the power in the numerator
    is finite and the denominator is neither zero nor nan,
    compute_nas_masked_metrics returns a record whose objective is zero. *)
Theorem zero_accuracy_zero_objective m a ref_pow model_pow :
  compute_masked_metrics compute_all_metrics compute_frame_accuracy
    compute_classification_metrics
    frame_pairs all_target_lens all_target_length_preds select_length_beam
    true true true true true true
    all_predicted_frames calculated_loss None
    non_invalid_frame_pairs extracted_frame_pairs true = Ok m ->
  MaskedSeq2SeqJointMetrics.frame_accuracy m = Some a ->
  PrimFloat.eqb a 0 = true ->
  float_pow libm_pow ref_model_num_param param_importance = Ok ref_pow ->
  is_finite ref_pow = true ->
  float_pow libm_pow model_num_param param_importance = Ok model_pow ->
  PrimFloat.eqb (PrimFloat.mul ref_frame_accuracy model_pow) 0 = false ->
  is_nan (PrimFloat.mul ref_frame_accuracy model_pow) = false ->
  exists nas,
    compute_nas_masked_metrics compute_all_metrics compute_frame_accuracy
      compute_classification_metrics libm_pow
      frame_pairs all_target_lens all_target_length_preds select_length_beam
      top_intent_accuracy frame_accuracy frame_accuracies_by_depth
      bracket_metrics tree_metrics overall_metrics
      all_predicted_frames calculated_loss length_metrics
      non_invalid_frame_pairs extracted_frame_pairs
      model_num_param ref_model_num_param ref_frame_accuracy param_importance
    = Ok nas /\
    PrimFloat.eqb
      (NASMaskedSeq2SeqJointMetrics.norm_prod_model_param_frame_accuracy nas) 0
    = true.
Proof.
  intros Hm Ha Hzero Href Hfinite Hmodel Hden Hnan.
  eexists. split.
  - apply compute_nas_masked_metrics_Ok. exists m. eexists.
    split; [exact Hm |]. split; [| reflexivity].
    apply nas_objective_Ok. exists a, ref_pow, model_pow. auto.
  - cbn [NASMaskedSeq2SeqJointMetrics.new
         NASMaskedSeq2SeqJointMetrics.norm_prod_model_param_frame_accuracy].
    apply float_div_zero; [| exact Hden | exact Hnan].
    apply (float_mul_zero a ref_pow Hzero Hfinite).
Qed.

End PrintAndRecordProperties.

(** * The further properties on concrete calls *)

Lemma length_metrics_top_accuracy_witness :
  exists lm rep,
    compute_length_metrics echo_classification_metrics
      [3; 5; 2] [[3; 4]; [4; 5]; [1; 7]] 1 = Ok (lm, rep) /\
    lm !! 0 = Some (top_accuracy [3; 5; 2] [[3; 4]; [4; 5]; [1; 7]] 0) /\
    lm !! 1 = Some (top_accuracy [3; 5; 2] [[3; 4]; [4; 5]; [1; 7]] 1) /\
    lm !! 2 = None.
Proof.
  destruct (compute_length_metrics echo_classification_metrics
              [3; 5; 2] [[3; 4]; [4; 5]; [1; 7]] 1)
    as [[lm rep]|e] eqn:Hrun; [| vm_compute in Hrun; discriminate Hrun].
  exists lm, rep. split; [reflexivity |].
  pose proof (length_metrics_top_accuracy echo_report echo_classification_metrics
                [3; 5; 2] [[3; 4]; [4; 5]; [1; 7]] 1 lm rep
                ltac:(discriminate) Hrun) as Htop.
  split; [| split].
  - apply (Htop 0). unfold len. simpl. lia.
  - apply (Htop 1). unfold len. simpl. lia.
  - apply (Htop 2). unfold len. simpl. lia.
Defined.

Lemma length_metrics_between_0_and_1_witness :
  exists lm rep,
    compute_length_metrics echo_classification_metrics
      [3; 5; 2] [[3; 4]; [4; 5]; [1; 7]] 1 = Ok (lm, rep) /\
    lm !! 1 = Some (2 # 3)%Q /\ (0 <= 2 # 3)%Q /\ (2 # 3 <= 1)%Q.
Proof.
  destruct (compute_length_metrics echo_classification_metrics
              [3; 5; 2] [[3; 4]; [4; 5]; [1; 7]] 1)
    as [[lm rep]|e] eqn:Hrun; [| vm_compute in Hrun; discriminate Hrun].
  exists lm, rep. split; [reflexivity |].
  assert (lm !! 1 = Some (2 # 3)%Q) as Hlookup.
  { pose proof Hrun as Hvalue. vm_compute in Hvalue.
    injection Hvalue as <- _. reflexivity. }
  split; [exact Hlookup |].
  exact (length_metrics_between_0_and_1 echo_report echo_classification_metrics
           [3; 5; 2] [[3; 4]; [4; 5]; [1; 7]] 1 lm rep Hrun 1 (2 # 3)%Q Hlookup).
Defined.

Lemma length_metrics_order_independent_witness :
  exists lm rep lm' rep',
    compute_length_metrics echo_classification_metrics
      [3; 5] [[3; 4]; [4; 5]] 0 = Ok (lm, rep) /\
    compute_length_metrics echo_classification_metrics
      [5; 3] [[4; 5]; [3; 4]] 1 = Ok (lm', rep') /\
    lm = lm'.
Proof.
  destruct (compute_length_metrics echo_classification_metrics
              [3; 5] [[3; 4]; [4; 5]] 0)
    as [[lm rep]|e] eqn:Hrun; [| vm_compute in Hrun; discriminate Hrun].
  destruct (compute_length_metrics echo_classification_metrics
              [5; 3] [[4; 5]; [3; 4]] 1)
    as [[lm' rep']|e] eqn:Hrun'; [| vm_compute in Hrun'; discriminate Hrun'].
  exists lm, rep, lm', rep'. split; [reflexivity |]. split; [reflexivity |].
  apply (length_metrics_order_independent echo_report echo_classification_metrics
           [3; 5] [5; 3] [[3; 4]; [4; 5]] [[4; 5]; [3; 4]] 0 1 lm lm' rep rep');
    [discriminate | discriminate | apply perm_swap | reflexivity | reflexivity
    | exact Hrun | exact Hrun'].
Defined.

Lemma surplus_prediction_lists_ignored_witness :
  compute_length_metrics echo_classification_metrics [3] [[3; 4]; [9; 9]] 0
  = compute_length_metrics echo_classification_metrics [3] [[3; 4]] 0.
Proof.
  apply (surplus_prediction_lists_ignored echo_report echo_classification_metrics
           [3] [[3; 4]; [9; 9]] 0).
  discriminate.
Defined.

Lemma fewer_prediction_lists_raise_witness :
  compute_length_metrics echo_classification_metrics
    [3; 5; 2] [[3; 4]; [4; 5]] 1 = Raise ValueError.
Proof.
  apply fewer_prediction_lists_raise;
    [discriminate | repeat constructor; discriminate | simpl; lia].
Defined.

Lemma empty_prediction_list_raises_witness :
  compute_length_metrics echo_classification_metrics
    [3; 5; 2] [[3; 4]; []; [1; 7]] 1 = Raise IndexError.
Proof.
  apply (empty_prediction_list_raises echo_report echo_classification_metrics
           [3; 5; 2] [[3; 4]; []; [1; 7]] 1 1%nat);
    [unfold len; simpl; lia | simpl; lia | reflexivity].
Defined.

Lemma beam_index_outside_beam_raises_witness :
  compute_length_metrics echo_classification_metrics
    [3; 5; 2] [[3; 4]; [4; 5]; [1; 7]] 2 = Raise KeyError.
Proof.
  apply beam_index_outside_beam_raises;
    [discriminate | repeat constructor; discriminate | simpl; lia | discriminate
    | unfold len; simpl; lia].
Defined.

Lemma no_gold_length_raises_witness :
  exists e, compute_length_metrics echo_classification_metrics [] [[1]] 0 = Raise e.
Proof.
  apply no_gold_length_raises. discriminate.
Defined.

Lemma report_agrees_with_length_metrics_witness :
  exists lm rep predictions label_names r,
    compute_length_metrics echo_classification_metrics
      [3; 5; 2] [[3; 4]; [4; 5]; [1; 7]] 1 = Ok (lm, rep) /\
    echo_classification_metrics predictions label_names 0%float = Ok r /\
    rep = Report r /\
    LabelPrediction.expected_label <$> predictions = [3; 5; 2] /\
    lm !! 1 = Some (fraction (report_hits predictions) (length predictions)).
Proof.
  destruct (compute_length_metrics echo_classification_metrics
              [3; 5; 2] [[3; 4]; [4; 5]; [1; 7]] 1)
    as [[lm rep]|e] eqn:Hrun; [| vm_compute in Hrun; discriminate Hrun].
  destruct (report_agrees_with_length_metrics echo_report
              echo_classification_metrics
              [3; 5; 2] [[3; 4]; [4; 5]; [1; 7]] 1 lm rep
              ltac:(discriminate) Hrun)
    as (predictions & label_names & r & Hr & Hrep & Hexpected & _ & Hhits).
  exists lm, rep, predictions, label_names, r. auto.
Defined.

Lemma report_labels_in_range_witness :
  exists lm rep predictions label_names r,
    compute_length_metrics echo_classification_metrics
      [3; 5; 2] [[3; 4]; [4; 5]; [1; 7]] 1 = Ok (lm, rep) /\
    echo_classification_metrics predictions label_names 0%float = Ok r /\
    rep = Report r /\
    Forall
      (fun p =>
         length (LabelPrediction.scores p) = length label_names /\
         LabelPrediction.scores p
           !! Z.to_nat (LabelPrediction.predicted_label p) = Some 1 /\
         label_names !! Z.to_nat (LabelPrediction.predicted_label p)
         = Some (str (LabelPrediction.predicted_label p)) /\
         label_names !! Z.to_nat (LabelPrediction.expected_label p)
         = Some (str (LabelPrediction.expected_label p)))
      predictions.
Proof.
  destruct (compute_length_metrics echo_classification_metrics
              [3; 5; 2] [[3; 4]; [4; 5]; [1; 7]] 1)
    as [[lm rep]|e] eqn:Hrun; [| vm_compute in Hrun; discriminate Hrun].
  destruct (report_labels_in_range echo_report echo_classification_metrics
              [3; 5; 2] [[3; 4]; [4; 5]; [1; 7]] 1 lm rep)
    as (predictions & label_names & r & Hr & Hrep & Hall);
    [discriminate | repeat constructor; lia | repeat constructor; lia
    | exact Hrun |].
  exists lm, rep, predictions, label_names, r. auto.
Defined.

Lemma empty_mapping_iff_empty_report_witness :
  exists lm rep,
    compute_length_metrics echo_classification_metrics [3] [[3]] 0 = Ok (lm, rep) /\
    (lm = ∅ <-> [[3]] = []) /\ (rep = EmptyDict <-> [[3]] = []).
Proof.
  destruct (compute_length_metrics echo_classification_metrics [3] [[3]] 0)
    as [[lm rep]|e] eqn:Hrun; [| vm_compute in Hrun; discriminate Hrun].
  exists lm, rep. split; [reflexivity |].
  exact (empty_mapping_iff_empty_report echo_report echo_classification_metrics
           [3] [[3]] 0 lm rep Hrun).
Defined.

Lemma length_metrics_independent_of_selected_beam_witness :
  exists lm rep lm' rep',
    compute_length_metrics echo_classification_metrics
      [3; 5; 2] [[3; 4]; [4; 5]; [1; 7]] 0 = Ok (lm, rep) /\
    compute_length_metrics echo_classification_metrics
      [3; 5; 2] [[3; 4]; [4; 5]; [1; 7]] 1 = Ok (lm', rep') /\
    lm = lm' /\ rep <> rep'.
Proof.
  destruct (compute_length_metrics echo_classification_metrics
              [3; 5; 2] [[3; 4]; [4; 5]; [1; 7]] 0)
    as [[lm rep]|e] eqn:Hrun; [| vm_compute in Hrun; discriminate Hrun].
  destruct (compute_length_metrics echo_classification_metrics
              [3; 5; 2] [[3; 4]; [4; 5]; [1; 7]] 1)
    as [[lm' rep']|e] eqn:Hrun'; [| vm_compute in Hrun'; discriminate Hrun'].
  exists lm, rep, lm', rep'. split; [reflexivity |]. split; [reflexivity |].
  split.
  - exact (length_metrics_independent_of_selected_beam echo_report
             echo_classification_metrics
             [3; 5; 2] [[3; 4]; [4; 5]; [1; 7]] 0 1 lm lm' rep rep' Hrun Hrun').
  - vm_compute in Hrun, Hrun'.
    injection Hrun as _ <-. injection Hrun' as _ <-. discriminate.
Defined.

Lemma print_metrics_of_computed_record_witness :
  exists m,
    compute_masked_metrics toggled_all_metrics bit_frame_accuracy
      echo_classification_metrics
      [true; true; true; true; false] [3; 5] [[3; 4]; [4; 5]] 1
      true true true true true false None None None
      None (Some [true]) true = Ok m /\
    (print_metrics (fun _ : unit => true) unit_print_metrics
       (fun _ : echo_report => true) echo_accuracy echo_print_metrics
       hash_format hash_format hash_dict m).2 = None.
Proof.
  destruct (compute_masked_metrics toggled_all_metrics bit_frame_accuracy
              echo_classification_metrics
              [true; true; true; true; false] [3; 5] [[3; 4]; [4; 5]] 1
              true true true true true false None None None
              None (Some [true]) true)
    as [m|e] eqn:Hm; [| vm_compute in Hm; discriminate Hm].
  exists m. split; [reflexivity |].
  edestruct print_metrics_of_computed_record as [_ Hnormal]; [exact Hm |].
  apply Hnormal.
  - intros metrics. reflexivity.
  - intros report. eexists _, _. reflexivity.
Defined.

Lemma nas_print_metrics_of_computed_record_witness :
  exists nas,
    compute_nas_masked_metrics toggled_all_metrics bit_frame_accuracy
      echo_classification_metrics first_power_pow
      [true; true; true; true; false] [3; 5] [[3; 4]; [4; 5]] 1
      true true true true true false None None None None None
      100 100 0.8 1
    = Ok nas /\
    exists texts,
    nas_print_metrics (fun _ : unit => true) unit_print_metrics
      (fun _ : echo_report => true) echo_accuracy echo_print_metrics
      hash_format hash_format hash_dict nas
    = (texts ++
       ["Normalized product of model parameter and frame accuracy "
        +:+ hash_format
              (NASMaskedSeq2SeqJointMetrics.norm_prod_model_param_frame_accuracy nas)],
       None).
Proof.
  destruct (compute_nas_masked_metrics toggled_all_metrics bit_frame_accuracy
              echo_classification_metrics first_power_pow
              [true; true; true; true; false] [3; 5] [[3; 4]; [4; 5]] 1
              true true true true true false None None None None None
              100 100 0.8 1)
    as [nas|e] eqn:Hnas; [| vm_compute in Hnas; discriminate Hnas].
  exists nas. split; [reflexivity |].
  edestruct nas_print_metrics_of_computed_record as [_ Hnormal]; [exact Hnas |].
  apply Hnormal.
  - intros metrics. reflexivity.
  - intros report. eexists _, _. reflexivity.
Defined.

Lemma print_metrics_without_report_witness :
  exists before,
    print_metrics (fun _ : unit => true) unit_print_metrics
      (fun _ : echo_report => true) echo_accuracy echo_print_metrics
      hash_format hash_format hash_dict
      (MaskedSeq2SeqJointMetrics.make
         (None : option float) (Some 0.5%float) None (None : option unit)
         (Some tt) None None
         (<[0 := 1%Q]> ∅) EmptyDict 0.25%float 0.25%float true)
    = (before ++ [newline +:+ newline +:+ "Length Metrics : "
                   +:+ hash_dict (<[0 := 1%Q]> ∅)],
       Some AttributeError).
Proof.
  apply (print_metrics_without_report unit unit echo_report).
  - apply insert_non_empty.
  - reflexivity.
  - intros metrics. reflexivity.
Defined.

Lemma length_report_header_follows_report_witness :
  exists before after,
    print_metrics (fun _ : unit => true) unit_print_metrics
      (fun _ : echo_report => true) echo_accuracy echo_print_metrics
      hash_format hash_format hash_dict
      (MaskedSeq2SeqJointMetrics.make
         (None : option float) (Some 0.5%float) None (None : option unit)
         (Some tt) None None
         (<[0 := 1%Q]> ∅)
         (Report ([LabelPrediction.make [0; 1] 1 1], ["0"; "1"]%string, 0%float))
         0.25%float 0%float true)
    = (before ++ ["<report>"%string]
       ++ [newline +:+ newline +:+ "Length Reports : " +:+ "None"]
       ++ after,
       None).
Proof.
  apply (length_report_header_follows_report unit unit echo_report
           (fun _ : unit => true) unit_print_metrics
           (fun _ : echo_report => true) echo_accuracy echo_print_metrics
           hash_format hash_format hash_dict _
           ([LabelPrediction.make [0; 1] 1 1], ["0"; "1"]%string, 0%float));
    reflexivity.
Defined.

Lemma zero_frame_accuracy_prints_as_absent_witness :
  print_metrics (fun _ : unit => true) unit_print_metrics
    (fun _ : echo_report => true) echo_accuracy echo_print_metrics
    hash_format hash_format hash_dict
    (MaskedSeq2SeqJointMetrics.make
       (None : option float) (Some 0%float) (Some neg_zero) (None : option unit)
       (Some tt) None None ∅ EmptyDict 0.25%float 0%float true)
  = print_metrics (fun _ : unit => true) unit_print_metrics
      (fun _ : echo_report => true) echo_accuracy echo_print_metrics
      hash_format hash_format hash_dict
      (MaskedSeq2SeqJointMetrics.make
         (None : option float) None None (None : option unit)
         (Some tt) None None ∅ EmptyDict 0.25%float 0%float true).
Proof.
  apply zero_frame_accuracy_prints_as_absent; reflexivity.
Defined.

Lemma no_predictions_no_length_texts_witness :
  exists m,
    compute_masked_metrics toggled_all_metrics bit_frame_accuracy
      echo_classification_metrics
      [true; true; true; true; false] [3; 5] [] 1
      true true true true true false None None None
      None (Some [true]) true = Ok m /\
    print_metrics (fun _ : unit => true) unit_print_metrics
      (fun _ : echo_report => true) echo_accuracy echo_print_metrics
      hash_format hash_format hash_dict m
    = print_metrics (fun _ : unit => true) unit_print_metrics
        (fun _ : echo_report => false) (fun _ => 1%float)
        (fun _ => ([], Raise ValueError))
        hash_format hash_format (fun _ => "{}"%string) m.
Proof.
  destruct (compute_masked_metrics toggled_all_metrics bit_frame_accuracy
              echo_classification_metrics
              [true; true; true; true; false] [3; 5] [] 1
              true true true true true false None None None
              None (Some [true]) true)
    as [m|e] eqn:Hm; [| vm_compute in Hm; discriminate Hm].
  exists m. split; [reflexivity |].
  eapply no_predictions_no_length_texts. exact Hm.
Defined.

Lemma length_fields_depend_on_lengths_only_witness :
  exists m m',
    compute_masked_metrics toggled_all_metrics bit_frame_accuracy
      echo_classification_metrics
      [true; true; true; true; false] [3; 5] [[3; 4]; [4; 5]] 1
      true true true true true false None None None
      None (Some [true]) true = Ok m /\
    compute_masked_metrics absent_all_metrics bit_frame_accuracy
      echo_classification_metrics
      [false] [3; 5] [[3; 4]; [4; 5]] 1
      false false false false false true None (Some 0.5%float) None
      (Some [false]) None false = Ok m' /\
    MaskedSeq2SeqJointMetrics.length_metrics m
    = MaskedSeq2SeqJointMetrics.length_metrics m' /\
    MaskedSeq2SeqJointMetrics.length_reports m
    = MaskedSeq2SeqJointMetrics.length_reports m'.
Proof.
  destruct (compute_masked_metrics toggled_all_metrics bit_frame_accuracy
              echo_classification_metrics
              [true; true; true; true; false] [3; 5] [[3; 4]; [4; 5]] 1
              true true true true true false None None None
              None (Some [true]) true)
    as [m|e] eqn:Hm; [| vm_compute in Hm; discriminate Hm].
  destruct (compute_masked_metrics absent_all_metrics bit_frame_accuracy
              echo_classification_metrics
              [false] [3; 5] [[3; 4]; [4; 5]] 1
              false false false false false true None (Some 0.5%float) None
              (Some [false]) None false)
    as [m'|e] eqn:Hm'; [| vm_compute in Hm'; discriminate Hm'].
  exists m, m'. split; [reflexivity |]. split; [reflexivity |].
  eapply length_fields_depend_on_lengths_only; [exact Hm | exact Hm'].
Defined.

Lemma zero_accuracy_zero_objective_witness :
  exists nas,
    compute_nas_masked_metrics toggled_all_metrics bit_frame_accuracy
      echo_classification_metrics first_power_pow
      [false; false] [3; 5] [[3; 4]; [4; 5]] 1
      true true true true true false None None None None None
      100 200 0.8 1
    = Ok nas /\
    PrimFloat.eqb
      (NASMaskedSeq2SeqJointMetrics.norm_prod_model_param_frame_accuracy nas) 0
    = true.
Proof.
  destruct (compute_masked_metrics toggled_all_metrics bit_frame_accuracy
              echo_classification_metrics
              [false; false] [3; 5] [[3; 4]; [4; 5]] 1
              true true true true true true None None None None None true)
    as [m|e] eqn:Hm; [| vm_compute in Hm; discriminate Hm].
  eapply (zero_accuracy_zero_objective _ _ _ _ _ _ _ _ first_power_pow
            _ _ _ _ _ _ _ _ _ _ _ _ _ _ _ _ _ _ _ m 0%float 200%float 100%float Hm).
  - vm_compute in Hm. injection Hm as <-. reflexivity.
  - reflexivity.
  - reflexivity.
  - reflexivity.
  - reflexivity.
  - reflexivity.
  - reflexivity.
Defined.
